(** * HotelSeaShore-Server: room inventory and reservation consistency

    A shallow embedding of the reservation ledger
    ([controllers/bookingController.js], [models/Booking.js]), of the hotel
    aggregate ([controllers/hotelController.js], [models/Hotel.js]), of
    the restaurant order-number hook ([models/restaurant/Order.js]), of
    the image URLs of the upload middleware
    ([middleware/uploadMiddleware.js]) and of the creation of a restaurant
    order ([controllers/restaurant/orderController.js]).

    Conventions of the embedding:
    - a collection is the list of its documents in insertion order, which is
      the order a query without a sort scans it in;
    - a date is its epoch value in milliseconds, a [Z]; a date of a
      request is taken as parsed;
    - an ObjectId is its 24-character string;
    - money amounts and counters are [Z];
    - strings are [string]; the JavaScript primitives the controllers call
      on them are written out in module [JS]; a string of a request is
      taken as the schema casts it (already trimmed);
    - a handler takes the collection and returns its response together with
      the collection it leaves behind. *)

From Stdlib Require Import ZArith List String Ascii Bool Lia DecimalString
  OrdersEx.
Import ListNotations.

Open Scope string_scope.
Open Scope Z_scope.

(* ===================================================================== *)
(** ** JavaScript primitives used by the controllers *)
(* ===================================================================== *)

Module JS.

(** A document field read back from the store: a stored document may lack
    the field, hold [null], or hold a string. *)
Inductive field : Type :=
| Missing : field
| Null : field
| Str : string -> field.

(** Truthiness of a string: only the empty string is falsy. *)
Definition truthy_string (s : string) : bool :=
  match s with
  | EmptyString => false
  | String _ _ => true
  end.

(** Truthiness of a field: [undefined], [null] and [""] are falsy. *)
Definition truthy_field (f : field) : bool :=
  match f with
  | Missing => false
  | Null => false
  | Str s => truthy_string s
  end.

(** Truthiness of an optional string argument ([null] when not given). *)
Definition truthy_opt (o : option string) : bool :=
  match o with
  | None => false
  | Some s => truthy_string s
  end.

(** Truthiness of a number: [0] is falsy. *)
Definition truthy_number (z : Z) : bool := negb (z =? 0).

(** Truthiness of an optional number ([undefined] when not given). *)
Definition truthy_opt_number (o : option Z) : bool :=
  match o with
  | None => false
  | Some z => truthy_number z
  end.

(** [String(n)] / [n.toString()] for an integral number. *)
Definition Number_toString (z : Z) : string :=
  NilZero.string_of_int (Z.to_int z).

Fixpoint repeat_char (c : ascii) (n : nat) : string :=
  match n with
  | O => EmptyString
  | S k => String c (repeat_char c k)
  end.

(** [s.padStart(n, "0")]. *)
Definition padStart0 (n : nat) (s : string) : string :=
  repeat_char "0"%char (n - String.length s) ++ s.

(** [s.slice(-n)]: the last [n] characters, the whole string when it is
    shorter. *)
Definition slice_last (n : nat) (s : string) : string :=
  substring (String.length s - n) n s.

(** [s.startsWith(p)], also the meaning of the regular expression [^p] for
    a pattern [p] made of digits. *)
Definition startsWith (p s : string) : bool := String.prefix p s.

Definition is_space (c : ascii) : bool :=
  let n := nat_of_ascii c in
  ((9 <=? n) && (n <=? 13))%nat || (n =? 32)%nat.

Fixpoint skip_spaces (s : string) : string :=
  match s with
  | EmptyString => EmptyString
  | String c r => if is_space c then skip_spaces r else s
  end.

Definition digit_value (c : ascii) : option Z :=
  let n := nat_of_ascii c in
  if ((48 <=? n) && (n <=? 57))%nat then Some (Z.of_nat (n - 48)) else None.

(** The longest run of decimal digits at the head of [s], read as a number;
    [acc] is [None] until a digit has been seen. *)
Fixpoint read_digits (s : string) (acc : option Z) : option Z :=
  match s with
  | EmptyString => acc
  | String c r =>
      match digit_value c with
      | Some d =>
          read_digits r (Some (10 * match acc with Some a => a | None => 0 end + d))
      | None => acc
      end
  end.

(** [parseInt(s, 10)]; [None] is [NaN]. *)
Definition parseInt (s : string) : option Z :=
  match skip_spaces s with
  | EmptyString => None
  | String c r =>
      if Ascii.eqb c "-"%char then option_map Z.opp (read_digits r None)
      else if Ascii.eqb c "+"%char then read_digits r None
      else read_digits (String c r) None
  end.

Definition hex_value (c : ascii) : option Z :=
  let n := nat_of_ascii c in
  if ((48 <=? n) && (n <=? 57))%nat then Some (Z.of_nat (n - 48))
  else if ((65 <=? n) && (n <=? 70))%nat then Some (Z.of_nat (n - 55))
  else if ((97 <=? n) && (n <=? 102))%nat then Some (Z.of_nat (n - 87))
  else None.

(** The longest run of hexadecimal digits at the head of [s], read as a
    number. *)
Fixpoint read_hex_digits (s : string) (acc : option Z) : option Z :=
  match s with
  | EmptyString => acc
  | String c r =>
      match hex_value c with
      | Some d =>
          read_hex_digits r
            (Some (16 * match acc with Some a => a | None => 0 end + d))
      | None => acc
      end
  end.

(** [parseInt(s)] with no radix: after the white space and the sign, a
    string that starts with [0x] or [0X] is read in base 16, any other
    string in base 10; [None] is [NaN]. *)
Definition parseIntNoRadix (s : string) : option Z :=
  match skip_spaces s with
  | EmptyString => None
  | String c r =>
      let signed := Ascii.eqb c "-"%char || Ascii.eqb c "+"%char in
      let body := if signed then r else String c r in
      if startsWith "0x" body || startsWith "0X" body then
        let digits :=
          read_hex_digits (substring 2 (String.length body - 2) body) None in
        if Ascii.eqb c "-"%char then option_map Z.opp digits else digits
      else parseInt s
  end.

(** [x > y] where [x] may be [NaN]: a comparison with [NaN] is false. *)
Definition gt_nan (x : option Z) (y : Z) : bool :=
  match x with
  | Some v => y <? v
  | None => false
  end.

End JS.

(* ===================================================================== *)
(** ** The reservation ledger *)
(* ===================================================================== *)

Module Ledger.

Import JS.

(** A stored booking document.  The paths modelled are the ones the
    controller reads or writes by name; the remaining paths of the schema
    (phone, hotelName, nights, ...) are payload that the handlers copy
    without looking at it.  Of the two timestamps of the schema,
    [createdAt] is modelled; [updatedAt], which every save and every
    update rewrites, is not, and no statement is made about it. *)
Record Booking : Type := mkBooking {
  _id : string;
  fullName : field;
  hotelID : Z;
  roomCategoryID : string;
  roomNumberID : string;
  checkInDate : Z;
  checkOutDate : Z;
  totalBill : Z;
  advancePayment : Z;
  duePayment : Z;
  bookingNo : field;
  serialNo : Z;
  reference : option string;
  statusID : Z;
  canceledBy : option string;
  reason : option string;
  createdAt : Z
}.

Definition Store : Type := list Booking.

(** The status of a cancelled booking. *)
Definition CANCELLED : Z := 255.

(** The Mongo filter built by [checkBookingOverlap], as a predicate on one
    stored document. *)
Definition overlapFilter (hotel : Z) (room category : string)
    (newCheckIn newCheckOut : Z) (excludeBookingId : option string)
    (b : Booking) : bool :=
  (hotelID b =? hotel)
  && String.eqb (roomNumberID b) room
  && String.eqb (roomCategoryID b) category
  && negb (statusID b =? CANCELLED)
  && (checkInDate b <? newCheckOut)
  && (newCheckIn <? checkOutDate b)
  && (if truthy_opt excludeBookingId
      then match excludeBookingId with
           | Some e => negb (String.eqb (_id b) e)
           | None => true
           end
      else true).

(** [checkBookingOverlap]: [Booking.findOne(filter)], the first stored
    document the filter accepts, [None] for [null]. *)
Definition checkBookingOverlap (store : Store) (hotel : Z)
    (room category : string) (checkIn checkOut : Z)
    (excludeBookingId : option string) : option Booking :=
  find (overlapFilter hotel room category checkIn checkOut excludeBookingId)
       store.

(** The later of two documents in the order of [_id]: ObjectIds compare
    byte by byte, which is how their strings compare. *)
Definition largerId (a b : Booking) : Booking :=
  if String.ltb (_id a) (_id b) then b else a.

(** [Booking.findOne().sort({ _id: -1 })]: the stored document with the
    largest [_id], [None] on an empty collection. *)
Definition lastById (store : Store) : option Booking :=
  match store with
  | [] => None
  | b :: rest => Some (fold_left largerId rest b)
  end.

(** [generateSerialNo]: the [serialNo] of the booking with the largest
    [_id] plus one, [1] on an empty collection. *)
Definition generateSerialNo (store : Store) : Z :=
  match lastById store with
  | Some lastBooking => serialNo lastBooking + 1
  | None => 1
  end.

(** What the local-time getters of [new Date()] return: [getFullYear()],
    [getMonth()] (January is 0) and [getDate()]. *)
Record LocalDate : Type := mkLocalDate {
  getFullYear : Z;
  getMonth : Z;
  getDate : Z
}.

(** The [datePrefix] of [generateBookingNo]. *)
Definition datePrefix (currentDate : LocalDate) : string :=
  let year := slice_last 2 (Number_toString (getFullYear currentDate)) in
  let month := padStart0 2 (Number_toString (getMonth currentDate + 1)) in
  let day := padStart0 2 (Number_toString (getDate currentDate)) in
  year ++ month ++ day.

(** The query [{ bookingNo: { $regex: `^${datePrefix}` } }]: only a string
    can match a regular expression. *)
Definition matchesPrefix (prefix : string) (b : Booking) : bool :=
  match bookingNo b with
  | Str s => startsWith prefix s
  | _ => false
  end.

(** One turn of the [forEach] loop of [generateBookingNo]. *)
Definition bumpMaxSerial (maxSerialNo : Z) (booking : Booking) : Z :=
  match bookingNo booking with
  | Str s =>
      if truthy_string s then
        let serial := parseInt (slice_last 2 s) in
        if gt_nan serial maxSerialNo
        then match serial with Some v => v | None => maxSerialNo end
        else maxSerialNo
      else maxSerialNo
  | _ => maxSerialNo
  end.

Definition maxSerialOfDay (prefix : string) (store : Store) : Z :=
  fold_left bumpMaxSerial (filter (matchesPrefix prefix) store) 0.

(** [generateBookingNo]. *)
Definition generateBookingNo (currentDate : LocalDate) (store : Store)
    : string :=
  let prefix := datePrefix currentDate in
  let maxSerialNo := maxSerialOfDay prefix store in
  let newSerialNo := padStart0 2 (Number_toString (maxSerialNo + 1)) in
  prefix ++ newSerialNo.

(** The body of a create or update request.  [None] is an absent key.
    [restValid] tells whether the paths that are not modelled one by one
    pass their schema validators. *)
Record BookingData : Type := mkBookingData {
  d_fullName : option string;
  d_hotelID : option Z;
  d_roomCategoryID : option string;
  d_roomNumberID : option string;
  d_checkInDate : option Z;
  d_checkOutDate : option Z;
  d_totalBill : option Z;
  d_advancePayment : option Z;
  d_duePayment : option Z;
  d_bookingNo : option string;
  d_serialNo : option Z;
  d_reference : option string;
  d_statusID : option Z;
  d_canceledBy : option string;
  d_reason : option string;
  restValid : bool
}.

Inductive Failure : Type :=
| RoomKeysRequired      (* "hotelID, roomNumberID, and roomCategoryID are required ..." *)
| DatesRequired         (* "checkInDate and checkOutDate are required" *)
| ValidationError       (* a schema validator rejected the document *)
| DuplicateKey          (* E11000 on a unique index *)
| CastError             (* a value that cannot be cast to the type of its path *)
| BookingNotFound       (* "Booking not found" *)
| NoBookingsForHotel    (* "No bookings found for this hotel ID" *)
| InvalidHotelID.       (* "Invalid hotelID. Must be a number." *)

Inductive Response : Type :=
| Status200 : Booking -> Response
| Status200List : list Booking -> Response
| Status400 : Failure -> Response
| Status404 : Failure -> Response
| Status409 : Booking -> Response
| Status500 : Failure -> Response.

(** What a create meets besides the paths of [BookingData]: the local
    date, and the [_id] and the [createdAt] the new document is created
    with.  The handler reads neither; [Booking.create] takes them from the
    body when the body carries them and from the driver and the clock
    otherwise. *)
Record Env : Type := mkEnv {
  today : LocalDate;
  now : Z;
  newObjectId : string
}.

Definition statusEnum (s : Z) : bool :=
  (s =? 1) || (s =? 2) || (s =? 3) || (s =? 255).

Definition requiredString (o : option string) : bool := truthy_opt o.

(** Document validation of [BookingSchema], run by [save] before the
    [pre("save")] hooks.  [this] is the document under validation. *)
Definition validateDocument (doc : BookingData) : bool :=
  requiredString (d_fullName doc)
  && match d_hotelID doc with Some _ => true | None => false end
  && requiredString (d_roomCategoryID doc)
  && requiredString (d_roomNumberID doc)
  && match d_checkInDate doc, d_checkOutDate doc with
     | Some ci, Some co => ci <? co
     | _, _ => false
     end
  && match d_totalBill doc, d_advancePayment doc with
     | Some t, Some a => (0 <=? t) && (0 <=? a) && (a <=? t)
     | _, _ => false
     end
  && match d_duePayment doc with Some d => 0 <=? d | None => false end
  && requiredString (d_bookingNo doc)
  && match d_statusID doc with Some s => statusEnum s | None => true end
  && restValid doc.

Definition withDuePayment (b : Booking) (due : Z) : Booking :=
  {| _id := _id b;
     fullName := fullName b;
     hotelID := hotelID b;
     roomCategoryID := roomCategoryID b;
     roomNumberID := roomNumberID b;
     checkInDate := checkInDate b;
     checkOutDate := checkOutDate b;
     totalBill := totalBill b;
     advancePayment := advancePayment b;
     duePayment := due;
     bookingNo := bookingNo b;
     serialNo := serialNo b;
     reference := reference b;
     statusID := statusID b;
     canceledBy := canceledBy b;
     reason := reason b;
     createdAt := createdAt b |}.

(** The [pre("save")] hook; the two flags are [this.isModified("totalBill")]
    and [this.isModified("advancePayment")]. *)
Definition preSave (totalBillModified advancePaymentModified : bool)
    (this : Booking) : Booking :=
  if totalBillModified || advancePaymentModified
  then withDuePayment this (Z.max 0 (totalBill this - advancePayment this))
  else this.

Definition hasBookingNo (no : string) (b : Booking) : bool :=
  match bookingNo b with
  | Str s => String.eqb s no
  | _ => false
  end.

Definition orZero (o : option Z) : Z :=
  match o with Some z => z | None => 0 end.

Definition orEmpty (o : option string) : string :=
  match o with Some s => s | None => "" end.

(** [Booking.create(doc)]: defaults, validation, the [pre("save")] hook
    (on a new document the paths that were set count as modified), then the
    insert, which the unique indexes on [bookingNo], [serialNo] and [_id]
    can refuse. *)
Definition Booking_create (env : Env) (store : Store) (doc : BookingData)
    : Booking + Failure :=
  if negb (validateDocument doc) then inr ValidationError
  else
    let no := orEmpty (d_bookingNo doc) in
    if existsb (hasBookingNo no) store then inr DuplicateKey
    else if match d_serialNo doc with
            | Some n => existsb (fun b => serialNo b =? n) store
            | None => false
            end then inr DuplicateKey
    else if existsb (fun b => String.eqb (_id b) (newObjectId env)) store
    then inr DuplicateKey
    else
      inl (preSave true true
           {| _id := newObjectId env;
             fullName := Str (orEmpty (d_fullName doc));
             hotelID := orZero (d_hotelID doc);
             roomCategoryID := orEmpty (d_roomCategoryID doc);
             roomNumberID := orEmpty (d_roomNumberID doc);
             checkInDate := orZero (d_checkInDate doc);
             checkOutDate := orZero (d_checkOutDate doc);
             totalBill := orZero (d_totalBill doc);
             advancePayment := orZero (d_advancePayment doc);
             duePayment := orZero (d_duePayment doc);
             bookingNo := Str no;
             serialNo := orZero (d_serialNo doc);
             reference := d_reference doc;
             statusID := match d_statusID doc with Some s => s | None => 1 end;
             canceledBy := d_canceledBy doc;
             reason := d_reason doc;
             createdAt := now env |}).

(** [{ ...bookingData, bookingNo, serialNo }]. *)
Definition withNumbers (data : BookingData) (no : string) (serial : Z)
    : BookingData :=
  {| d_fullName := d_fullName data;
     d_hotelID := d_hotelID data;
     d_roomCategoryID := d_roomCategoryID data;
     d_roomNumberID := d_roomNumberID data;
     d_checkInDate := d_checkInDate data;
     d_checkOutDate := d_checkOutDate data;
     d_totalBill := d_totalBill data;
     d_advancePayment := d_advancePayment data;
     d_duePayment := d_duePayment data;
     d_bookingNo := Some no;
     d_serialNo := Some serial;
     d_reference := d_reference data;
     d_statusID := d_statusID data;
     d_canceledBy := d_canceledBy data;
     d_reason := d_reason data;
     restValid := restValid data |}.

(** The booking number [createBooking] settles on. *)
Definition chooseBookingNo (env : Env) (store : Store)
    (bookingData : BookingData) : string :=
  if truthy_opt (d_reference bookingData) then
    match find (hasBookingNo (orEmpty (d_reference bookingData))) store with
    | Some referenceBooking =>
        match bookingNo referenceBooking with
        | Str s => s
        | _ => ""
        end
    | None => generateBookingNo (today env) store
    end
  else generateBookingNo (today env) store.

(** [createBooking]. *)
Definition createBooking (env : Env) (store : Store)
    (bookingData : BookingData) : Response * Store :=
  if negb (truthy_opt_number (d_hotelID bookingData))
     || negb (truthy_opt (d_roomNumberID bookingData))
     || negb (truthy_opt (d_roomCategoryID bookingData))
  then (Status400 RoomKeysRequired, store)
  else
    match d_checkInDate bookingData, d_checkOutDate bookingData with
    | Some checkIn, Some checkOut =>
        match checkBookingOverlap store
                (orZero (d_hotelID bookingData))
                (orEmpty (d_roomNumberID bookingData))
                (orEmpty (d_roomCategoryID bookingData))
                checkIn checkOut None with
        | Some overlappingBooking => (Status409 overlappingBooking, store)
        | None =>
            let serial := generateSerialNo store in
            let no := chooseBookingNo env store bookingData in
            match Booking_create env store (withNumbers bookingData no serial) with
            | inl booking => (Status200 booking, (store ++ [booking])%list)
            | inr e => (Status400 e, store)
            end
        end
    | _, _ => (Status400 DatesRequired, store)
    end.

(** [Booking.findById(id)]. *)
Definition findById (store : Store) (id : string) : option Booking :=
  find (fun b => String.eqb (_id b) id) store.

Definition orElse {A : Type} (o : option A) (d : A) : A :=
  match o with Some a => a | None => d end.

(** The document after [$set]-ting the keys present in the update. *)
Definition applyUpdate (b : Booking) (data : BookingData) : Booking :=
  {| _id := _id b;
     fullName := match d_fullName data with Some s => Str s | None => fullName b end;
     hotelID := orElse (d_hotelID data) (hotelID b);
     roomCategoryID := orElse (d_roomCategoryID data) (roomCategoryID b);
     roomNumberID := orElse (d_roomNumberID data) (roomNumberID b);
     checkInDate := orElse (d_checkInDate data) (checkInDate b);
     checkOutDate := orElse (d_checkOutDate data) (checkOutDate b);
     totalBill := orElse (d_totalBill data) (totalBill b);
     advancePayment := orElse (d_advancePayment data) (advancePayment b);
     duePayment := orElse (d_duePayment data) (duePayment b);
     bookingNo := match d_bookingNo data with Some s => Str s | None => bookingNo b end;
     serialNo := orElse (d_serialNo data) (serialNo b);
     reference := match d_reference data with Some s => Some s | None => reference b end;
     statusID := orElse (d_statusID data) (statusID b);
     canceledBy := match d_canceledBy data with Some s => Some s | None => canceledBy b end;
     reason := match d_reason data with Some s => Some s | None => reason b end;
     createdAt := createdAt b |}.

(** The write of [findByIdAndUpdate]: the first document with this [_id]
    is replaced.  No [save] takes place, so no [pre("save")] hook runs. *)
Fixpoint updateFirst (id : string) (data : BookingData) (store : Store)
    : Store :=
  match store with
  | [] => []
  | b :: rest =>
      if String.eqb (_id b) id then applyUpdate b data :: rest
      else b :: updateFirst id data rest
  end.

(** Whether the update would give this document a [bookingNo] or a
    [serialNo] that another document holds (unique indexes). *)
Definition breaksUniqueIndex (store : Store) (id : string)
    (data : BookingData) : bool :=
  existsb (fun b =>
             negb (String.eqb (_id b) id)
             && (match d_bookingNo data with
                 | Some no => hasBookingNo no b
                 | None => false
                 end
                 || match d_serialNo data with
                    | Some n => serialNo b =? n
                    | None => false
                    end))
          store.

Section UpdateBooking.

(** The verdict of the schema validators that [runValidators: true] runs on
    the paths of an update.  Inside an update validator [this] is the query
    and not the document, so the verdict is a function of the update
    alone. *)
Variable updateValidators : BookingData -> bool.

(** [Booking.findByIdAndUpdate(id, data, { new: true, runValidators: true })]:
    the updated document, [inl None] when no document has this [_id]. *)
Definition findByIdAndUpdate (store : Store) (id : string)
    (data : BookingData) : (option Booking * Store) + Failure :=
  if negb (updateValidators data) then inr ValidationError
  else
    match findById store id with
    | None => inl (None, store)
    | Some b =>
        if breaksUniqueIndex store id data then inr DuplicateKey
        else inl (Some (applyUpdate b data), updateFirst id data store)
    end.

(** [updateBooking].  The handler tests the dates of the body for
    truthiness as it tests the room keys: a date given as the number [0]
    counts as not given, for the conflict check only; the update still
    writes it.  The stored dates are always there to fall back on, so the
    test [!checkInDate || !checkOutDate] never fires. *)
Definition updateBooking (store : Store) (id : string)
    (bookingData : BookingData) : Response * Store :=
  match findById store id with
  | None => (Status404 BookingNotFound, store)
  | Some existingBooking =>
      let datesChanged :=
        truthy_opt_number (d_checkInDate bookingData)
        || truthy_opt_number (d_checkOutDate bookingData) in
      let roomChanged :=
        truthy_opt_number (d_hotelID bookingData)
        || truthy_opt (d_roomNumberID bookingData)
        || truthy_opt (d_roomCategoryID bookingData) in
      let overlappingBooking :=
        if datesChanged || roomChanged then
          let hotel :=
            if truthy_opt_number (d_hotelID bookingData)
            then orZero (d_hotelID bookingData) else hotelID existingBooking in
          let room :=
            if truthy_opt (d_roomNumberID bookingData)
            then orEmpty (d_roomNumberID bookingData)
            else roomNumberID existingBooking in
          let category :=
            if truthy_opt (d_roomCategoryID bookingData)
            then orEmpty (d_roomCategoryID bookingData)
            else roomCategoryID existingBooking in
          let checkIn :=
            if truthy_opt_number (d_checkInDate bookingData)
            then orZero (d_checkInDate bookingData)
            else checkInDate existingBooking in
          let checkOut :=
            if truthy_opt_number (d_checkOutDate bookingData)
            then orZero (d_checkOutDate bookingData)
            else checkOutDate existingBooking in
          checkBookingOverlap store hotel room category checkIn checkOut (Some id)
        else None in
      match overlappingBooking with
      | Some o => (Status409 o, store)
      | None =>
          match findByIdAndUpdate store id bookingData with
          | inl (Some booking, store') => (Status200 booking, store')
          | inl (None, store') => (Status404 BookingNotFound, store')
          | inr e => (Status400 e, store)
          end
      end
  end.

End UpdateBooking.


Section CancelBooking.

(** Whether a request parameter can be cast to an ObjectId; the query
    throws a cast error when it cannot. *)
Variable isValidObjectId : string -> bool.


End CancelBooking.

(** The query condition [{ $exists: true, $ne: null, $ne: "" }]: an object
    literal keeps the last of two equal keys, so the condition the store
    receives is [{ $exists: true, $ne: "" }], which a [null] passes. *)
Definition existsAndNotEmpty (f : field) : bool :=
  match f with
  | Missing => false
  | Null => true
  | Str s => negb (String.eqb s "")
  end.

(** The filter of the listing queries. *)
Definition listingQuery (b : Booking) : bool :=
  negb (statusID b =? CANCELLED)
  && existsAndNotEmpty (fullName b)
  && existsAndNotEmpty (bookingNo b).

Fixpoint insertByCreatedAtDesc (b : Booking) (sorted : list Booking)
    : list Booking :=
  match sorted with
  | [] => [b]
  | x :: rest =>
      if createdAt x <? createdAt b then b :: sorted
      else x :: insertByCreatedAtDesc b rest
  end.

(** [.sort({ createdAt: -1 })]. *)
Definition sortByCreatedAtDesc (l : list Booking) : list Booking :=
  fold_right insertByCreatedAtDesc [] l.

(** The in-memory filter
    [booking && booking._id && booking.fullName && booking.bookingNo]. *)
Definition validBooking (b : Booking) : bool :=
  truthy_string (_id b) && truthy_field (fullName b) && truthy_field (bookingNo b).

(** [getBookings]. *)
Definition getBookings (store : Store) : Response :=
  let bookings := sortByCreatedAtDesc (filter listingQuery store) in
  Status200List (filter validBooking bookings).

(** [getBookingsByHotelId]; the argument is [Number(hotelID)], [None] for
    [NaN]. *)
Definition getBookingsByHotelId (store : Store) (numericHotelID : option Z)
    : Response :=
  match numericHotelID with
  | None => Status400 InvalidHotelID
  | Some h =>
      let bookings :=
        sortByCreatedAtDesc
          (filter (fun b => (hotelID b =? h) && listingQuery b) store) in
      let validBookings := filter validBooking bookings in
      match validBookings with
      | [] => Status404 NoBookingsForHotel
      | _ => Status200List validBookings
      end
  end.

End Ledger.

(* ===================================================================== *)
(** ** The upload middleware *)
(* ===================================================================== *)

Module Upload.

Import JS.

(** [s.replace(/\\/g, "/")]. *)
Fixpoint slashes (s : string) : string :=
  match s with
  | EmptyString => EmptyString
  | String c r => String (if Ascii.eqb c "\"%char then "/"%char else c) (slashes r)
  end.

(** [s.substring(i)]. *)
Definition substringFrom (i : nat) (s : string) : string :=
  substring i (String.length s - i) s.

(** [s.split("/")]; [cur] is the part being read. *)
Fixpoint splitSlash (s : string) (cur : string) : list string :=
  match s with
  | EmptyString => [cur]
  | String c r =>
      if Ascii.eqb c "/"%char then cur :: splitSlash r EmptyString
      else splitSlash r (cur ++ String c EmptyString)
  end.

(** [parts.findIndex((part) => part === "uploads")]. *)
Fixpoint findUploads (parts : list string) : option nat :=
  match parts with
  | [] => None
  | p :: rest =>
      if String.eqb p "uploads" then Some O
      else option_map S (findUploads rest)
  end.

(** [parts.join("/")]. *)
Fixpoint joinSlash (parts : list string) : string :=
  match parts with
  | [] => EmptyString
  | [p] => p
  | p :: rest => p ++ "/" ++ joinSlash rest
  end.

(** The URL [getImageUrls] builds for the file stored at [path]. *)
Definition imageUrl (base path : string) : string :=
  let relativePath := slashes path in
  let relativePath :=
    if startsWith "uploads/" relativePath then relativePath
    else
      match String.index 0 "uploads/" relativePath with
      | Some uploadsIndex => substringFrom uploadsIndex relativePath
      | None =>
          let pathParts := splitSlash relativePath EmptyString in
          match findUploads pathParts with
          | Some uploadsIndex => joinSlash (skipn uploadsIndex pathParts)
          | None => "uploads/" ++ relativePath
          end
      end in
  base ++ "/" ++ relativePath.

(** [baseUrl || process.env.BASE_URL || "http://localhost:8000"], the
    controllers passing no [baseUrl]. *)
Definition baseOf (envBaseUrl : option string) : string :=
  if truthy_opt envBaseUrl
  then match envBaseUrl with Some b => b | None => "" end
  else "http://localhost:8000".

(** [getImageUrls(req)]; [files] is [req.files], empty when there is
    none. *)
Definition getImageUrls (envBaseUrl : option string) (files : list string)
    : list string :=
  match files with
  | [] => []
  | _ => map (imageUrl (baseOf envBaseUrl)) files
  end.

End Upload.

(* ===================================================================== *)
(** ** The hotel aggregate *)
(* ===================================================================== *)

Module Inventory.

Import JS.

(** A room, embedded in its category.  The legacy booking mirror
    ([bookings], [bookedDates]) and the pricing paths are payload and left
    out, and with them the two legacy routes that write only to the
    mirror. *)
Record Room : Type := mkRoom {
  room_id : string;
  room_name : string;
  room_status : string;
  room_images : list string
}.

Record Category : Type := mkCategory {
  category_id : string;
  category_name : string;
  category_images : list string;
  roomNumbers : list Room
}.

Record Hotel : Type := mkHotel {
  hotel_id : string;
  hotelID : Z;
  hotelName : string;
  hotelDescription : string;
  status : string;
  images : list string;
  roomCategories : list Category;
  totalRooms : Z;
  availableRooms : Z
}.

Definition Db : Type := list Hotel.

(** The virtual [calculatedTotalRooms]. *)
Definition calculatedTotalRooms (h : Hotel) : Z :=
  fold_left
    (fun total category => total + Z.of_nat (List.length (roomNumbers category)))
    (roomCategories h) 0.

(** The virtual [calculatedAvailableRooms]. *)
Definition calculatedAvailableRooms (h : Hotel) : Z :=
  fold_left
    (fun total category =>
       let availableInCategory :=
         Z.of_nat
           (List.length
              (filter (fun room => String.eqb (room_status room) "available")
                      (roomNumbers category))) in
       total + availableInCategory)
    (roomCategories h) 0.

(** The [pre("save")] middleware of [HotelSchema]. *)
Definition preSave (h : Hotel) : Hotel :=
  {| hotel_id := hotel_id h;
     hotelID := hotelID h;
     hotelName := hotelName h;
     hotelDescription := hotelDescription h;
     status := status h;
     images := images h;
     roomCategories := roomCategories h;
     totalRooms := calculatedTotalRooms h;
     availableRooms := calculatedAvailableRooms h |}.

Definition roomStatusEnum (s : string) : bool :=
  String.eqb s "available" || String.eqb s "occupied"
  || String.eqb s "maintenance" || String.eqb s "reserved".

Definition hotelStatusEnum (s : string) : bool :=
  String.eqb s "active" || String.eqb s "inactive" || String.eqb s "maintenance".

Definition validRoom (r : Room) : bool :=
  truthy_string (room_name r) && roomStatusEnum (room_status r).

Definition validCategory (c : Category) : bool :=
  truthy_string (category_name c) && forallb validRoom (roomNumbers c).

(** Document validation of [HotelSchema]: required names, enumerated
    statuses, down the tree. *)
Definition validHotel (h : Hotel) : bool :=
  truthy_string (hotelName h)
  && truthy_string (hotelDescription h)
  && hotelStatusEnum (status h)
  && forallb validCategory (roomCategories h).

Fixpoint replaceHotel (h : Hotel) (db : Db) : Db :=
  match db with
  | [] => []
  | x :: rest =>
      if String.eqb (hotel_id x) (hotel_id h) then h :: rest
      else x :: replaceHotel h rest
  end.

(** [hotel.save()] on a loaded document: validation, the hook, the write.
    [None] when validation throws. *)
Definition save (db : Db) (h : Hotel) : option Db :=
  if validHotel h then Some (replaceHotel (preSave h) db) else None.

(** The [images] key of a request body: absent, one URL, or an array. *)
Inductive BodyImages : Type :=
| NoImages : BodyImages
| OneImage : string -> BodyImages
| ImageArray : list string -> BodyImages.

Definition truthy_images (b : BodyImages) : bool :=
  match b with
  | NoImages => false
  | OneImage s => truthy_string s
  | ImageArray _ => true
  end.

(** [Array.isArray(images) ? images : [images]]. *)
Definition asArray (b : BodyImages) : list string :=
  match b with
  | NoImages => []
  | OneImage s => [s]
  | ImageArray l => l
  end.

(** [Array.isArray(images) ? images.slice(0, 3) : [images]]. *)
Definition asArrayCapped (b : BodyImages) : list string :=
  match b with
  | NoImages => []
  | OneImage s => [s]
  | ImageArray l => firstn 3 l
  end.

(** What reaches a handler besides the body: the uploaded files
    ([req.files], empty when there is none) and [process.env.BASE_URL]. *)
Record Attachments : Type := mkAttachments {
  files : list string;
  envBaseUrl : option string
}.

Definition hasFiles (u : Attachments) : bool :=
  match files u with [] => false | _ => true end.

(** An [images] key of the body as the schema casts it when the handler
    left it as it came: a string becomes an array of one string, the empty
    string too; [None] when the body has no such key. *)
Definition castImages (body : BodyImages) : option (list string) :=
  match body with
  | NoImages => None
  | OneImage s => Some [s]
  | ImageArray l => Some l
  end.

(** The [images] the document is given: the list the image branch
    settled on, else the [images] key of the body as it came. *)
Definition imagesWritten (newImages : option (list string))
    (body : BodyImages) : option (list string) :=
  match newImages with
  | Some l => Some l
  | None => castImages body
  end.

(** The image branch of [createHotel], [addCategory] and [addRoom]: the
    list it writes into the body, [None] when it leaves the body as it
    came. *)
Definition imagesOnCreate (u : Attachments) (body : BodyImages)
    : option (list string) :=
  if hasFiles u then Some (Upload.getImageUrls (envBaseUrl u) (files u))
  else if truthy_images body then Some (asArray body)
  else None.

(** The image branch of [updateHotel], [updateCategory] and [updateRoom]:
    the list it writes into the body, [None] when it leaves the body as it
    came; [existingImages] is the list of the document being updated. *)
Definition imagesOnUpdate (u : Attachments) (body : BodyImages)
    (existingImages : list string) : option (list string) :=
  if hasFiles u then
    let imageUrls := Upload.getImageUrls (envBaseUrl u) (files u) in
    Some (firstn 3 (existingImages ++ imageUrls)%list)
  else if truthy_images body then Some (asArrayCapped body)
  else None.

Record HotelData : Type := mkHotelData {
  hd_hotelName : option string;
  hd_hotelDescription : option string;
  hd_status : option string;
  hd_images : BodyImages;
  hd_roomCategories : option (list Category);
  hd_totalRooms : option Z;
  hd_availableRooms : option Z
}.

Record CategoryData : Type := mkCategoryData {
  cd_name : option string;
  cd_images : BodyImages;
  cd_roomNumbers : option (list Room)
}.

Record RoomData : Type := mkRoomData {
  rd_name : option string;
  rd_status : option string;
  rd_images : BodyImages
}.

(** A response of [sendSuccessResponse] / [sendErrorResponse]: the status
    code and the message. *)
Inductive Response : Type :=
| Sent : Z -> string -> Response
| SentCaught : Z -> Response.   (* the message is that of the error caught *)

Definition statusCode (r : Response) : Z :=
  match r with
  | Sent code _ => code
  | SentCaught code => code
  end.

Definition orElse {A : Type} (o : option A) (d : A) : A :=
  match o with Some a => a | None => d end.

(** [getNextHotelID]. *)
Definition getNextHotelID (db : Db) : Z :=
  match db with
  | [] => 1
  | h :: rest =>
      let lastHotelID := fold_left Z.max (map hotelID rest) (hotelID h) in
      if truthy_number lastHotelID then lastHotelID + 1 else 1
  end.

Definition withHotelID (h : Hotel) (n : Z) : Hotel :=
  {| hotel_id := hotel_id h;
     hotelID := n;
     hotelName := hotelName h;
     hotelDescription := hotelDescription h;
     status := status h;
     images := images h;
     roomCategories := roomCategories h;
     totalRooms := totalRooms h;
     availableRooms := availableRooms h |}.

(** [createHotel]; [newId] is the [_id] the driver gives the document and
    [nextSequence] the number the auto-increment plugin of the schema
    gives it: on a new document the plugin sets [hotelID] from its own
    counter, over the number the handler computed.  The unique index on
    [hotelID] can refuse the insert. *)
Definition createHotel (db : Db) (newId : string) (nextSequence : Z)
    (u : Attachments) (hotelData : HotelData) : Response * Db :=
  let hotelID := getNextHotelID db in
  let hotel :=
    {| hotel_id := newId;
       hotelID := hotelID;
       hotelName := orElse (hd_hotelName hotelData) "";
       hotelDescription := orElse (hd_hotelDescription hotelData) "";
       status := orElse (hd_status hotelData) "active";
       images :=
         orElse (imagesWritten (imagesOnCreate u (hd_images hotelData))
                               (hd_images hotelData)) [];
       roomCategories := orElse (hd_roomCategories hotelData) [];
       totalRooms := orElse (hd_totalRooms hotelData) 0;
       availableRooms := orElse (hd_availableRooms hotelData) 0 |} in
  if negb (validHotel hotel) then (Sent 400 "Validation failed", db)
  else if existsb (fun h => Inventory.hotelID h =? nextSequence) db
  then (Sent 409 "Hotel with this identifier already exists", db)
  else
    (Sent 201 "Hotel created successfully",
     (db ++ [preSave (withHotelID hotel nextSequence)])%list).

Section Handlers.

(** [mongoose.Types.ObjectId.isValid]. *)
Variable isValidObjectId : string -> bool.

(** Whether the Mongoose in use has [remove()] on a subdocument: it had
    up to Mongoose 6 and has not from Mongoose 7 on, where the call
    throws. *)
Variable subdocumentRemove : bool.

(** The lookup every handler starts with: by [_id] when the parameter is
    an ObjectId, by [parseInt] of it (no radix given) otherwise.  [inr tt]
    when the query throws ([parseInt] gave [NaN]). *)
Definition findHotel (db : Db) (id : string) : option Hotel + unit :=
  if isValidObjectId id then
    inl (find (fun h => String.eqb (hotel_id h) id) db)
  else
    match parseIntNoRadix id with
    | Some n => inl (find (fun h => hotelID h =? n) db)
    | None => inr tt
    end.

(** [Object.assign(hotel, updateData)], the [images] key already
    settled. *)
Definition assignHotel (hotel : Hotel) (updateData : HotelData)
    (newImages : option (list string)) : Hotel :=
  {| hotel_id := hotel_id hotel;
     hotelID := hotelID hotel;
     hotelName := orElse (hd_hotelName updateData) (hotelName hotel);
     hotelDescription := orElse (hd_hotelDescription updateData) (hotelDescription hotel);
     status := orElse (hd_status updateData) (status hotel);
     images :=
       orElse (imagesWritten newImages (hd_images updateData)) (images hotel);
     roomCategories := orElse (hd_roomCategories updateData) (roomCategories hotel);
     totalRooms := orElse (hd_totalRooms updateData) (totalRooms hotel);
     availableRooms := orElse (hd_availableRooms updateData) (availableRooms hotel) |}.

(** [updateHotel]. *)
Definition updateHotel (db : Db) (id : string) (u : Attachments)
    (updateData : HotelData) : Response * Db :=
  match findHotel db id with
  | inr _ => (SentCaught 500, db)
  | inl None => (Sent 404 "Hotel not found", db)
  | inl (Some hotel) =>
      let newImages := imagesOnUpdate u (hd_images updateData) (images hotel) in
      match save db (assignHotel hotel updateData newImages) with
      | Some db' => (Sent 200 "Hotel updated successfully", db')
      | None => (Sent 400 "Validation failed", db)
      end
  end.

Definition withCategories (hotel : Hotel) (cats : list Category) : Hotel :=
  {| hotel_id := hotel_id hotel;
     hotelID := hotelID hotel;
     hotelName := hotelName hotel;
     hotelDescription := hotelDescription hotel;
     status := status hotel;
     images := images hotel;
     roomCategories := cats;
     totalRooms := totalRooms hotel;
     availableRooms := availableRooms hotel |}.

(** [cat.name === categoryData.name], the body's name possibly absent. *)
Definition sameName (stored : string) (supplied : option string) : bool :=
  match supplied with
  | Some n => String.eqb stored n
  | None => false
  end.

(** [addCategory]; [newId] is the [_id] of the pushed subdocument. *)
Definition addCategory (db : Db) (hotelId newId : string) (u : Attachments)
    (categoryData : CategoryData) : Response * Db :=
  let newImages := imagesOnCreate u (cd_images categoryData) in
  match findHotel db hotelId with
  | inr _ => (Sent 500 "Failed to add category", db)
  | inl None => (Sent 404 "Hotel not found", db)
  | inl (Some hotel) =>
      match find (fun cat => sameName (category_name cat) (cd_name categoryData))
                 (roomCategories hotel) with
      | Some existingCategory =>
          (Sent 409 "Category with this name already exists in this hotel", db)
      | None =>
          let category :=
            {| category_id := newId;
               category_name := orElse (cd_name categoryData) "";
               category_images :=
                 orElse (imagesWritten newImages (cd_images categoryData)) [];
               roomNumbers := orElse (cd_roomNumbers categoryData) [] |} in
          match save db (withCategories hotel (roomCategories hotel ++ [category])%list) with
          | Some db' => (Sent 201 "Category added successfully", db')
          | None => (Sent 500 "Failed to add category", db)
          end
      end
  end.

(** [hotel.roomCategories.id(categoryId)]. *)
Definition categoryById (hotel : Hotel) (categoryId : string)
    : option Category :=
  find (fun c => String.eqb (category_id c) categoryId) (roomCategories hotel).

(** The category list with the first category of this id changed by [f]. *)
Fixpoint changeCategory (categoryId : string) (f : Category -> Category)
    (cats : list Category) : list Category :=
  match cats with
  | [] => []
  | c :: rest =>
      if String.eqb (category_id c) categoryId then f c :: rest
      else c :: changeCategory categoryId f rest
  end.

(** [Object.assign(category, updateData)]. *)
Definition assignCategory (updateData : CategoryData)
    (newImages : option (list string)) (category : Category) : Category :=
  {| category_id := category_id category;
     category_name := orElse (cd_name updateData) (category_name category);
     category_images :=
       orElse (imagesWritten newImages (cd_images updateData))
              (category_images category);
     roomNumbers := orElse (cd_roomNumbers updateData) (roomNumbers category) |}.

(** [updateCategory]. *)
Definition updateCategory (db : Db) (hotelId categoryId : string)
    (u : Attachments) (updateData : CategoryData) : Response * Db :=
  match findHotel db hotelId with
  | inr _ => (Sent 500 "Failed to update category", db)
  | inl None => (Sent 404 "Hotel not found", db)
  | inl (Some hotel) =>
      match categoryById hotel categoryId with
      | None => (Sent 404 "Category not found", db)
      | Some category =>
          let newImages :=
            imagesOnUpdate u (cd_images updateData) (category_images category) in
          let cats :=
            changeCategory categoryId (assignCategory updateData newImages)
                           (roomCategories hotel) in
          match save db (withCategories hotel cats) with
          | Some db' => (Sent 200 "Category updated successfully", db')
          | None => (Sent 500 "Failed to update category", db)
          end
      end
  end.

(** The category list without the first category of this id
    ([category.remove()]). *)
Fixpoint removeCategory (categoryId : string) (cats : list Category)
    : list Category :=
  match cats with
  | [] => []
  | c :: rest =>
      if String.eqb (category_id c) categoryId then rest
      else c :: removeCategory categoryId rest
  end.

(** [deleteCategory]; [category.remove()] throws where the subdocument
    has no such method. *)
Definition deleteCategory (db : Db) (hotelId categoryId : string)
    : Response * Db :=
  match findHotel db hotelId with
  | inr _ => (Sent 500 "Failed to delete category", db)
  | inl None => (Sent 404 "Hotel not found", db)
  | inl (Some hotel) =>
      match categoryById hotel categoryId with
      | None => (Sent 404 "Category not found", db)
      | Some category =>
          if negb subdocumentRemove
          then (Sent 500 "Failed to delete category", db)
          else
            match save db (withCategories hotel
                             (removeCategory categoryId (roomCategories hotel))) with
            | Some db' => (Sent 200 "Category deleted successfully", db')
            | None => (Sent 500 "Failed to delete category", db)
            end
      end
  end.

Definition withRooms (rooms : list Room) (category : Category) : Category :=
  {| category_id := category_id category;
     category_name := category_name category;
     category_images := category_images category;
     roomNumbers := rooms |}.

(** [addRoom]; [newId] is the [_id] of the pushed subdocument. *)
Definition addRoom (db : Db) (hotelId categoryId newId : string)
    (u : Attachments) (roomData : RoomData) : Response * Db :=
  let newImages := imagesOnCreate u (rd_images roomData) in
  match findHotel db hotelId with
  | inr _ => (Sent 500 "Failed to add room", db)
  | inl None => (Sent 404 "Hotel not found", db)
  | inl (Some hotel) =>
      match categoryById hotel categoryId with
      | None => (Sent 404 "Category not found", db)
      | Some category =>
          match find (fun room => sameName (room_name room) (rd_name roomData))
                     (roomNumbers category) with
          | Some existingRoom =>
              (Sent 409 "Room with this name already exists in this category", db)
          | None =>
              let room :=
                {| room_id := newId;
                   room_name := orElse (rd_name roomData) "";
                   room_status := orElse (rd_status roomData) "available";
                   room_images :=
                     orElse (imagesWritten newImages (rd_images roomData))
                            [] |} in
              let cats :=
                changeCategory categoryId
                  (fun c => withRooms (roomNumbers c ++ [room])%list c)
                  (roomCategories hotel) in
              match save db (withCategories hotel cats) with
              | Some db' => (Sent 201 "Room added successfully", db')
              | None => (Sent 500 "Failed to add room", db)
              end
          end
      end
  end.

(** [category.roomNumbers.id(roomId)]. *)
Definition roomById (category : Category) (roomId : string) : option Room :=
  find (fun r => String.eqb (room_id r) roomId) (roomNumbers category).

Fixpoint changeRoom (roomId : string) (f : Room -> Room) (rooms : list Room)
    : list Room :=
  match rooms with
  | [] => []
  | r :: rest =>
      if String.eqb (room_id r) roomId then f r :: rest
      else r :: changeRoom roomId f rest
  end.

(** [Object.assign(room, updateData)]. *)
Definition assignRoom (updateData : RoomData)
    (newImages : option (list string)) (room : Room) : Room :=
  {| room_id := room_id room;
     room_name := orElse (rd_name updateData) (room_name room);
     room_status := orElse (rd_status updateData) (room_status room);
     room_images :=
       orElse (imagesWritten newImages (rd_images updateData))
              (room_images room) |}.

(** [updateRoom]. *)
Definition updateRoom (db : Db) (hotelId categoryId roomId : string)
    (u : Attachments) (updateData : RoomData) : Response * Db :=
  match findHotel db hotelId with
  | inr _ => (Sent 500 "Failed to update room", db)
  | inl None => (Sent 404 "Hotel not found", db)
  | inl (Some hotel) =>
      match categoryById hotel categoryId with
      | None => (Sent 404 "Category not found", db)
      | Some category =>
          match roomById category roomId with
          | None => (Sent 404 "Room not found", db)
          | Some room =>
              let newImages :=
                imagesOnUpdate u (rd_images updateData) (room_images room) in
              let cats :=
                changeCategory categoryId
                  (fun c => withRooms
                              (changeRoom roomId (assignRoom updateData newImages)
                                          (roomNumbers c)) c)
                  (roomCategories hotel) in
              match save db (withCategories hotel cats) with
              | Some db' => (Sent 200 "Room updated successfully", db')
              | None => (Sent 500 "Failed to update room", db)
              end
          end
      end
  end.

Fixpoint removeRoom (roomId : string) (rooms : list Room) : list Room :=
  match rooms with
  | [] => []
  | r :: rest =>
      if String.eqb (room_id r) roomId then rest
      else r :: removeRoom roomId rest
  end.

(** [deleteRoom]; [room.remove()] throws where the subdocument has no
    such method. *)
Definition deleteRoom (db : Db) (hotelId categoryId roomId : string)
    : Response * Db :=
  match findHotel db hotelId with
  | inr _ => (Sent 500 "Failed to delete room", db)
  | inl None => (Sent 404 "Hotel not found", db)
  | inl (Some hotel) =>
      match categoryById hotel categoryId with
      | None => (Sent 404 "Category not found", db)
      | Some category =>
          match roomById category roomId with
          | None => (Sent 404 "Room not found", db)
          | Some room =>
              if negb subdocumentRemove
              then (Sent 500 "Failed to delete room", db)
              else
                let cats :=
                  changeCategory categoryId
                    (fun c => withRooms (removeRoom roomId (roomNumbers c)) c)
                    (roomCategories hotel) in
                match save db (withCategories hotel cats) with
                | Some db' => (Sent 200 "Room deleted successfully", db')
                | None => (Sent 500 "Failed to delete room", db)
                end
          end
      end
  end.

Definition withStatus (newStatus : string) (room : Room) : Room :=
  {| room_id := room_id room;
     room_name := room_name room;
     room_status := newStatus;
     room_images := room_images room |}.

(** The room list with the first room of this name changed by [f]
    ([roomNumbers.find((room) => room.name === name)], then a write to the
    room found). *)
Fixpoint changeRoomByName (name : string) (f : Room -> Room)
    (rooms : list Room) : list Room :=
  match rooms with
  | [] => []
  | r :: rest =>
      if String.eqb (room_name r) name then f r :: rest
      else r :: changeRoomByName name f rest
  end.

(** The category list with the first category of this name changed by [f]
    ([findCategoryByName], then writes to the category found). *)
Fixpoint changeCategoryByName (name : string) (f : Category -> Category)
    (cats : list Category) : list Category :=
  match cats with
  | [] => []
  | c :: rest =>
      if String.eqb (category_name c) name then f c :: rest
      else c :: changeCategoryByName name f rest
  end.

(** The [forEach] of [updateRoomStatus]. *)
Definition setStatuses (roomStatuses : list (string * string))
    (rooms : list Room) : list Room :=
  fold_left
    (fun rooms item => changeRoomByName (fst item) (withStatus (snd item)) rooms)
    roomStatuses rooms.

(** [updateRoomStatus] (legacy route); [roomStatuses] is [None] when the
    body does not hold an array. *)
Definition updateRoomStatus (db : Db) (hotelID categoryID : string)
    (roomStatuses : option (list (string * string))) : Response * Db :=
  match roomStatuses with
  | None => (Sent 400 "roomStatuses must be an array", db)
  | Some statuses =>
      match parseIntNoRadix hotelID with
      | None => (Sent 500 "Failed to update room statuses", db)
      | Some n =>
          match find (fun h => Inventory.hotelID h =? n) db with
          | None => (Sent 404 "Hotel not found", db)
          | Some hotel =>
              match find (fun c => String.eqb (category_name c) categoryID)
                         (roomCategories hotel) with
              | None => (Sent 404 "Room category not found", db)
              | Some category =>
                  let cats :=
                    changeCategoryByName categoryID
                      (fun c => withRooms (setStatuses statuses (roomNumbers c)) c)
                      (roomCategories hotel) in
                  match save db (withCategories hotel cats) with
                  | Some db' => (Sent 200 "Room statuses updated successfully", db')
                  | None => (Sent 500 "Failed to update room statuses", db)
                  end
              end
          end
      end
  end.

(** The routes of the hotel router that write to the collection, each with
    the parameters and the body of its request. *)
Inductive Mutation : Type :=
| CreateHotel : string -> Z -> Attachments -> HotelData -> Mutation
| UpdateHotel : string -> Attachments -> HotelData -> Mutation
| AddCategory : string -> string -> Attachments -> CategoryData -> Mutation
| UpdateCategory : string -> string -> Attachments -> CategoryData -> Mutation
| RemoveCategory : string -> string -> Mutation
| AddRoom : string -> string -> string -> Attachments -> RoomData -> Mutation
| UpdateRoom : string -> string -> string -> Attachments -> RoomData -> Mutation
| RemoveRoom : string -> string -> string -> Mutation
| UpdateRoomStatus :
    string -> string -> option (list (string * string)) -> Mutation.

(** The handler each route is bound to. *)
Definition route (m : Mutation) (db : Db) : Response * Db :=
  match m with
  | CreateHotel newId nextSequence u d => createHotel db newId nextSequence u d
  | UpdateHotel id u d => updateHotel db id u d
  | AddCategory hotelId newId u d => addCategory db hotelId newId u d
  | UpdateCategory hotelId categoryId u d =>
      updateCategory db hotelId categoryId u d
  | RemoveCategory hotelId categoryId => deleteCategory db hotelId categoryId
  | AddRoom hotelId categoryId newId u d =>
      addRoom db hotelId categoryId newId u d
  | UpdateRoom hotelId categoryId roomId u d =>
      updateRoom db hotelId categoryId roomId u d
  | RemoveRoom hotelId categoryId roomId =>
      deleteRoom db hotelId categoryId roomId
  | UpdateRoomStatus hotelID categoryID roomStatuses =>
      updateRoomStatus db hotelID categoryID roomStatuses
  end.

End Handlers.

End Inventory.

(* ===================================================================== *)
(** ** The restaurant order number *)
(* ===================================================================== *)

Module Orders.

Import JS.

Definition msPerMinute : Z := 60000.
Definition msPerDay : Z := 86400000.

(** The calendar date (year, month 1-12, day) of a number of days since
    1970-01-01, in the proleptic Gregorian calendar that [Date] uses. *)
Definition civilFromDays (days : Z) : Z * Z * Z :=
  let z := days + 719468 in
  let era := z / 146097 in
  let doe := z - era * 146097 in
  let yoe := (doe - doe / 1460 + doe / 36524 - doe / 146096) / 365 in
  let doy := doe - (365 * yoe + yoe / 4 - yoe / 100) in
  let mp := (5 * doy + 2) / 153 in
  let d := doy - (153 * mp + 2) / 5 + 1 in
  let m := if mp <? 10 then mp + 3 else mp - 9 in
  let y := yoe + era * 400 + (if m <=? 2 then 1 else 0) in
  (y, m, d).

(** [YYYY-MM-DD] for a calendar date. *)
Definition isoDate (ymd : Z * Z * Z) : string :=
  match ymd with
  | (y, m, d) =>
      padStart0 4 (Number_toString y) ++ "-"
      ++ padStart0 2 (Number_toString m) ++ "-"
      ++ padStart0 2 (Number_toString d)
  end.

(** [date.toISOString()] for a date of the years 0 to 9999: the UTC
    calendar date and the UTC time of day. *)
Definition toISOString (ms : Z) : string :=
  let t := ms mod msPerDay in
  isoDate (civilFromDays (ms / msPerDay)) ++ "T"
  ++ padStart0 2 (Number_toString (t / 3600000)) ++ ":"
  ++ padStart0 2 (Number_toString (t / 60000 mod 60)) ++ ":"
  ++ padStart0 2 (Number_toString (t / 1000 mod 60)) ++ "."
  ++ padStart0 3 (Number_toString (t mod 1000)) ++ "Z".

(** [s.replace(/-/g, "")]. *)
Fixpoint removeDashes (s : string) : string :=
  match s with
  | EmptyString => EmptyString
  | String c r =>
      if Ascii.eqb c "-"%char then removeDashes r else String c (removeDashes r)
  end.

(** [date.toISOString().slice(0, 10).replace(/-/g, "")]. *)
Definition dateStr (ms : Z) : string :=
  removeDashes (substring 0 10 (toISOString ms)).

(** The clock of the process: the offset of its local time from UTC in
    minutes (east positive, no daylight saving), what [new Date()] reads
    at the head of the [try] block, what it reads in the [catch] block,
    and what [Date.now()] reads after that. *)
Record Clock : Type := mkClock {
  utcOffsetMinutes : Z;
  nowInTry : Z;
  nowInCatch : Z;
  timestampInCatch : Z
}.

(** [today.setHours(0, 0, 0, 0)]: the instant of the last local
    midnight. *)
Definition setHoursZero (offsetMinutes : Z) (ms : Z) : Z :=
  let localMs := ms + offsetMinutes * msPerMinute in
  (localMs / msPerDay) * msPerDay - offsetMinutes * msPerMinute.

(** An order document; the paths the hook does not read are left out. *)
Record Order : Type := mkOrder {
  orderNumber : option string;
  createdAt : Z
}.

(** [countDocuments({ createdAt: { $gte: today, $lt: tomorrow } })]. *)
Definition countDocuments (orders : list Order) (today tomorrow : Z) : Z :=
  Z.of_nat
    (List.length
       (filter (fun o => (today <=? createdAt o) && (createdAt o <? tomorrow))
               orders)).

Definition withOrderNumber (o : Order) (n : string) : Order :=
  {| orderNumber := Some n; createdAt := createdAt o |}.

(** The [pre("save")] hook of [OrderSchema]; [countFails] tells whether
    the count query throws.  The hook ends in [next()] on every path: it
    hands the document on. *)
Definition preSave (clock : Clock) (orders : list Order) (countFails : bool)
    (this : Order) : Order :=
  if negb (truthy_opt (orderNumber this)) then
    if negb countFails then
      let today := setHoursZero (utcOffsetMinutes clock) (nowInTry clock) in
      let tomorrow := today + msPerDay in
      let count := countDocuments orders today tomorrow in
      withOrderNumber this
        ("ORD-" ++ dateStr today ++ "-"
         ++ padStart0 4 (Number_toString (count + 1)))
    else
      let timestamp := timestampInCatch clock in
      withOrderNumber this
        ("ORD-" ++ dateStr (nowInCatch clock) ++ "-"
         ++ slice_last 4 (Number_toString timestamp))
  else this.

(** The calendar date of an instant on the wall clock of the process. *)
Definition localDate (offsetMinutes : Z) (ms : Z) : Z * Z * Z :=
  civilFromDays ((ms + offsetMinutes * msPerMinute) / msPerDay).

(** [YYYYMMDD] for a calendar date. *)
Definition yyyymmdd (ymd : Z * Z * Z) : string :=
  match ymd with
  | (y, m, d) =>
      padStart0 4 (Number_toString y)
      ++ padStart0 2 (Number_toString m)
      ++ padStart0 2 (Number_toString d)
  end.

End Orders.

(* ===================================================================== *)
(** ** The vocabulary of the specification *)
(* ===================================================================== *)

Module Spec.

Import JS Ledger.

(** What the specification calls a conflict between a stored booking and a
    candidate stay. *)
Definition conflictsWith (hotel : Z) (room category : string)
    (checkIn checkOut : Z) (excluded : option string) (b : Booking) : Prop :=
  hotelID b = hotel
  /\ roomNumberID b = room
  /\ roomCategoryID b = category
  /\ statusID b <> 255
  /\ (forall e, excluded = Some e -> _id b <> e)
  /\ checkInDate b < checkOut
  /\ checkOutDate b > checkIn.

(** A stored booking that ends when the candidate starts, or starts when
    the candidate ends. *)
Definition backToBack (checkIn checkOut : Z) (b : Booking) : Prop :=
  checkOutDate b = checkIn \/ checkInDate b = checkOut.


(** The room keys of a stored booking are present: a hotel number other
    than zero and non-empty identifiers. *)
Definition keysPresent (A : Booking) : Prop :=
  hotelID A <> 0 /\ roomNumberID A <> "" /\ roomCategoryID A <> "".



(** Two documents that agree on the keys of the unique indexes. *)
Definition sameKeys (x y : Booking) : Prop :=
  _id x = _id y /\ serialNo x = serialNo y /\ bookingNo x = bookingNo y.

(** [_id] is the primary key of the collection. *)
Definition uniqueIds (store : Store) : Prop := NoDup (map _id store).

(** A string field that is present and not empty. *)
Definition presentNonEmpty (f : field) : Prop :=
  exists s, f = Str s /\ s <> "".

(** What the listings promise of each booking they return. *)
Definition listable (b : Booking) : Prop :=
  statusID b <> 255
  /\ presentNonEmpty (fullName b)
  /\ presentNonEmpty (bookingNo b).

(** The trailing-2-digit numbers of the stored booking numbers that start
    with the prefix of the day. *)
Definition trailingNumbers (prefix : string) (store : Store) : list Z :=
  flat_map
    (fun b =>
       match bookingNo b with
       | Str s =>
           if startsWith prefix s then
             match parseInt (slice_last 2 s) with
             | Some v => [v]
             | None => []
             end
           else []
       | _ => []
       end)
    store.

(** The maximum of a list of numbers, [0] if there is none. *)
Definition maximumOr0 (l : list Z) : Z := fold_right Z.max 0 l.

(** A reading of the local-time getters for a year of four digits. *)
Definition calendarDate (d : LocalDate) : Prop :=
  1000 <= getFullYear d <= 9999
  /\ 0 <= getMonth d <= 11
  /\ 1 <= getDate d <= 31.

(** [YY], [MM] or [DD]: a number below 100 on two digits. *)
Definition twoDigits (n : Z) : string := padStart0 2 (Number_toString n).

(** The number read so far by [read_digits]. *)
Definition accValue (acc : option Z) : Z :=
  match acc with Some a => a | None => 0 end.

End Spec.

Module InventorySpec.

Import JS Inventory.

(** All rooms of a hotel, across its categories. *)
Definition allRooms (h : Hotel) : list Room :=
  flat_map roomNumbers (roomCategories h).

Definition isAvailable (r : Room) : bool :=
  String.eqb (room_status r) "available".

(** The number of rooms across all categories. *)
Definition countRooms (h : Hotel) : Z := Z.of_nat (List.length (allRooms h)).

(** The number of those rooms whose status is [available]. *)
Definition countAvailable (h : Hotel) : Z :=
  Z.of_nat (List.length (filter isAvailable (allRooms h))).

(** The stored counters agree with the tree. *)
Definition countsConsistent (h : Hotel) : Prop :=
  totalRooms h = countRooms h /\ availableRooms h = countAvailable h.

(** A write of the saved document [h] into the collection: over the
    stored document of the same [_id], or as a new last document. *)
Definition written (db : Db) (h : Hotel) (db' : Db) : Prop :=
  db' = replaceHotel h db \/ db' = (db ++ [h])%list.

(** A request supplies images: it uploads files or its body has a truthy
    [images] key. *)
Definition suppliesImages (u : Attachments) (body : BodyImages) : Prop :=
  hasFiles u = true \/ truthy_images body = true.

End InventorySpec.

(* ===================================================================== *)
(** ** The example scenario of the specification *)
(* ===================================================================== *)

Module Scenario.

Import JS Ledger.

(** Midnight UTC of the days of June 2024 the scenario uses. *)
Definition june1 : Z := 1717200000000.
Definition june2 : Z := 1717286400000.
Definition june4 : Z := 1717459200000.
Definition june5 : Z := 1717545600000.
Definition june6 : Z := 1717632000000.
Definition june7 : Z := 1717718400000.

(** Booking X: room 101 of category Deluxe in hotel 1, 1 to 5 June,
    bill 400, advance 100. *)
Definition bookingX : Booking :=
  {| _id := "665a00000000000000000001";
     fullName := Str "Guest X";
     hotelID := 1;
     roomCategoryID := "Deluxe";
     roomNumberID := "101";
     checkInDate := june1;
     checkOutDate := june5;
     totalBill := 400;
     advancePayment := 100;
     duePayment := 300;
     bookingNo := Str "24060101";
     serialNo := 1;
     reference := None;
     statusID := 1;
     canceledBy := None;
     reason := None;
     createdAt := june1 |}.

Definition ledger : Store := [bookingX].

(** An update that raises the bill of booking X and touches nothing
    else. *)
Definition raiseBill : BookingData :=
  {| d_fullName := None; d_hotelID := None; d_roomCategoryID := None;
     d_roomNumberID := None; d_checkInDate := None; d_checkOutDate := None;
     d_totalBill := Some 500; d_advancePayment := None; d_duePayment := None;
     d_bookingNo := None; d_serialNo := None; d_reference := None;
     d_statusID := None; d_canceledBy := None; d_reason := None;
     restValid := true |}.

(** Update validators that look at the bill only. *)
Definition billValidators (d : BookingData) : bool :=
  match d_totalBill d with
  | Some t => 0 <=? t
  | None => true
  end.

(** An ObjectId in its 24-character form. *)
Definition isValidObjectId (s : string) : bool :=
  (String.length s =? 24)%nat.

(** The process on 1 June 2024. *)
Definition onJune1 : Env :=
  {| today := {| getFullYear := 2024; getMonth := 5; getDate := 1 |};
     now := june1 + 36000000;
     newObjectId := "665a00000000000000000002" |}.

(** A request for a stay in room [room] from [checkIn] to [checkOut], bill
    400, advance 100, with an optional reference. *)
Definition request (room : string) (checkIn checkOut : Z)
    (ref : option string) : BookingData :=
  {| d_fullName := Some "Guest Y";
     d_hotelID := Some 1;
     d_roomCategoryID := Some "Deluxe";
     d_roomNumberID := Some room;
     d_checkInDate := Some checkIn;
     d_checkOutDate := Some checkOut;
     d_totalBill := Some 400;
     d_advancePayment := Some 100;
     d_duePayment := Some 300;
     d_bookingNo := None;
     d_serialNo := None;
     d_reference := ref;
     d_statusID := None;
     d_canceledBy := None;
     d_reason := None;
     restValid := true |}.

(** A booking of 1 June whose number ends in [serial]. *)
Definition numbered (id no : string) (serial : Z) : Booking :=
  {| _id := id;
     fullName := Str "Guest";
     hotelID := 1;
     roomCategoryID := "Deluxe";
     roomNumberID := id;
     checkInDate := june1;
     checkOutDate := june2;
     totalBill := 100;
     advancePayment := 0;
     duePayment := 100;
     bookingNo := Str no;
     serialNo := serial;
     reference := None;
     statusID := 1;
     canceledBy := None;
     reason := None;
     createdAt := june1 |}.

(** A stored document without a guest name, and one without a number. *)
Definition nameless : Booking :=
  {| _id := "665a00000000000000000003";
     fullName := Null;
     hotelID := 1;
     roomCategoryID := "Deluxe";
     roomNumberID := "103";
     checkInDate := june1;
     checkOutDate := june2;
     totalBill := 100;
     advancePayment := 0;
     duePayment := 100;
     bookingNo := Str "24060103";
     serialNo := 3;
     reference := None;
     statusID := 1;
     canceledBy := None;
     reason := None;
     createdAt := june2 |}.

Definition legacyLedger : Store := [bookingX; nameless].

(** The ledger once the 99th number of 1 June has been given out. *)
Definition busyDay : Store := [numbered "a" "24060198" 98; numbered "b" "24060199" 99].

End Scenario.

Module Grand.

Import JS Inventory.

(** Hotel "Grand", number 1: category Deluxe with rooms 101 and 102,
    category Suite with room 201. *)
Definition room (id name : string) : Room :=
  {| room_id := id; room_name := name; room_status := "available";
     room_images := [] |}.

Definition deluxe : Category :=
  {| category_id := "c1"; category_name := "Deluxe"; category_images := [];
     roomNumbers := [room "r1" "101"; room "r2" "102"] |}.

Definition suite : Category :=
  {| category_id := "c2"; category_name := "Suite"; category_images := [];
     roomNumbers := [room "r3" "201"] |}.

Definition hotel : Hotel :=
  {| hotel_id := "665b00000000000000000001";
     hotelID := 1;
     hotelName := "Grand";
     hotelDescription := "Hotel Grand by the sea";
     status := "active";
     images := ["a.jpg"; "b.jpg"];
     roomCategories := [deluxe; suite];
     totalRooms := 3;
     availableRooms := 3 |}.

Definition db : Db := [hotel].

(** An ObjectId in its 24-character form. *)
Definition isValidObjectId (s : string) : bool :=
  (String.length s =? 24)%nat.

Definition noFiles : Attachments := {| files := []; envBaseUrl := None |}.

Definition rename (n : string) : CategoryData :=
  {| cd_name := Some n; cd_images := NoImages; cd_roomNumbers := None |}.

Definition renameRoom (n : string) : RoomData :=
  {| rd_name := Some n; rd_status := None; rd_images := NoImages |}.

Definition withImages (l : list string) : HotelData :=
  {| hd_hotelName := None; hd_hotelDescription := None; hd_status := None;
     hd_images := ImageArray l; hd_roomCategories := None;
     hd_totalRooms := None; hd_availableRooms := None |}.

Definition newHotel (l : list string) : HotelData :=
  {| hd_hotelName := Some "Annex"; hd_hotelDescription := Some "Annex of the Grand";
     hd_status := None; hd_images := ImageArray l; hd_roomCategories := None;
     hd_totalRooms := None; hd_availableRooms := None |}.

Definition twoFiles : Attachments :=
  {| files := ["uploads/hotels/c.jpg"; "uploads\hotels\d.jpg"];
     envBaseUrl := None |}.

(** A category with four images, and an update of the hotel that carries
    it in its [roomCategories] next to one image of the hotel's own. *)
Definition gallery : Category :=
  {| category_id := "c9"; category_name := "Gallery";
     category_images := ["1.jpg"; "2.jpg"; "3.jpg"; "4.jpg"];
     roomNumbers := [] |}.

Definition withGallery : HotelData :=
  {| hd_hotelName := None; hd_hotelDescription := None; hd_status := None;
     hd_images := ImageArray ["c.jpg"]; hd_roomCategories := Some [gallery];
     hd_totalRooms := None; hd_availableRooms := None |}.

Definition noBody : HotelData :=
  {| hd_hotelName := None; hd_hotelDescription := None; hd_status := None;
     hd_images := NoImages; hd_roomCategories := None;
     hd_totalRooms := None; hd_availableRooms := None |}.

End Grand.

Module Restaurant.

Import JS Orders.

(** A process six hours east of UTC, on 2 June 2024 at 10:00 on its wall
    clock, which is 04:00 UTC. *)
Definition dhaka : Clock :=
  {| utcOffsetMinutes := 360;
     nowInTry := 1717300800000;
     nowInCatch := 1717300800005;
     timestampInCatch := 1717300800123 |}.

(** The same instant read by a process on UTC. *)
Definition utc : Clock :=
  {| utcOffsetMinutes := 0;
     nowInTry := 1717300800000;
     nowInCatch := 1717300800005;
     timestampInCatch := 1717300800123 |}.

Definition placedAt (ms : Z) : Order :=
  {| orderNumber := Some "ORD-placed"; createdAt := ms |}.

(** One order of the evening of 1 June and four of the morning of 2 June,
    on the wall clock of [dhaka]: 23:00, 01:00, 02:00, 06:00 and 09:00. *)
Definition orders : list Order :=
  [placedAt 1717261200000; placedAt 1717268400000; placedAt 1717272000000;
   placedAt 1717286400000; placedAt 1717297200000].

Definition newOrder : Order :=
  {| orderNumber := None; createdAt := 1717300800000 |}.

End Restaurant.

(* ===================================================================== *)
(** ** The remaining handlers of the booking controller *)
(* ===================================================================== *)

Module LedgerOps.

Import JS Ledger.

(** [getBookingById]. *)
Definition getBookingById (store : Store) (id : string) : Response :=
  match findById store id with
  | Some booking => Status200 booking
  | None => Status404 BookingNotFound
  end.



Section DeleteBooking.

(** Whether a request parameter can be cast to an ObjectId. *)
Variable isValidObjectId : string -> bool.


End DeleteBooking.

(** A booking as [getBookingsByBookingNo] returns it: the document with
    the logo and the images of its hotel; [None] is [null]. *)
Record WithHotel : Type := mkWithHotel {
  booking : Booking;
  hotelLogo : option string;
  hotelImages : list string
}.

Inductive ByNumberResponse : Type :=
| Found200 : list WithHotel -> ByNumberResponse
| NoBookings404 : ByNumberResponse.

(** [[...new Set(l)]]: the first occurrence of each number, in order. *)
Fixpoint unique (l : list Z) : list Z :=
  match l with
  | [] => []
  | x :: rest => x :: filter (fun y => negb (y =? x)) (unique rest)
  end.

(** The entry [hotelMap[hotel.hotelID]] written by the [forEach]: the logo
    is the first image. *)
Definition logoOf (hotel : Inventory.Hotel) : option string :=
  match Inventory.images hotel with
  | first :: _ => Some first
  | [] => None
  end.

(** [getBookingsByBookingNo]; [hotels] is the hotel collection. *)
Definition getBookingsByBookingNo (store : Store) (hotels : Inventory.Db)
    (no : string) : ByNumberResponse :=
  let bookings := filter (hasBookingNo no) store in
  match bookings with
  | [] => NoBookings404
  | _ =>
      let hotelIDs :=
        unique (filter truthy_number (map hotelID bookings)) in
      let found :=
        filter (fun h => existsb (Z.eqb (Inventory.hotelID h)) hotelIDs) hotels in
      (* a later hotel overwrites the entry of an earlier one *)
      let hotelMap (id : Z) : option Inventory.Hotel :=
        find (fun h => Inventory.hotelID h =? id) (rev found) in
      Found200
        (map (fun b =>
                match hotelMap (hotelID b) with
                | Some hotelData =>
                    {| booking := b;
                       hotelLogo :=
                         match logoOf hotelData with
                         | Some logo => if truthy_string logo then Some logo else None
                         | None => None
                         end;
                       hotelImages := Inventory.images hotelData |}
                | None =>
                    {| booking := b; hotelLogo := None; hotelImages := [] |}
                end)
             bookings)
  end.

End LedgerOps.

Module LedgerProps.

Import JS Ledger.

(** Two bookings are for the same room. *)
Definition sameRoom (a b : Booking) : Prop :=
  hotelID a = hotelID b
  /\ roomNumberID a = roomNumberID b
  /\ roomCategoryID a = roomCategoryID b.

(** The half-open stays of two bookings meet. *)
Definition staysOverlap (a b : Booking) : Prop :=
  checkInDate a < checkOutDate b /\ checkInDate b < checkOutDate a.

(** No room is booked twice: two different stored bookings that are not
    cancelled and are for the same room have stays that do not meet. *)
Definition noDoubleBooking (store : Store) : Prop :=
  forall a b,
    In a store -> In b store -> _id a <> _id b ->
    statusID a <> 255 -> statusID b <> 255 ->
    sameRoom a b -> ~ staysOverlap a b.

(** The serial numbers follow the identifiers: of two stored bookings,
    the one with the larger [_id] has the larger serial number. *)
Definition serialsFollowIds (store : Store) : Prop :=
  forall a b,
    In a store -> In b store ->
    String.leb (_id a) (_id b) = true -> serialNo a <= serialNo b.

(** A list of bookings runs from the newest to the oldest. *)
Fixpoint newestFirst (l : list Booking) : Prop :=
  match l with
  | [] => True
  | b :: rest =>
      (forall x, In x rest -> createdAt x <= createdAt b) /\ newestFirst rest
  end.

(** The request names its room with keys the code takes as present. *)
Definition roomKeysGiven (data : BookingData) : Prop :=
  truthy_opt_number (d_hotelID data) = true
  /\ truthy_opt (d_roomNumberID data) = true
  /\ truthy_opt (d_roomCategoryID data) = true.

(** The request carries no key of the stay that is present and falsy: no
    hotel number zero, no empty room or category identifier, no date given
    as the number zero. *)
Definition noFalsyKey (data : BookingData) : Prop :=
  d_hotelID data <> Some 0
  /\ d_roomNumberID data <> Some ""
  /\ d_roomCategoryID data <> Some ""
  /\ d_checkInDate data <> Some 0
  /\ d_checkOutDate data <> Some 0.

(** The request changes the dates or the room, which is when
    [updateBooking] looks for a conflict. *)
Definition touchesStay (data : BookingData) : Prop :=
  truthy_opt_number (d_checkInDate data) = true
  \/ truthy_opt_number (d_checkOutDate data) = true
  \/ truthy_opt_number (d_hotelID data) = true
  \/ truthy_opt (d_roomNumberID data) = true
  \/ truthy_opt (d_roomCategoryID data) = true.

End LedgerProps.

Module Stays.

Import JS Ledger.

(** Booking Z of the scenario: room 101 again, from 5 to 7 June. *)
Definition bookingZ : Booking :=
  {| _id := "665a00000000000000000004";
     fullName := Str "Guest Z";
     hotelID := 1;
     roomCategoryID := "Deluxe";
     roomNumberID := "101";
     checkInDate := Scenario.june5;
     checkOutDate := Scenario.june7;
     totalBill := 200;
     advancePayment := 50;
     duePayment := 150;
     bookingNo := Str "24060102";
     serialNo := 2;
     reference := None;
     statusID := 1;
     canceledBy := None;
     reason := None;
     createdAt := Scenario.june2 |}.

(** The ledger with X followed by Z. *)
Definition twoStays : Store := [Scenario.bookingX; bookingZ].

Definition nothing : BookingData :=
  {| d_fullName := None; d_hotelID := None; d_roomCategoryID := None;
     d_roomNumberID := None; d_checkInDate := None; d_checkOutDate := None;
     d_totalBill := None; d_advancePayment := None; d_duePayment := None;
     d_bookingNo := None; d_serialNo := None; d_reference := None;
     d_statusID := None; d_canceledBy := None; d_reason := None;
     restValid := true |}.

(** An update that moves the arrival of a stay. *)
Definition arriveOn (checkIn : Z) : BookingData :=
  {| d_fullName := None; d_hotelID := None; d_roomCategoryID := None;
     d_roomNumberID := None;
     d_checkInDate := Some checkIn; d_checkOutDate := None;
     d_totalBill := None; d_advancePayment := None; d_duePayment := None;
     d_bookingNo := None; d_serialNo := None; d_reference := None;
     d_statusID := None; d_canceledBy := None; d_reason := None;
     restValid := true |}.




(** The update validators of the schema, as [runValidators] runs them
    on the paths an update sets.  The validators of [checkOutDate] and of
    [advancePayment] compare the value with a path of [this], which in an
    update is the query and has no such path: they refuse every update
    that carries the path.  The others look at the value alone. *)
Definition schemaValidators (d : BookingData) : bool :=
  match d_checkOutDate d with Some _ => false | None => true end
  && match d_advancePayment d with Some _ => false | None => true end
  && match d_totalBill d with Some t => 0 <=? t | None => true end
  && match d_duePayment d with Some t => 0 <=? t | None => true end
  && match d_statusID d with Some s => statusEnum s | None => true end
  && match d_fullName d with Some s => truthy_string s | None => true end
  && match d_roomCategoryID d with Some s => truthy_string s | None => true end
  && match d_roomNumberID d with Some s => truthy_string s | None => true end
  && match d_bookingNo d with Some s => truthy_string s | None => true end
  && restValid d.

End Stays.

(* ===================================================================== *)
(** ** The remaining handlers of the hotel controller *)
(* ===================================================================== *)

Module InventoryOps.

Import JS Inventory.

(** The data of [getCategories]. *)
Record CategoriesOf : Type := mkCategoriesOf {
  co_hotelID : Z;
  co_hotelName : string;
  categories : list Category
}.

(** The data of [getRooms]. *)
Record RoomsOf : Type := mkRoomsOf {
  ro_hotelID : Z;
  ro_category_id : string;
  ro_category_name : string;
  rooms : list Room
}.

(** The collection without the first document the filter matches. *)
Fixpoint removeWhere (p : Hotel -> bool) (db : Db) : Db :=
  match db with
  | [] => []
  | h :: rest => if p h then rest else h :: removeWhere p rest
  end.

(** [findByIdAndDelete] / [findOneAndDelete], and the answer of
    [deleteHotel] to what they return. *)
Definition deleteWhere (p : Hotel -> bool) (db : Db) : Response * Db :=
  match find p db with
  | Some hotel => (Sent 200 "Hotel deleted successfully", removeWhere p db)
  | None => (Sent 404 "Hotel not found", db)
  end.

Section Reads.

Variable isValidObjectId : string -> bool.

(** [getHotelById]: the hotel of a 200, or the error response. *)
Definition getHotelById (db : Db) (id : string) : Hotel + Response :=
  match findHotel isValidObjectId db id with
  | inr _ => inr (Sent 500 "Failed to retrieve hotel")
  | inl None => inr (Sent 404 "Hotel not found")
  | inl (Some hotel) => inl hotel
  end.

(** [getCategories]. *)
Definition getCategories (db : Db) (hotelId : string)
    : CategoriesOf + Response :=
  match findHotel isValidObjectId db hotelId with
  | inr _ => inr (Sent 500 "Failed to retrieve categories")
  | inl None => inr (Sent 404 "Hotel not found")
  | inl (Some hotel) =>
      inl {| co_hotelID := hotelID hotel;
             co_hotelName := hotelName hotel;
             categories := roomCategories hotel |}
  end.

(** [getRooms]. *)
Definition getRooms (db : Db) (hotelId categoryId : string)
    : RoomsOf + Response :=
  match findHotel isValidObjectId db hotelId with
  | inr _ => inr (Sent 500 "Failed to retrieve rooms")
  | inl None => inr (Sent 404 "Hotel not found")
  | inl (Some hotel) =>
      match categoryById hotel categoryId with
      | None => inr (Sent 404 "Category not found")
      | Some category =>
          inl {| ro_hotelID := hotelID hotel;
                 ro_category_id := category_id category;
                 ro_category_name := category_name category;
                 rooms := roomNumbers category |}
      end
  end.

(** [deleteHotel]: by [_id] when the parameter is an ObjectId, by
    [parseInt] of it (no radix given) otherwise; a [NaN] makes the query
    throw. *)
Definition deleteHotel (db : Db) (id : string) : Response * Db :=
  if isValidObjectId id then
    deleteWhere (fun h => String.eqb (hotel_id h) id) db
  else
    match parseIntNoRadix id with
    | Some n => deleteWhere (fun h => hotelID h =? n) db
    | None => (Sent 500 "Failed to delete hotel", db)
    end.

End Reads.

End InventoryOps.

Module InventoryProps.

Import JS Inventory.

(** A room without its status: identifier, name and images. *)
Definition roomButStatus (r : Room) : string * string * list string :=
  (room_id r, room_name r, room_images r).

(** A category without the statuses of its rooms. *)
Definition categoryButStatuses (c : Category)
    : string * string * list string * list (string * string * list string) :=
  (category_id c, category_name c, category_images c,
   map roomButStatus (roomNumbers c)).

(** One for a room that counts as available, zero for another. *)
Definition availability (r : Room) : Z :=
  if String.eqb (room_status r) "available" then 1 else 0.

End InventoryProps.

Module UploadProps.

(** No character of the string is a backslash. *)
Fixpoint backslashFree (s : string) : bool :=
  match s with
  | EmptyString => true
  | String c r => negb (Ascii.eqb c "\"%char) && backslashFree r
  end.

End UploadProps.

(* ===================================================================== *)
(** ** The order controller: creating an order *)
(* ===================================================================== *)

Module OrderDesk.

Import JS Orders.

(** A menu item; the paths [createOrder] does not read are left out.
    Prices, and the amounts of an order, are whole numbers, on which the
    arithmetic of [Number] is exact. *)
Record MenuItem : Type := mkMenuItem {
  menu_id : string;
  price : Z
}.

(** The menu collection, in the order a query returns its documents. *)
Definition Menu : Type := list MenuItem.

(** The body of a request of [createOrder]: [items] is [None] unless the
    body holds an array; [restValid] tells whether the paths not modelled
    pass the schema (the enumerations of the order type, of the payment
    and of the order status). *)
Record OrderBody : Type := mkOrderBody {
  customerName : option string;
  items : option (list string);
  subtotal : option Z;
  tax : option Z;
  discount : option Z;
  restValid : bool
}.

(** The order of a 201, as the response shows it. *)
Record OrderView : Type := mkOrderView {
  ov_orderNumber : option string;
  ov_items : list string;
  ov_subtotal : Z;
  ov_tax : Z;
  ov_discount : Z;
  ov_total : Z;
  ov_createdAt : Z
}.

Inductive Response : Type :=
| Created201 : OrderView -> Response
| Failed : Z -> string -> Response.

(** [itemCounts[key]] after the loop over [items], zero for a key the
    loop never wrote. *)
Fixpoint itemCounts (items : list string) (key : string) : Z :=
  match items with
  | [] => 0
  | itemId :: rest =>
      (if String.eqb itemId key then 1 else 0) + itemCounts rest key
  end.

(** [[...new Set(l)]]: the first occurrence of each string, in order. *)
Fixpoint uniqueStrings (l : list string) : list string :=
  match l with
  | [] => []
  | x :: rest => x :: filter (fun y => negb (String.eqb y x)) (uniqueStrings rest)
  end.

(** [Menu.find({ _id: { $in: ids } })]. *)
Definition menuFind (menu : Menu) (ids : list string) : list MenuItem :=
  filter (fun item => existsb (String.eqb (menu_id item)) ids) menu.

(** The [reduce] over the menu items found. *)
Definition calculatedSubtotal (menuItems : list MenuItem)
    (items : list string) : Z :=
  fold_left
    (fun sum item =>
       let counted := itemCounts items (menu_id item) in
       let quantity := if truthy_number counted then counted else 1 in
       sum + price item * quantity)
    menuItems 0.

(** Two documents clash on the unique index of [orderNumber]. *)
Definition sameOrderNumber (a b : Order) : bool :=
  match orderNumber a, orderNumber b with
  | Some x, Some y => String.eqb x y
  | None, None => true
  | _, _ => false
  end.

Definition orZero (o : option Z) : Z :=
  match o with Some z => z | None => 0 end.

Section Desk.

(** [mongoose.Types.ObjectId.isValid], and the string
    [new mongoose.Types.ObjectId(itemId).toString()] of a valid item. *)
Variable isValid : string -> bool.
Variable hexString : string -> string.

(** The first item the loop rejects. *)
Fixpoint invalidItem (items : list string) : option string :=
  match items with
  | [] => None
  | itemId :: rest =>
      if negb (isValid itemId) then Some itemId else invalidItem rest
  end.

(** [createOrder]; [clock] and [countFails] are those of the hook of the
    model, [createdAtNow] is the creation time the timestamps give the
    document.  The document is created with [customerName.trim()], which
    the schema requires not to be empty. *)
Definition createOrder (clock : Clock) (countFails : bool) (createdAtNow : Z)
    (menu : Menu) (orders : list Order) (body : OrderBody)
    : Response * list Order :=
  let missing :=
    (Failed 400 "Missing required fields: customerName and items are required",
     orders) in
  if negb (truthy_opt (customerName body)) then missing
  else
    match items body with
    | None => missing
    | Some [] => missing
    | Some items =>
        match invalidItem items with
        | Some itemId => (Failed 400 ("Invalid item ID: " ++ itemId), orders)
        | None =>
            let itemIds := map hexString items in
            let calculated :=
              match subtotal body with
              | Some _ => Some 0
              | None =>
                  let uniqueItemIds := uniqueStrings itemIds in
                  let menuItems := menuFind menu uniqueItemIds in
                  if negb (List.length menuItems
                           =? List.length uniqueItemIds)%nat
                  then None
                  else Some (calculatedSubtotal menuItems items)
              end in
            match calculated with
            | None => (Failed 404 "One or more menu items not found", orders)
            | Some calculatedSubtotal =>
                let subtotalAmount :=
                  match subtotal body with
                  | Some s => s
                  | None => calculatedSubtotal
                  end in
                let taxAmount :=
                  if truthy_opt_number (tax body) then orZero (tax body) else 0 in
                let discountAmount :=
                  if truthy_opt_number (discount body)
                  then orZero (discount body) else 0 in
                let totalAmount := subtotalAmount + taxAmount - discountAmount in
                if totalAmount <? 0
                then (Failed 400 "Total amount cannot be negative", orders)
                else if negb ((0 <=? subtotalAmount) && (0 <=? taxAmount)
                              && (0 <=? discountAmount) && (0 <=? totalAmount)
                              && match customerName body with
                                 | Some name => truthy_string (skip_spaces name)
                                 | None => false
                                 end
                              && restValid body)
                then (Failed 400 "Validation failed", orders)
                else
                  let order :=
                    preSave clock orders countFails
                      {| orderNumber := None; createdAt := createdAtNow |} in
                  if existsb (sameOrderNumber order) orders
                  then (Failed 500 "Server error", orders)
                  else
                    (Created201
                       {| ov_orderNumber := orderNumber order;
                          ov_items := itemIds;
                          ov_subtotal := subtotalAmount;
                          ov_tax := taxAmount;
                          ov_discount := discountAmount;
                          ov_total := totalAmount;
                          ov_createdAt := createdAt order |},
                     (orders ++ [order])%list)
            end
        end
    end.

End Desk.

End OrderDesk.

Module OrderDeskProps.

Import JS OrderDesk.

(** The bill of the ordered items, taken along the menu: for each item
    of the menu that was ordered, in the order of the menu, its price
    times the number of times it was ordered. *)
Definition billAlongMenu (menu : Menu) (items : list string) : Z :=
  fold_left
    (fun sum item => sum + price item * itemCounts items (menu_id item))
    (filter (fun item => existsb (String.eqb (menu_id item)) items) menu)
    0.

(** The item is on the menu. *)
Definition onMenu (menu : Menu) (id : string) : Prop :=
  In id (map menu_id menu).

End OrderDeskProps.

Module Kitchen.

Import JS Orders OrderDesk.

(** A menu of two items. *)
Definition tea : MenuItem :=
  {| menu_id := "665c00000000000000000001"; price := 30 |}.

Definition rice : MenuItem :=
  {| menu_id := "665c00000000000000000002"; price := 120 |}.

Definition menu : Menu := [tea; rice].

(** An ObjectId in its 24-character form, in lower case already. *)
Definition isValid (s : string) : bool := (String.length s =? 24)%nat.

Definition hexString (s : string) : string := s.

(** Two teas and one rice, with a tax of 15 and no subtotal given. *)
Definition twoTeasOneRice : OrderBody :=
  {| customerName := Some "Guest X";
     items := Some [menu_id tea; menu_id rice; menu_id tea];
     subtotal := None;
     tax := Some 15;
     discount := None;
     restValid := true |}.

(** An order of an item the menu does not have. *)
Definition offMenu : OrderBody :=
  {| customerName := Some "Guest X";
     items := Some ["665c00000000000000000009"];
     subtotal := None;
     tax := None;
     discount := None;
     restValid := true |}.

End Kitchen.

(* ===================================================================== *)
(** ** Properties of the overlap detector *)
(* ===================================================================== *)

Section OverlapDetector.

Import JS Ledger Spec.

Lemma truthy_opt_supplied :
  forall e, e <> "" -> truthy_opt (Some e) = true.
Proof.
  intros [|c r] He; [congruence | reflexivity].
Qed.

Lemma overlapFilter_spec :
  forall hotel room category checkIn checkOut excluded b,
    excluded <> Some "" ->
    overlapFilter hotel room category checkIn checkOut excluded b = true
    <-> conflictsWith hotel room category checkIn checkOut excluded b.
Proof.
  intros hotel room category checkIn checkOut excluded b Hex.
  unfold overlapFilter, conflictsWith, CANCELLED.
  rewrite !andb_true_iff, negb_true_iff, Z.eqb_eq, Z.eqb_neq,
    !String.eqb_eq, !Z.ltb_lt.
  destruct excluded as [e|].
  - assert (He : e <> "") by (intro; subst; congruence).
    rewrite (truthy_opt_supplied e He), negb_true_iff, String.eqb_neq.
    split.
    + intros [[[[[[H1 H2] H3] H4] H5] H6] H7].
      repeat split; try assumption; try lia.
      intros e' He'; inversion He'; subst; assumption.
    + intros (H1 & H2 & H3 & H4 & H5 & H6 & H7).
      repeat split; try assumption; try lia.
      apply H5; reflexivity.
  - simpl. split.
    + intros [[[[[[H1 H2] H3] H4] H5] H6] _].
      repeat split; try assumption; try lia.
      intros e' He'; discriminate.
    + intros (H1 & H2 & H3 & H4 & _ & H6 & H7).
      repeat split; try assumption; try lia.
Qed.

Lemma backToBack_not_filtered :
  forall hotel room category checkIn checkOut excluded b,
    backToBack checkIn checkOut b ->
    overlapFilter hotel room category checkIn checkOut excluded b = false.
Proof.
  intros hotel room category checkIn checkOut excluded b Hbb.
  unfold overlapFilter.
  destruct Hbb as [Hout | Hin].
  - assert (Hf : (checkIn <? checkOutDate b) = false)
      by (apply Z.ltb_ge; lia).
    rewrite Hf, !andb_false_r. reflexivity.
  - assert (Hf : (checkInDate b <? checkOut) = false)
      by (apply Z.ltb_ge; lia).
    rewrite Hf, !andb_false_r. reflexivity.
Qed.

Lemma find_none_iff :
  forall (A : Type) (f : A -> bool) (l : list A),
    find f l = None <-> forall x, In x l -> f x = false.
Proof.
  intros A f l; split.
  - intros H x Hx. exact (find_none f l H x Hx).
  - induction l as [|a l IH]; intros H; simpl.
    + reflexivity.
    + rewrite (H a (or_introl eq_refl)).
      apply IH. intros x Hx. apply H. right; assumption.
Qed.

(** C1: the detector reports a conflict exactly when a stored booking of
    the same hotel, room and category, not cancelled and other than the
    excluded one, starts before the candidate's check-out and ends after
    its check-in; the booking it reports is such a booking; a booking that
    is back-to-back with the candidate is never reported, and a store made
    of such bookings raises no conflict. *)
Theorem C1_overlap_detector :
  forall (store : Store) hotel room category checkIn checkOut excluded,
    excluded <> Some "" ->
    ((exists b, checkBookingOverlap store hotel room category checkIn checkOut
                  excluded = Some b)
     <-> (exists b, In b store
                    /\ conflictsWith hotel room category checkIn checkOut
                                     excluded b))
    /\ (forall b, checkBookingOverlap store hotel room category checkIn checkOut
                    excluded = Some b ->
                  In b store
                  /\ conflictsWith hotel room category checkIn checkOut
                                   excluded b)
    /\ (forall b, backToBack checkIn checkOut b ->
                  checkBookingOverlap store hotel room category checkIn checkOut
                    excluded <> Some b)
    /\ ((forall b, In b store -> backToBack checkIn checkOut b) ->
        checkBookingOverlap store hotel room category checkIn checkOut
          excluded = None).
Proof.
  intros store hotel room category checkIn checkOut excluded Hex.
  unfold checkBookingOverlap.
  assert (Hsound : forall b,
             find (overlapFilter hotel room category checkIn checkOut excluded)
                  store = Some b ->
             In b store
             /\ conflictsWith hotel room category checkIn checkOut excluded b).
  { intros b Hb. apply find_some in Hb. destruct Hb as [Hin Hf].
    split; [assumption|].
    apply overlapFilter_spec; assumption. }
  split; [|split; [|split]].
  - split.
    + intros [b Hb]. exists b. apply Hsound; assumption.
    + intros [b [Hin Hc]].
      destruct (find (overlapFilter hotel room category checkIn checkOut excluded)
                     store) as [b'|] eqn:Hfind.
      * exists b'; reflexivity.
      * exfalso.
        apply (overlapFilter_spec hotel room category checkIn checkOut excluded b Hex)
          in Hc.
        rewrite (find_none _ _ Hfind b Hin) in Hc. discriminate.
  - exact Hsound.
  - intros b Hbb Hfind. apply find_some in Hfind. destruct Hfind as [_ Hf].
    rewrite (backToBack_not_filtered hotel room category checkIn checkOut
               excluded b Hbb) in Hf.
    discriminate.
  - intros Hall. apply find_none_iff. intros x Hx.
    apply backToBack_not_filtered. apply Hall; assumption.
Qed.

Lemma C1_overlap_detector_witness :
  (None : option string) <> Some ""
  /\ checkBookingOverlap Scenario.ledger 1 "101" "Deluxe"
       Scenario.june5 Scenario.june7 None = None.
Proof.
  split.
  - discriminate.
  - destruct (C1_overlap_detector Scenario.ledger 1 "101" "Deluxe"
                Scenario.june5 Scenario.june7 None) as (_ & _ & _ & Hnone).
    + discriminate.
    + apply Hnone. intros b [Hb | []]. subst b. left. reflexivity.
Defined.

(** The scenario of the specification: a stay from 4 to 6 June collides
    with booking X, a stay from 5 to 7 June does not. *)
Example scenario_Y_conflicts_with_X :
  checkBookingOverlap Scenario.ledger 1 "101" "Deluxe"
    Scenario.june4 Scenario.june6 None = Some Scenario.bookingX.
Proof. reflexivity. Qed.

End OverlapDetector.

(* ===================================================================== *)
(** ** Properties of the reservation ledger *)
(* ===================================================================== *)

Section LedgerFacts.

Import JS Ledger Spec.

Lemma truthy_string_nonempty :
  forall s, s <> "" -> truthy_string s = true.
Proof.
  intros [|c r] H; [congruence | reflexivity].
Qed.

(** A created booking carries the due payment the hook computes. *)
Lemma Booking_create_duePayment :
  forall env store doc b,
    Booking_create env store doc = inl b ->
    duePayment b = Z.max 0 (totalBill b - advancePayment b).
Proof.
  intros env store doc b H. unfold Booking_create in H.
  destruct (negb (validateDocument doc)); [discriminate|].
  destruct (existsb _ store); [discriminate|].
  destruct (match d_serialNo doc with
            | Some n => existsb (fun b0 => serialNo b0 =? n) store
            | None => false
            end); [discriminate|].
  destruct (existsb _ store); [discriminate|].
  inversion H; subst; reflexivity.
Qed.

(** What [createBooking] persists is what [Booking.create] returned, and
    its due payment is the clamped difference. *)
Lemma createBooking_duePayment :
  forall env store data b store',
    createBooking env store data = (Status200 b, store') ->
    store' = (store ++ [b])%list
    /\ duePayment b = Z.max 0 (totalBill b - advancePayment b).
Proof.
  intros env store data b store' H. unfold createBooking in H.
  destruct (negb (truthy_opt_number (d_hotelID data))
            || negb (truthy_opt (d_roomNumberID data))
            || negb (truthy_opt (d_roomCategoryID data))); [discriminate|].
  destruct (d_checkInDate data) as [ci|]; [|discriminate].
  destruct (d_checkOutDate data) as [co|]; [|discriminate].
  destruct (checkBookingOverlap store _ _ _ ci co None); [discriminate|].
  destruct (Booking_create env store _) as [b0|e] eqn:Hc; [|discriminate].
  inversion H; subst. split; [reflexivity|].
  eapply Booking_create_duePayment; eassumption.
Qed.

Lemma findById_In :
  forall store id b, findById store id = Some b -> In b store /\ _id b = id.
Proof.
  intros store id b H. unfold findById in H. apply find_some in H.
  destruct H as [Hin Heq]. apply String.eqb_eq in Heq. split; assumption.
Qed.

Lemma updateFirst_length :
  forall id data store,
    List.length (updateFirst id data store) = List.length store.
Proof.
  intros id data store. induction store as [|b rest IH]; simpl.
  - reflexivity.
  - destruct (String.eqb (_id b) id); simpl; [reflexivity | now rewrite IH].
Qed.

Lemma updateFirst_findById :
  forall id data store b,
    findById store id = Some b ->
    findById (updateFirst id data store) id = Some (applyUpdate b data).
Proof.
  intros id data store b. unfold findById.
  induction store as [|x rest IH]; simpl; intros H.
  - discriminate.
  - destruct (String.eqb (_id x) id) eqn:Hx.
    + inversion H; subst. simpl. rewrite Hx. reflexivity.
    + simpl. rewrite Hx. apply IH; assumption.
Qed.

(** An update never recomputes the due payment: the stored value is the
    one the request carries, or the old one. *)
Lemma updateBooking_duePayment :
  forall validators store id data b store',
    updateBooking validators store id data = (Status200 b, store') ->
    exists old,
      findById store id = Some old
      /\ b = applyUpdate old data
      /\ findById store' id = Some b
      /\ duePayment b = orElse (d_duePayment data) (duePayment old).
Proof.
  intros validators store id data b store' H. unfold updateBooking in H.
  destruct (findById store id) as [old|] eqn:Hold; [|discriminate].
  exists old.
  match type of H with
  | context [if ?c then _ else None] => destruct c
  end.
  - match type of H with
    | context [checkBookingOverlap ?s ?h ?r ?c ?i ?o ?e] =>
        destruct (checkBookingOverlap s h r c i o e); [discriminate|]
    end.
    unfold findByIdAndUpdate in H. rewrite Hold in H.
    destruct (negb (validators data)); [discriminate|].
    destruct (breaksUniqueIndex store id data); [discriminate|].
    inversion H; subst.
    repeat split; try reflexivity.
    apply updateFirst_findById; assumption.
  - unfold findByIdAndUpdate in H. rewrite Hold in H.
    destruct (negb (validators data)); [discriminate|].
    destruct (breaksUniqueIndex store id data); [discriminate|].
    inversion H; subst.
    repeat split; try reflexivity.
    apply updateFirst_findById; assumption.
Qed.

(** C2, where the code parts from the claim: whatever update validators
    accept the request, raising the bill of booking X from 400 to 500
    answers 200 and leaves the stored due payment at 300, while the bill
    minus the advance is now 400. *)
Theorem C2_update_keeps_stale_duePayment :
  forall validators : BookingData -> bool,
    validators Scenario.raiseBill = true ->
    exists b,
      updateBooking validators Scenario.ledger (_id Scenario.bookingX)
        Scenario.raiseBill = (Status200 b, [b])
      /\ totalBill b = 500
      /\ advancePayment b = 100
      /\ duePayment b = 300
      /\ Z.max 0 (totalBill b - advancePayment b) = 400.
Proof.
  intros validators Hv.
  eexists. split.
  - unfold updateBooking, findByIdAndUpdate. simpl. rewrite Hv. simpl.
    reflexivity.
  - repeat split.
Qed.

Lemma C2_update_keeps_stale_duePayment_witness :
  Scenario.billValidators Scenario.raiseBill = true
  /\ exists b,
      updateBooking Scenario.billValidators Scenario.ledger
        (_id Scenario.bookingX) Scenario.raiseBill = (Status200 b, [b])
      /\ totalBill b = 500
      /\ advancePayment b = 100
      /\ duePayment b = 300
      /\ Z.max 0 (totalBill b - advancePayment b) = 400.
Proof.
  split.
  - reflexivity.
  - apply (C2_update_keeps_stale_duePayment Scenario.billValidators).
    reflexivity.
Defined.

(** When the reference names a stored booking number, [Booking.create] is
    handed that number and the unique index refuses it. *)
Lemma hasBookingNo_found :
  forall no store r,
    find (hasBookingNo no) store = Some r ->
    bookingNo r = Str no /\ existsb (hasBookingNo no) store = true.
Proof.
  intros no store r H. apply find_some in H. destruct H as [Hin Hno].
  split.
  - unfold hasBookingNo in Hno. destruct (bookingNo r) as [| |s]; try discriminate.
    apply String.eqb_eq in Hno. subst; reflexivity.
  - apply existsb_exists. exists r. split; assumption.
Qed.

Lemma createBooking_reference_taken :
  forall env store data ref r,
    d_reference data = Some ref ->
    ref <> "" ->
    find (hasBookingNo ref) store = Some r ->
    snd (createBooking env store data) = store
    /\ forall b, fst (createBooking env store data) <> Status200 b.
Proof.
  intros env store data ref r Href Hne Hfind.
  destruct (hasBookingNo_found ref store r Hfind) as [Hno Hex].
  assert (Hchoose : chooseBookingNo env store data = ref).
  { unfold chooseBookingNo. rewrite Href. simpl.
    destruct ref as [|c s]; [congruence|]. simpl.
    simpl in Hfind. rewrite Hfind, Hno. reflexivity. }
  unfold createBooking.
  destruct (negb (truthy_opt_number (d_hotelID data))
            || negb (truthy_opt (d_roomNumberID data))
            || negb (truthy_opt (d_roomCategoryID data)));
    [split; [reflexivity | intros ? ; discriminate]|].
  destruct (d_checkInDate data) as [ci|];
    [|split; [reflexivity | intros ? ; discriminate]].
  destruct (d_checkOutDate data) as [co|];
    [|split; [reflexivity | intros ? ; discriminate]].
  destruct (checkBookingOverlap store _ _ _ ci co None);
    [split; [reflexivity | intros ? ; discriminate]|].
  rewrite Hchoose.
  unfold Booking_create.
  destruct (negb (validateDocument _));
    [split; [reflexivity | intros ? ; discriminate]|].
  simpl d_bookingNo. simpl orEmpty. rewrite Hex.
  split; [reflexivity | intros ? ; discriminate].
Qed.

(** C8, where the code parts from the claim: booking X holds number
    24060101; a request for another room (102) that gives 24060101 as its
    reference passes the conflict check, adopts that number, and is then
    refused by the unique index on [bookingNo]: the answer is 400 and
    nothing is persisted. *)
Theorem C8_reference_to_existing_number_is_refused :
  chooseBookingNo Scenario.onJune1 Scenario.ledger
    (Scenario.request "102" Scenario.june1 Scenario.june5 (Some "24060101"))
  = "24060101"
  /\ createBooking Scenario.onJune1 Scenario.ledger
       (Scenario.request "102" Scenario.june1 Scenario.june5 (Some "24060101"))
     = (Status400 DuplicateKey, Scenario.ledger).
Proof.
  split; vm_compute; reflexivity.
Qed.

(** Without a reference, or with one that names no stored booking, the
    number is a generated one, and what is persisted carries it. *)
Lemma createBooking_generates_number :
  forall env store data b store',
    (truthy_opt (d_reference data) = false
     \/ find (hasBookingNo (orEmpty (d_reference data))) store = None) ->
    createBooking env store data = (Status200 b, store') ->
    bookingNo b = Str (generateBookingNo (today env) store)
    /\ serialNo b = generateSerialNo store
    /\ store' = (store ++ [b])%list.
Proof.
  intros env store data b store' Hcase H.
  assert (Hchoose : chooseBookingNo env store data
                    = generateBookingNo (today env) store).
  { unfold chooseBookingNo. destruct Hcase as [Hf | Hn].
    - rewrite Hf. reflexivity.
    - rewrite Hn. destruct (truthy_opt (d_reference data)); reflexivity. }
  unfold createBooking in H.
  destruct (negb (truthy_opt_number (d_hotelID data))
            || negb (truthy_opt (d_roomNumberID data))
            || negb (truthy_opt (d_roomCategoryID data))); [discriminate|].
  destruct (d_checkInDate data) as [ci|]; [|discriminate].
  destruct (d_checkOutDate data) as [co|]; [|discriminate].
  destruct (checkBookingOverlap store _ _ _ ci co None); [discriminate|].
  rewrite Hchoose in H.
  destruct (Booking_create env store _) as [b0|e] eqn:Hc; [|discriminate].
  inversion H; subst. clear H.
  unfold Booking_create in Hc.
  destruct (negb (validateDocument _)); [discriminate|].
  destruct (existsb _ store); [discriminate|].
  simpl d_serialNo in Hc.
  destruct (existsb (fun b0 => serialNo b0 =? generateSerialNo store) store);
    [discriminate|].
  destruct (existsb _ store); [discriminate|].
  inversion Hc; subst. simpl. repeat split.
Qed.

(** The scenario: a request for room 102 without a reference is persisted
    under the next number of the day. *)
Example scenario_fresh_number :
  exists b,
    createBooking Scenario.onJune1 Scenario.ledger
      (Scenario.request "102" Scenario.june1 Scenario.june5 None)
    = (Status200 b, [Scenario.bookingX; b])
    /\ bookingNo b = Str "24060102"
    /\ serialNo b = 2
    /\ duePayment b = 300.
Proof.
  eexists. split; [vm_compute; reflexivity | repeat split].
Qed.

(** X1.  A request that collides with a stored booking is answered with 409,
    carrying a booking it collides with, and nothing is written. *)
Lemma createBooking_rejects_overlap :
  forall env store data hotel room category checkIn checkOut b,
    d_hotelID data = Some hotel -> hotel <> 0 ->
    d_roomNumberID data = Some room -> room <> "" ->
    d_roomCategoryID data = Some category -> category <> "" ->
    d_checkInDate data = Some checkIn ->
    d_checkOutDate data = Some checkOut ->
    In b store ->
    conflictsWith hotel room category checkIn checkOut None b ->
    exists o,
      createBooking env store data = (Status409 o, store)
      /\ In o store
      /\ conflictsWith hotel room category checkIn checkOut None o.
Proof.
  intros env store data hotel room category checkIn checkOut b
         Hh Hh0 Hr Hr0 Hc Hc0 Hi Ho Hin Hconf.
  assert (Hnone : (None : option string) <> Some "") by discriminate.
  unfold createBooking. rewrite Hh, Hr, Hc, Hi, Ho. simpl.
  unfold truthy_number. apply Z.eqb_neq in Hh0. rewrite Hh0.
  rewrite (truthy_string_nonempty _ Hr0), (truthy_string_nonempty _ Hc0).
  simpl. unfold checkBookingOverlap.
  destruct (find (overlapFilter hotel room category checkIn checkOut None) store)
    as [o|] eqn:Hfind.
  - exists o. apply find_some in Hfind. destruct Hfind as [Ho_in Ho_f].
    split; [reflexivity|]. split; [assumption|].
    apply overlapFilter_spec; assumption.
  - exfalso.
    apply (overlapFilter_spec hotel room category checkIn checkOut None b Hnone)
      in Hconf.
    rewrite (find_none _ _ Hfind b Hin) in Hconf. discriminate.
Qed.

(** The scenario: the stay from 4 to 6 June in room 101 is refused with
    booking X as the reason; the stay from 5 to 7 June is persisted. *)
Example scenario_Y_refused_Z_persisted :
  createBooking Scenario.onJune1 Scenario.ledger
    (Scenario.request "101" Scenario.june4 Scenario.june6 None)
  = (Status409 Scenario.bookingX, Scenario.ledger)
  /\ exists b,
      createBooking Scenario.onJune1 Scenario.ledger
        (Scenario.request "101" Scenario.june5 Scenario.june7 None)
      = (Status200 b, [Scenario.bookingX; b]).
Proof.
  split; [vm_compute; reflexivity|].
  eexists. vm_compute. reflexivity.
Qed.





Lemma sameKeys_existsb :
  forall (p : Booking -> bool) s1 s2,
    (forall x y, sameKeys x y -> p x = p y) ->
    Forall2 sameKeys s1 s2 ->
    existsb p s1 = existsb p s2.
Proof.
  intros p s1 s2 Hp H. induction H as [|x y l1 l2 Hxy _ IH]; simpl.
  - reflexivity.
  - rewrite (Hp x y Hxy), IH. reflexivity.
Qed.











Lemma In_insertByCreatedAtDesc :
  forall b x sorted,
    In x (insertByCreatedAtDesc b sorted) <-> x = b \/ In x sorted.
Proof.
  intros b x sorted. induction sorted as [|y rest IH]; simpl.
  - intuition.
  - destruct (createdAt y <? createdAt b); simpl.
    + intuition.
    + rewrite IH. intuition.
Qed.

Lemma In_sortByCreatedAtDesc :
  forall x l, In x (sortByCreatedAtDesc l) <-> In x l.
Proof.
  intros x l. unfold sortByCreatedAtDesc.
  induction l as [|b rest IH]; simpl.
  - tauto.
  - rewrite In_insertByCreatedAtDesc, IH. intuition.
Qed.

Lemma truthy_field_presentNonEmpty :
  forall f, truthy_field f = true <-> presentNonEmpty f.
Proof.
  intros f. unfold presentNonEmpty. split.
  - destruct f as [| |s]; simpl; try discriminate.
    intros H. exists s. split; [reflexivity|].
    destruct s; [discriminate | discriminate].
  - intros (s & Hf & Hs). subst f. simpl. apply truthy_string_nonempty; assumption.
Qed.

Lemma truthy_field_passes_query :
  forall f, truthy_field f = true -> existsAndNotEmpty f = true.
Proof.
  intros [| |s]; simpl; try discriminate.
  destruct s; [discriminate | reflexivity].
Qed.

(** Membership in what a listing keeps of the documents a query [q]
    selects. *)
Lemma listing_members :
  forall (q : Booking -> bool) store b,
    In b (filter validBooking
            (sortByCreatedAtDesc (filter (fun x => q x && listingQuery x) store)))
    <-> In b store /\ q b = true /\ _id b <> "" /\ listable b.
Proof.
  intros q store b.
  rewrite filter_In, In_sortByCreatedAtDesc, filter_In.
  unfold validBooking, listingQuery, listable, CANCELLED.
  rewrite !andb_true_iff, negb_true_iff, Z.eqb_neq,
    !truthy_field_presentNonEmpty.
  split.
  - intros [[Hin [Hq [[Hs _] _]]] [[Hid Hf] Hn]].
    repeat split; try assumption.
    destruct (_id b); [discriminate | discriminate].
  - intros (Hin & Hq & Hid & Hs & Hf & Hn).
    repeat split; try assumption.
    + apply truthy_field_passes_query, truthy_field_presentNonEmpty; assumption.
    + apply truthy_field_passes_query, truthy_field_presentNonEmpty; assumption.
    + apply truthy_string_nonempty; assumption.
Qed.

Lemma getBookings_unfold :
  forall store,
    getBookings store
    = Status200List
        (filter validBooking
           (sortByCreatedAtDesc
              (filter (fun x => true && listingQuery x) store))).
Proof.
  intros store. reflexivity.
Qed.

(** C10: [getBookings] always answers 200 with a list; every booking in
    the list, and in the list [getBookingsByHotelId] answers with, is a
    stored booking that is not cancelled and has a present, non-empty
    [fullName] and [bookingNo]; every stored booking with these properties
    (of the hotel asked for) is in the list, so the documents left out are
    the cancelled ones and the ones without a name or a number, and they
    raise no error: [getBookingsByHotelId] answers 404 only when the hotel
    has no listable booking at all. *)
Theorem C10_listings_skip_incomplete_bookings :
  forall store : Store,
    (exists l,
        getBookings store = Status200List l
        /\ (forall b, In b l -> In b store /\ listable b)
        /\ (forall b, In b store -> _id b <> "" -> listable b -> In b l))
    /\ (forall h,
          (exists l,
              getBookingsByHotelId store (Some h) = Status200List l
              /\ l <> []
              /\ (forall b, In b l -> In b store /\ hotelID b = h /\ listable b)
              /\ (forall b, In b store -> hotelID b = h -> _id b <> "" ->
                            listable b -> In b l))
          \/ (getBookingsByHotelId store (Some h) = Status404 NoBookingsForHotel
              /\ forall b, In b store -> hotelID b = h -> _id b <> "" ->
                           ~ listable b)).
Proof.
  intros store. split.
  - eexists. split; [apply getBookings_unfold|]. split.
    + intros b Hb. apply (listing_members (fun _ => true)) in Hb. tauto.
    + intros b Hin Hid Hl. apply (listing_members (fun _ => true)). tauto.
  - intros h. unfold getBookingsByHotelId.
    pose proof (listing_members (fun x => hotelID x =? h) store) as Hmem.
    destruct (filter validBooking
                (sortByCreatedAtDesc
                   (filter (fun b => (hotelID b =? h) && listingQuery b) store)))
      as [|b0 rest] eqn:Hl.
    + right. split; [reflexivity|].
      intros b Hin Hh Hid Hlist.
      assert (Hb : In b []) by (apply Hmem; rewrite Z.eqb_eq; tauto).
      exact Hb.
    + left. exists (b0 :: rest). split; [reflexivity|]. split; [discriminate|].
      split.
      * intros b Hb. apply Hmem in Hb. rewrite Z.eqb_eq in Hb. tauto.
      * intros b Hin Hh Hid Hlist. apply Hmem. rewrite Z.eqb_eq. tauto.
Qed.

Lemma C10_listings_skip_incomplete_bookings_witness :
  getBookings Scenario.legacyLedger = Status200List [Scenario.bookingX]
  /\ getBookingsByHotelId Scenario.legacyLedger (Some 1)
     = Status200List [Scenario.bookingX]
  /\ listable Scenario.bookingX.
Proof.
  destruct (C10_listings_skip_incomplete_bookings Scenario.legacyLedger)
    as [(l & Hl & Hsound & _) _].
  split; [reflexivity|]. split; [reflexivity|].
  apply (Hsound Scenario.bookingX).
  vm_compute in Hl. inversion Hl. left. reflexivity.
Defined.

End LedgerFacts.

(* ===================================================================== *)
(** ** Properties of the booking-number generator *)
(* ===================================================================== *)

Section BookingNumbers.

Import JS Ledger Spec.

Lemma substring_length_le :
  forall s n m, (String.length (substring n m s) <= m)%nat.
Proof.
  induction s as [|c s IH]; intros n m.
  - destruct n, m; simpl; lia.
  - destruct n as [|n].
    + destruct m as [|m]; simpl; [lia|].
      specialize (IH 0%nat m). lia.
    + simpl. apply IH.
Qed.

Lemma slice_last_length :
  forall n s, (String.length (slice_last n s) <= n)%nat.
Proof.
  intros n s. unfold slice_last. apply substring_length_le.
Qed.

Lemma skip_spaces_length :
  forall s, (String.length (skip_spaces s) <= String.length s)%nat.
Proof.
  induction s as [|c s IH]; simpl.
  - lia.
  - destruct (is_space c); simpl; lia.
Qed.

Lemma digit_value_range :
  forall c d, digit_value c = Some d -> 0 <= d <= 9.
Proof.
  intros c d. unfold digit_value.
  destruct ((48 <=? nat_of_ascii c)%nat && (nat_of_ascii c <=? 57)%nat) eqn:H;
    [|discriminate].
  apply andb_true_iff in H. destruct H as [H1 H2].
  apply Nat.leb_le in H1. apply Nat.leb_le in H2.
  intros E; inversion E; subst. lia.
Qed.

Lemma read_digits_cons :
  forall c s acc,
    read_digits (String c s) acc
    = match digit_value c with
      | Some d => read_digits s (Some (10 * accValue acc + d))
      | None => acc
      end.
Proof.
  intros c s acc. reflexivity.
Qed.

Lemma read_digits_bound :
  forall s acc v,
    0 <= accValue acc ->
    read_digits s acc = Some v ->
    0 <= v <= (accValue acc + 1) * 10 ^ Z.of_nat (String.length s) - 1.
Proof.
  induction s as [|c s IH]; intros acc v Hacc H.
  - simpl in H. subst acc. simpl in *. lia.
  - rewrite read_digits_cons in H.
    change (String.length (String c s)) with (S (String.length s)).
    rewrite Nat2Z.inj_succ, Z.pow_succ_r by lia.
    assert (0 < 10 ^ Z.of_nat (String.length s))
      by (apply Z.pow_pos_nonneg; lia).
    destruct (digit_value c) as [d|] eqn:Hd.
    + apply digit_value_range in Hd.
      apply IH in H; [|unfold accValue at 1; lia].
      unfold accValue at 1 in H.
      nia.
    + subst acc. unfold accValue in *. nia.
Qed.

(** [parseInt] of at most two characters is at most 99. *)
Lemma parseInt_two_chars :
  forall t v,
    (String.length t <= 2)%nat -> parseInt t = Some v -> v <= 99.
Proof.
  intros t v Hlen H. unfold parseInt in H.
  pose proof (skip_spaces_length t) as Hsk.
  destruct (skip_spaces t) as [|c r] eqn:Ht; [discriminate|].
  simpl in Hsk.
  assert (Hpow : forall n : nat, (n <= 2)%nat -> 10 ^ Z.of_nat n <= 100).
  { intros n Hn. destruct n as [|[|[|n]]]; simpl; lia. }
  destruct (Ascii.eqb c "-").
  - destruct (read_digits r None) as [w|] eqn:Hr; [|discriminate].
    apply read_digits_bound in Hr; [|simpl; lia].
    simpl in H. inversion H; subst. lia.
  - destruct (Ascii.eqb c "+").
    + apply read_digits_bound in H; [|simpl; lia].
      simpl accValue in H.
      specialize (Hpow (String.length r)). lia.
    + apply read_digits_bound in H; [|simpl; lia].
      simpl accValue in H.
      specialize (Hpow (String.length (String c r))).
      simpl String.length in *. lia.
Qed.

Lemma trailingNumbers_bound :
  forall prefix store v, In v (trailingNumbers prefix store) -> v <= 99.
Proof.
  intros prefix store v H. unfold trailingNumbers in H.
  apply in_flat_map in H. destruct H as (b & _ & Hv).
  destruct (bookingNo b) as [| |s]; try contradiction.
  destruct (startsWith prefix s); [|contradiction].
  destruct (parseInt (slice_last 2 s)) as [w|] eqn:Hp; [|contradiction].
  destruct Hv as [Hv | []]. subst w.
  eapply parseInt_two_chars; [apply slice_last_length | eassumption].
Qed.

Lemma maximumOr0_range :
  forall l, (forall v, In v l -> v <= 99) -> 0 <= maximumOr0 l <= 99.
Proof.
  induction l as [|x l IH]; intros H; simpl.
  - lia.
  - assert (Hx : x <= 99) by (apply H; left; reflexivity).
    assert (Hl : 0 <= maximumOr0 l <= 99)
      by (apply IH; intros v Hv; apply H; right; assumption).
    lia.
Qed.

Lemma maximumOr0_app :
  forall l1 l2, maximumOr0 (l1 ++ l2) = Z.max (maximumOr0 l1) (maximumOr0 l2).
Proof.
  induction l1 as [|x l1 IH]; intros l2; simpl.
  - assert (0 <= maximumOr0 l2).
    { clear. induction l2 as [|y l2 IH2]; simpl; lia. }
    lia.
  - rewrite IH. lia.
Qed.

(** One turn of the loop takes the maximum with the number the booking
    contributes. *)
Lemma bumpMaxSerial_max :
  forall prefix b acc,
    0 <= acc ->
    (if matchesPrefix prefix b then bumpMaxSerial acc b else acc)
    = Z.max acc (maximumOr0 (trailingNumbers prefix [b])).
Proof.
  intros prefix b acc Hacc.
  unfold matchesPrefix, bumpMaxSerial, trailingNumbers. simpl.
  destruct (bookingNo b) as [| |s]; simpl; try lia.
  destruct (startsWith prefix s); simpl; [|lia].
  destruct s as [|c r].
  - simpl. lia.
  - simpl truthy_string. cbv iota.
    destruct (parseInt (slice_last 2 (String c r))) as [v|]; simpl; [|lia].
    destruct (acc <? v) eqn:Hlt.
    + apply Z.ltb_lt in Hlt. lia.
    + apply Z.ltb_ge in Hlt. lia.
Qed.

Lemma trailingNumbers_cons :
  forall prefix b rest,
    trailingNumbers prefix (b :: rest)
    = (trailingNumbers prefix [b] ++ trailingNumbers prefix rest)%list.
Proof.
  intros prefix b rest. unfold trailingNumbers. simpl.
  rewrite app_nil_r. reflexivity.
Qed.

Lemma maximumOr0_nonneg : forall l, 0 <= maximumOr0 l.
Proof.
  induction l as [|x l IH]; simpl; lia.
Qed.

(** The loop of the generator computes the maximum the specification
    describes. *)
Lemma maxSerialOfDay_refines :
  forall prefix store,
    maxSerialOfDay prefix store = maximumOr0 (trailingNumbers prefix store).
Proof.
  intros prefix store. unfold maxSerialOfDay.
  assert (Hgen : forall acc, 0 <= acc ->
             fold_left bumpMaxSerial (filter (matchesPrefix prefix) store) acc
             = Z.max acc (maximumOr0 (trailingNumbers prefix store))).
  { induction store as [|b rest IH]; intros acc Hacc.
    - simpl. lia.
    - rewrite trailingNumbers_cons, maximumOr0_app.
      pose proof (bumpMaxSerial_max prefix b acc Hacc) as Hb.
      pose proof (maximumOr0_nonneg (trailingNumbers prefix [b])) as Hn.
      simpl filter.
      destruct (matchesPrefix prefix b).
      + simpl fold_left. rewrite IH by lia. lia.
      + rewrite IH by assumption. lia. }
  rewrite Hgen by lia.
  pose proof (maximumOr0_nonneg (trailingNumbers prefix store)). lia.
Qed.

(** Checking a property of every number of a range by computation. *)
Lemma forall_range :
  forall (P : Z -> bool) (lo len : nat),
    forallb P (map Z.of_nat (seq lo len)) = true ->
    forall z, Z.of_nat lo <= z < Z.of_nat (lo + len) -> P z = true.
Proof.
  intros P lo len H z Hz.
  rewrite forallb_forall in H. apply H.
  rewrite <- (Z2Nat.id z) by lia.
  apply in_map. apply in_seq. lia.
Qed.

Lemma serial_two_digits :
  forall m, 0 <= m < 99 ->
    String.length (padStart0 2 (Number_toString (m + 1))) = 2%nat.
Proof.
  intros m Hm.
  apply Nat.eqb_eq.
  apply (forall_range
           (fun z => (String.length (padStart0 2 (Number_toString (z + 1))) =? 2)%nat)
           0 99).
  - vm_compute. reflexivity.
  - simpl. lia.
Qed.

Lemma twoDigits_length :
  forall n, 0 <= n < 100 -> String.length (twoDigits n) = 2%nat.
Proof.
  intros n Hn.
  apply Nat.eqb_eq.
  apply (forall_range (fun z => (String.length (twoDigits z) =? 2)%nat) 0 100).
  - vm_compute. reflexivity.
  - simpl. lia.
Qed.

Lemma year_two_digits :
  forall y, 1000 <= y <= 9999 ->
    slice_last 2 (Number_toString y) = twoDigits (y mod 100).
Proof.
  intros y Hy.
  apply String.eqb_eq.
  apply (forall_range
           (fun z => String.eqb (slice_last 2 (Number_toString z))
                                (twoDigits (z mod 100)))
           1000 (90 * 100)).
  - vm_compute. reflexivity.
  - lia.
Qed.

Lemma string_length_append :
  forall a b, String.length (a ++ b) = (String.length a + String.length b)%nat.
Proof.
  induction a as [|c a IH]; intros b; simpl; [reflexivity | now rewrite IH].
Qed.

(** The prefix is YYMMDD. *)
Lemma datePrefix_shape :
  forall d, calendarDate d ->
    datePrefix d
    = twoDigits (getFullYear d mod 100) ++ twoDigits (getMonth d + 1)
      ++ twoDigits (getDate d)
    /\ String.length (datePrefix d) = 6%nat.
Proof.
  intros d (Hy & Hm & Hd). unfold datePrefix.
  rewrite (year_two_digits _ Hy).
  split; [reflexivity|].
  fold (twoDigits (getMonth d + 1)). fold (twoDigits (getDate d)).
  rewrite !string_length_append, !twoDigits_length; try lia.
  pose proof (Z.mod_pos_bound (getFullYear d) 100). lia.
Qed.

Lemma maximumOr0_ge :
  forall l v, In v l -> v <= maximumOr0 l.
Proof.
  induction l as [|x l IH]; intros v Hv; simpl.
  - contradiction.
  - destruct Hv as [Hx | Hl]; [subst; lia|].
    specialize (IH v Hl). lia.
Qed.

Lemma maximumOr0_least :
  forall l k, 0 <= k -> (forall v, In v l -> v <= k) -> maximumOr0 l <= k.
Proof.
  induction l as [|x l IH]; intros k Hk H; simpl.
  - lia.
  - assert (x <= k) by (apply H; left; reflexivity).
    assert (maximumOr0 l <= k) by (apply IH; [lia | intros v Hv; apply H; right; assumption]).
    lia.
Qed.

(** A ledger that keeps the bookings of another has at least its
    maximum. *)
Lemma maximumOr0_trailing_mono :
  forall prefix store store',
    incl store store' ->
    maximumOr0 (trailingNumbers prefix store)
    <= maximumOr0 (trailingNumbers prefix store').
Proof.
  intros prefix store store' Hincl.
  apply maximumOr0_least; [apply maximumOr0_nonneg|].
  intros v Hv. apply maximumOr0_ge.
  unfold trailingNumbers in *. apply in_flat_map in Hv.
  destruct Hv as (b & Hb & Hvb).
  apply in_flat_map. exists b. split; [apply Hincl; assumption | assumption].
Qed.

(** C5, as the code has it: the generated number is the YYMMDD prefix of
    the day followed by the day's maximum trailing number plus one, padded
    with zeros to two digits at least.  The maximum lies between 0 and 99;
    below 99 the serial has exactly two digits and the number eight
    characters; once it is 99 the serial is the three characters 100, for
    this ledger and for every ledger that keeps its bookings: the serial
    does not go back to 00. *)
Theorem C5_booking_number :
  forall (d : LocalDate) (store : Store),
    calendarDate d ->
    let m := maximumOr0 (trailingNumbers (datePrefix d) store) in
    datePrefix d
    = twoDigits (getFullYear d mod 100) ++ twoDigits (getMonth d + 1)
      ++ twoDigits (getDate d)
    /\ String.length (datePrefix d) = 6%nat
    /\ generateBookingNo d store
       = datePrefix d ++ padStart0 2 (Number_toString (m + 1))
    /\ 0 <= m <= 99
    /\ (m < 99 ->
        String.length (padStart0 2 (Number_toString (m + 1))) = 2%nat
        /\ String.length (generateBookingNo d store) = 8%nat)
    /\ (m = 99 ->
        forall store',
          incl store store' ->
          generateBookingNo d store' = datePrefix d ++ "100").
Proof.
  intros d store Hd m.
  destruct (datePrefix_shape d Hd) as [Hshape Hlen].
  assert (Hgen : generateBookingNo d store
                 = datePrefix d ++ padStart0 2 (Number_toString (m + 1))).
  { unfold generateBookingNo. rewrite maxSerialOfDay_refines. reflexivity. }
  assert (Hm : 0 <= m <= 99).
  { apply maximumOr0_range. apply trailingNumbers_bound. }
  repeat split; try assumption; try lia.
  - apply serial_two_digits. lia.
  - rewrite Hgen, string_length_append, Hlen, serial_two_digits by lia.
    reflexivity.
  - intros H99 store' Hincl.
    unfold generateBookingNo. rewrite maxSerialOfDay_refines.
    pose proof (maximumOr0_trailing_mono (datePrefix d) store store' Hincl) as Hmono.
    assert (Hup : 0 <= maximumOr0 (trailingNumbers (datePrefix d) store') <= 99).
    { apply maximumOr0_range. apply trailingNumbers_bound. }
    fold m in Hmono.
    replace (maximumOr0 (trailingNumbers (datePrefix d) store')) with 99 by lia.
    reflexivity.
Qed.

Lemma C5_booking_number_witness :
  calendarDate (today Scenario.onJune1)
  /\ generateBookingNo (today Scenario.onJune1) Scenario.ledger = "24060102"
  /\ String.length (generateBookingNo (today Scenario.onJune1) Scenario.ledger)
     = 8%nat.
Proof.
  assert (Hd : calendarDate (today Scenario.onJune1))
    by (unfold calendarDate; simpl; lia).
  split; [exact Hd|].
  destruct (C5_booking_number (today Scenario.onJune1) Scenario.ledger Hd)
    as (_ & _ & Hgen & _ & Hlt & _).
  split.
  - rewrite Hgen. vm_compute. reflexivity.
  - apply Hlt. vm_compute. reflexivity.
Defined.

(** C5 as stated fails once number 99 of the day is taken: the generator
    returns 240601100, which is not the prefix followed by a two-digit
    serial, and with that number stored it returns 240601100 again: the
    serial does not wrap. *)
Lemma C5_serial_past_99_has_three_digits :
  generateBookingNo (today Scenario.onJune1) Scenario.busyDay = "240601100"
  /\ ~ (exists serial,
          String.length serial = 2%nat
          /\ generateBookingNo (today Scenario.onJune1) Scenario.busyDay
             = datePrefix (today Scenario.onJune1) ++ serial)
  /\ generateBookingNo (today Scenario.onJune1)
       (Scenario.busyDay ++ [Scenario.numbered "c" "240601100" 100])%list
     = "240601100".
Proof.
  split; [vm_compute; reflexivity|]. split.
  - intros (serial & Hlen & Heq).
    assert (Hl : String.length
                   (generateBookingNo (today Scenario.onJune1) Scenario.busyDay)
                 = 9%nat) by (vm_compute; reflexivity).
    rewrite Heq, string_length_append, Hlen in Hl.
    vm_compute in Hl. discriminate.
  - vm_compute. reflexivity.
Qed.

End BookingNumbers.

(* ===================================================================== *)
(** ** Properties of the hotel aggregate *)
(* ===================================================================== *)

Section InventoryFacts.

Import JS Inventory InventorySpec.

Variable isValidObjectId : string -> bool.
Variable subdocumentRemove : bool.

Lemma calculatedTotalRooms_counts :
  forall h, calculatedTotalRooms h = countRooms h.
Proof.
  intros h. unfold calculatedTotalRooms, countRooms, allRooms.
  assert (Hgen : forall cats acc,
             fold_left
               (fun total category =>
                  total + Z.of_nat (List.length (roomNumbers category)))
               cats acc
             = acc + Z.of_nat (List.length (flat_map roomNumbers cats))).
  { induction cats as [|c cats IH]; intros acc; simpl.
    - lia.
    - rewrite IH, length_app. lia. }
  rewrite Hgen. lia.
Qed.

Lemma calculatedAvailableRooms_counts :
  forall h, calculatedAvailableRooms h = countAvailable h.
Proof.
  intros h. unfold calculatedAvailableRooms, countAvailable, allRooms.
  assert (Hgen : forall cats acc,
             fold_left
               (fun total category =>
                  total
                  + Z.of_nat
                      (List.length
                         (filter
                            (fun room => String.eqb (room_status room) "available")
                            (roomNumbers category))))
               cats acc
             = acc + Z.of_nat
                       (List.length
                          (filter isAvailable (flat_map roomNumbers cats)))).
  { induction cats as [|c cats IH]; intros acc; simpl.
    - lia.
    - rewrite IH, filter_app, length_app. unfold isAvailable. lia. }
  rewrite Hgen. lia.
Qed.

(** The hook leaves the counters equal to what the tree holds. *)
Lemma preSave_consistent : forall h, countsConsistent (preSave h).
Proof.
  intros h. unfold countsConsistent. simpl.
  rewrite calculatedTotalRooms_counts, calculatedAvailableRooms_counts.
  split; reflexivity.
Qed.

Lemma In_replaceHotel :
  forall h db x,
    In x db -> hotel_id x = hotel_id h -> In h (replaceHotel h db).
Proof.
  intros h db x. induction db as [|y rest IH]; simpl; intros Hin Hid.
  - contradiction.
  - destruct (String.eqb (hotel_id y) (hotel_id h)) eqn:Hy.
    + left; reflexivity.
    + destruct Hin as [Hx | Hx].
      * subst y. rewrite Hid, String.eqb_refl in Hy. discriminate.
      * right. apply IH; assumption.
Qed.

Lemma Forall_replaceHotel :
  forall (P : Hotel -> Prop) h db,
    Forall P db -> P h -> Forall P (replaceHotel h db).
Proof.
  intros P h db Hall Hh. induction Hall as [|y rest Hy Hrest IH]; simpl.
  - constructor.
  - destruct (String.eqb (hotel_id y) (hotel_id h)); constructor; assumption.
Qed.

Lemma findHotel_In :
  forall db id hotel,
    findHotel isValidObjectId db id = inl (Some hotel) -> In hotel db.
Proof.
  intros db id hotel H. unfold findHotel in H.
  destruct (isValidObjectId id).
  - inversion H as [Hf]. apply find_some in Hf. tauto.
  - destruct (parseIntNoRadix id); [|discriminate].
    inversion H as [Hf]. apply find_some in Hf. tauto.
Qed.

(** What a successful [save] of a loaded document amounts to. *)
Lemma save_written :
  forall db hotel h db',
    In hotel db -> hotel_id h = hotel_id hotel ->
    save db h = Some db' ->
    validHotel h = true
    /\ written db (preSave h) db'
    /\ In (preSave h) db'
    /\ (Forall countsConsistent db -> Forall countsConsistent db').
Proof.
  intros db hotel h db' Hin Hid H. unfold save in H.
  destruct (validHotel h); [|discriminate].
  inversion H; subst db'. split; [reflexivity|]. split; [left; reflexivity|].
  split.
  - apply In_replaceHotel with (x := hotel); [assumption|].
    simpl. symmetry. assumption.
  - intros Hall. apply Forall_replaceHotel; [assumption|].
    apply preSave_consistent.
Qed.

Ltac failed H Hcode :=
  inversion H; subst; simpl in Hcode; lia.

(** Each handler answers 200 or 201 only after a [save] of the document it
    loaded and changed. *)
Lemma updateHotel_success :
  forall db id u d resp db',
    updateHotel isValidObjectId db id u d = (resp, db') ->
    statusCode resp = 200 \/ statusCode resp = 201 ->
    exists hotel,
      findHotel isValidObjectId db id = inl (Some hotel)
      /\ save db (assignHotel hotel d
                    (imagesOnUpdate u (hd_images d) (images hotel)))
         = Some db'.
Proof.
  intros db id u d resp db' H Hcode. unfold updateHotel in H.
  destruct (findHotel isValidObjectId db id) as [[hotel|]|] eqn:Hf;
    try (failed H Hcode).
  destruct (save db _) as [db1|] eqn:Hs; try (failed H Hcode).
  inversion H; subst. exists hotel. split; [reflexivity | assumption].
Qed.

Lemma addCategory_success :
  forall db hotelId newId u d resp db',
    addCategory isValidObjectId db hotelId newId u d = (resp, db') ->
    statusCode resp = 200 \/ statusCode resp = 201 ->
    exists hotel category,
      findHotel isValidObjectId db hotelId = inl (Some hotel)
      /\ category_id category = newId
      /\ save db (withCategories hotel (roomCategories hotel ++ [category])%list)
         = Some db'.
Proof.
  intros db hotelId newId u d resp db' H Hcode. unfold addCategory in H.
  destruct (findHotel isValidObjectId db hotelId) as [[hotel|]|] eqn:Hf;
    try (failed H Hcode).
  destruct (find _ (roomCategories hotel)); try (failed H Hcode).
  destruct (save db _) as [db1|] eqn:Hs; try (failed H Hcode).
  inversion H; subst. exists hotel. eexists.
  split; [reflexivity|]. split; [|eassumption]. reflexivity.
Qed.

Lemma updateCategory_success :
  forall db hotelId categoryId u d resp db',
    updateCategory isValidObjectId db hotelId categoryId u d = (resp, db') ->
    statusCode resp = 200 \/ statusCode resp = 201 ->
    exists hotel category,
      findHotel isValidObjectId db hotelId = inl (Some hotel)
      /\ categoryById hotel categoryId = Some category
      /\ save db (withCategories hotel
                    (changeCategory categoryId
                       (assignCategory d
                          (imagesOnUpdate u (cd_images d)
                                          (category_images category)))
                       (roomCategories hotel)))
         = Some db'.
Proof.
  intros db hotelId categoryId u d resp db' H Hcode. unfold updateCategory in H.
  destruct (findHotel isValidObjectId db hotelId) as [[hotel|]|] eqn:Hf;
    try (failed H Hcode).
  destruct (categoryById hotel categoryId) as [category|] eqn:Hc;
    try (failed H Hcode).
  destruct (save db _) as [db1|] eqn:Hs; try (failed H Hcode).
  inversion H; subst. exists hotel, category.
  repeat split; first [assumption | reflexivity].
Qed.

Lemma deleteCategory_success :
  forall db hotelId categoryId resp db',
    deleteCategory isValidObjectId subdocumentRemove db hotelId categoryId = (resp, db') ->
    statusCode resp = 200 \/ statusCode resp = 201 ->
    exists hotel,
      findHotel isValidObjectId db hotelId = inl (Some hotel)
      /\ save db (withCategories hotel
                    (removeCategory categoryId (roomCategories hotel)))
         = Some db'.
Proof.
  intros db hotelId categoryId resp db' H Hcode. unfold deleteCategory in H.
  destruct (findHotel isValidObjectId db hotelId) as [[hotel|]|] eqn:Hf;
    try (failed H Hcode).
  destruct (categoryById hotel categoryId) as [category|] eqn:Hc;
    try (failed H Hcode).
  destruct subdocumentRemove; simpl in H; try (failed H Hcode).
  destruct (save db _) as [db1|] eqn:Hs; try (failed H Hcode).
  inversion H; subst. exists hotel. split; [reflexivity | assumption].
Qed.

Lemma addRoom_success :
  forall db hotelId categoryId newId u d resp db',
    addRoom isValidObjectId db hotelId categoryId newId u d = (resp, db') ->
    statusCode resp = 200 \/ statusCode resp = 201 ->
    exists hotel room,
      findHotel isValidObjectId db hotelId = inl (Some hotel)
      /\ room_id room = newId
      /\ save db (withCategories hotel
                    (changeCategory categoryId
                       (fun c => withRooms (roomNumbers c ++ [room])%list c)
                       (roomCategories hotel)))
         = Some db'.
Proof.
  intros db hotelId categoryId newId u d resp db' H Hcode. unfold addRoom in H.
  destruct (findHotel isValidObjectId db hotelId) as [[hotel|]|] eqn:Hf;
    try (failed H Hcode).
  destruct (categoryById hotel categoryId) as [category|] eqn:Hc;
    try (failed H Hcode).
  destruct (find _ (roomNumbers category)); try (failed H Hcode).
  destruct (save db _) as [db1|] eqn:Hs; try (failed H Hcode).
  inversion H; subst. exists hotel. eexists.
  split; [reflexivity|]. split; [|eassumption]. reflexivity.
Qed.

Lemma updateRoom_success :
  forall db hotelId categoryId roomId u d resp db',
    updateRoom isValidObjectId db hotelId categoryId roomId u d = (resp, db') ->
    statusCode resp = 200 \/ statusCode resp = 201 ->
    exists hotel category room,
      findHotel isValidObjectId db hotelId = inl (Some hotel)
      /\ categoryById hotel categoryId = Some category
      /\ roomById category roomId = Some room
      /\ save db (withCategories hotel
                    (changeCategory categoryId
                       (fun c =>
                          withRooms
                            (changeRoom roomId
                               (assignRoom d
                                  (imagesOnUpdate u (rd_images d)
                                                  (room_images room)))
                               (roomNumbers c)) c)
                       (roomCategories hotel)))
         = Some db'.
Proof.
  intros db hotelId categoryId roomId u d resp db' H Hcode.
  unfold updateRoom in H.
  destruct (findHotel isValidObjectId db hotelId) as [[hotel|]|] eqn:Hf;
    try (failed H Hcode).
  destruct (categoryById hotel categoryId) as [category|] eqn:Hc;
    try (failed H Hcode).
  destruct (roomById category roomId) as [room|] eqn:Hr; try (failed H Hcode).
  destruct (save db _) as [db1|] eqn:Hs; try (failed H Hcode).
  inversion H; subst. exists hotel, category, room.
  repeat split; first [assumption | reflexivity].
Qed.

Lemma deleteRoom_success :
  forall db hotelId categoryId roomId resp db',
    deleteRoom isValidObjectId subdocumentRemove db hotelId categoryId roomId = (resp, db') ->
    statusCode resp = 200 \/ statusCode resp = 201 ->
    exists hotel,
      findHotel isValidObjectId db hotelId = inl (Some hotel)
      /\ save db (withCategories hotel
                    (changeCategory categoryId
                       (fun c => withRooms (removeRoom roomId (roomNumbers c)) c)
                       (roomCategories hotel)))
         = Some db'.
Proof.
  intros db hotelId categoryId roomId resp db' H Hcode. unfold deleteRoom in H.
  destruct (findHotel isValidObjectId db hotelId) as [[hotel|]|] eqn:Hf;
    try (failed H Hcode).
  destruct (categoryById hotel categoryId) as [category|] eqn:Hc;
    try (failed H Hcode).
  destruct (roomById category roomId) as [room|] eqn:Hr; try (failed H Hcode).
  destruct subdocumentRemove; simpl in H; try (failed H Hcode).
  destruct (save db _) as [db1|] eqn:Hs; try (failed H Hcode).
  inversion H; subst. exists hotel. split; [reflexivity | assumption].
Qed.

Lemma updateRoomStatus_success :
  forall db hotelID categoryID roomStatuses resp db',
    updateRoomStatus db hotelID categoryID roomStatuses = (resp, db') ->
    statusCode resp = 200 \/ statusCode resp = 201 ->
    exists hotel cats,
      In hotel db
      /\ save db (withCategories hotel cats) = Some db'.
Proof.
  intros db hotelID categoryID roomStatuses resp db' H Hcode.
  unfold updateRoomStatus in H.
  destruct roomStatuses as [statuses|]; try (failed H Hcode).
  destruct (parseIntNoRadix hotelID) as [n|]; try (failed H Hcode).
  destruct (find _ db) as [hotel|] eqn:Hf; try (failed H Hcode).
  destruct (find _ (roomCategories hotel)); try (failed H Hcode).
  destruct (save db _) as [db1|] eqn:Hs; try (failed H Hcode).
  inversion H; subst. exists hotel. eexists.
  split; [|eassumption]. apply find_some in Hf. tauto.
Qed.

(** C3: whenever a route of the hotel router that writes (create and
    update of a hotel; add, update and delete of a category and of a room;
    the legacy room-status route) answers 200 or 201, the collection it leaves is the old one with one saved document
    written into it, and that document's [totalRooms] is the number of
    rooms across its categories and its [availableRooms] the number of
    those with status available, whether or not the mutation touched a
    room; if the counters of every stored hotel agreed with its tree
    before, they do afterwards. *)
Theorem C3_counts_recomputed_on_every_save :
  forall (m : Mutation) (db db' : Db) (resp : Response),
    route isValidObjectId subdocumentRemove m db = (resp, db') ->
    statusCode resp = 200 \/ statusCode resp = 201 ->
    (exists h,
        written db h db'
        /\ In h db'
        /\ totalRooms h = countRooms h
        /\ availableRooms h = countAvailable h)
    /\ (Forall countsConsistent db -> Forall countsConsistent db').
Proof.
  intros m db db' resp H Hcode.
  assert (Hsave : forall hotel h id,
             findHotel isValidObjectId db id = inl (Some hotel) ->
             hotel_id h = hotel_id hotel ->
             save db h = Some db' ->
             (exists h0,
                 written db h0 db' /\ In h0 db'
                 /\ totalRooms h0 = countRooms h0
                 /\ availableRooms h0 = countAvailable h0)
             /\ (Forall countsConsistent db -> Forall countsConsistent db')).
  { intros hotel h id Hf Hid Hs.
    apply findHotel_In in Hf.
    destruct (save_written db hotel h db' Hf Hid Hs) as (_ & Hw & Hin & Hall).
    split; [|assumption].
    exists (preSave h). destruct (preSave_consistent h) as [Ht Ha].
    repeat split; assumption. }
  destruct m as [newId nextSequence u d | id u d | hotelId newId u d | hotelId categoryId u d
                 | hotelId categoryId | hotelId categoryId newId u d
                 | hotelId categoryId roomId u d | hotelId categoryId roomId
                 | hotelNo categoryName roomStatuses];
    simpl in H.
  - unfold createHotel in H.
    match type of H with
    | context [validHotel ?h] =>
        destruct (validHotel h); [|failed H Hcode];
        simpl in H;
        destruct (existsb _ db); [failed H Hcode|];
        inversion H; subst; split;
        [ exists (preSave (withHotelID h nextSequence));
          destruct (preSave_consistent (withHotelID h nextSequence))
            as [Ht Ha];
          repeat split;
          [ right; reflexivity
          | apply in_or_app; right; left; reflexivity
          | assumption | assumption ]
        | intros Hall; apply Forall_app; split;
          [ assumption
          | constructor; [apply preSave_consistent | constructor] ] ]
    end.
  - destruct (updateHotel_success _ _ _ _ _ _ H Hcode) as (hotel & Hf & Hs).
    eapply Hsave; [eassumption | | eassumption]. reflexivity.
  - destruct (addCategory_success _ _ _ _ _ _ _ H Hcode)
      as (hotel & category & Hf & _ & Hs).
    eapply Hsave; [eassumption | | eassumption]. reflexivity.
  - destruct (updateCategory_success _ _ _ _ _ _ _ H Hcode)
      as (hotel & category & Hf & _ & Hs).
    eapply Hsave; [eassumption | | eassumption]. reflexivity.
  - destruct (deleteCategory_success _ _ _ _ _ H Hcode) as (hotel & Hf & Hs).
    eapply Hsave; [eassumption | | eassumption]. reflexivity.
  - destruct (addRoom_success _ _ _ _ _ _ _ _ H Hcode)
      as (hotel & room & Hf & _ & Hs).
    eapply Hsave; [eassumption | | eassumption]. reflexivity.
  - destruct (updateRoom_success _ _ _ _ _ _ _ _ H Hcode)
      as (hotel & category & room & Hf & _ & _ & Hs).
    eapply Hsave; [eassumption | | eassumption]. reflexivity.
  - destruct (deleteRoom_success _ _ _ _ _ _ H Hcode) as (hotel & Hf & Hs).
    eapply Hsave; [eassumption | | eassumption]. reflexivity.
  - destruct (updateRoomStatus_success _ _ _ _ _ _ H Hcode)
      as (hotel & cats & Hin & Hs).
    destruct (save_written db hotel (withCategories hotel cats) db' Hin
                eq_refl Hs) as (_ & Hw & Hin' & Hall).
    split; [|assumption].
    exists (preSave (withCategories hotel cats)).
    destruct (preSave_consistent (withCategories hotel cats)) as [Ht Ha].
    repeat split; assumption.
Qed.

Lemma firstn_3_length :
  forall (l : list string), (List.length (firstn 3 l) <= 3)%nat.
Proof.
  intros l. apply firstn_le_length.
Qed.

(** The image branch of the three update handlers. *)
Lemma imagesOnUpdate_spec :
  forall u body existing,
    suppliesImages u body ->
    exists l,
      imagesOnUpdate u body existing = Some l
      /\ (List.length l <= 3)%nat
      /\ (hasFiles u = true ->
          l = firstn 3 (existing
                        ++ Upload.getImageUrls (envBaseUrl u) (files u))%list)
      /\ (hasFiles u = false -> l = asArrayCapped body).
Proof.
  intros u body existing Hsup. unfold imagesOnUpdate.
  destruct (hasFiles u) eqn:Hf.
  - eexists. split; [reflexivity|]. split; [apply firstn_3_length|].
    split; [reflexivity | discriminate].
  - destruct Hsup as [Hc | Hb]; [congruence|]. rewrite Hb.
    eexists. split; [reflexivity|]. split.
    + destruct body as [|s|l]; simpl; [lia | lia | apply firstn_3_length].
    + split; [discriminate | reflexivity].
Qed.

Lemma find_changeCategory :
  forall categoryId f cats c,
    find (fun x => String.eqb (category_id x) categoryId) cats = Some c ->
    category_id (f c) = category_id c ->
    find (fun x => String.eqb (category_id x) categoryId)
         (changeCategory categoryId f cats) = Some (f c).
Proof.
  intros categoryId f cats c. induction cats as [|x rest IH]; simpl; intros H Hid.
  - discriminate.
  - destruct (String.eqb (category_id x) categoryId) eqn:Hx.
    + inversion H; subst. simpl. rewrite Hid, Hx. reflexivity.
    + simpl. rewrite Hx. apply IH; assumption.
Qed.

Lemma find_changeRoom :
  forall roomId f rooms r,
    find (fun x => String.eqb (room_id x) roomId) rooms = Some r ->
    room_id (f r) = room_id r ->
    find (fun x => String.eqb (room_id x) roomId)
         (changeRoom roomId f rooms) = Some (f r).
Proof.
  intros roomId f rooms r. induction rooms as [|x rest IH]; simpl; intros H Hid.
  - discriminate.
  - destruct (String.eqb (room_id x) roomId) eqn:Hx.
    + inversion H; subst. simpl. rewrite Hid, Hx. reflexivity.
    + simpl. rewrite Hx. apply IH; assumption.
Qed.

(** C7, as the code has it: an update that supplies images (uploaded
    files, or a truthy [images] value in its body) leaves at most three
    images on the hotel, the category or the room it addresses.  Uploaded
    files are appended after the images the document had and the result is
    cut to its first three; without files, the [images] of the body replace
    the list, cut to the first three of an array.  This is what
    [updateHotel], [updateCategory] and [updateRoom] store on the hotel,
    the category and the room they update. *)
Theorem C7_updates_store_at_most_three_images :
  forall (db : Db) (u : Attachments),
    (forall body existing,
        suppliesImages u body ->
        exists l,
          imagesOnUpdate u body existing = Some l
          /\ (List.length l <= 3)%nat
          /\ (hasFiles u = true ->
              l = firstn 3 (existing
                            ++ Upload.getImageUrls (envBaseUrl u) (files u))%list)
          /\ (hasFiles u = false -> l = asArrayCapped body))
    /\ (forall id d resp db',
          suppliesImages u (hd_images d) ->
          updateHotel isValidObjectId db id u d = (resp, db') ->
          statusCode resp = 200 ->
          exists hotel h',
            findHotel isValidObjectId db id = inl (Some hotel)
            /\ In h' db'
            /\ hotel_id h' = hotel_id hotel
            /\ (List.length (images h') <= 3)%nat
            /\ (hasFiles u = true ->
                images h'
                = firstn 3 (images hotel
                            ++ Upload.getImageUrls (envBaseUrl u) (files u))%list)
            /\ (hasFiles u = false ->
                images h' = asArrayCapped (hd_images d)))
    /\ (forall hotelId categoryId d resp db',
          suppliesImages u (cd_images d) ->
          updateCategory isValidObjectId db hotelId categoryId u d = (resp, db') ->
          statusCode resp = 200 ->
          exists hotel category h' c',
            findHotel isValidObjectId db hotelId = inl (Some hotel)
            /\ categoryById hotel categoryId = Some category
            /\ In h' db'
            /\ hotel_id h' = hotel_id hotel
            /\ categoryById h' categoryId = Some c'
            /\ (List.length (category_images c') <= 3)%nat
            /\ (hasFiles u = true ->
                category_images c'
                = firstn 3 (category_images category
                            ++ Upload.getImageUrls (envBaseUrl u) (files u))%list)
            /\ (hasFiles u = false ->
                category_images c' = asArrayCapped (cd_images d)))
    /\ (forall hotelId categoryId roomId d resp db',
          suppliesImages u (rd_images d) ->
          updateRoom isValidObjectId db hotelId categoryId roomId u d
          = (resp, db') ->
          statusCode resp = 200 ->
          exists hotel category room h' c' r',
            findHotel isValidObjectId db hotelId = inl (Some hotel)
            /\ categoryById hotel categoryId = Some category
            /\ roomById category roomId = Some room
            /\ In h' db'
            /\ hotel_id h' = hotel_id hotel
            /\ categoryById h' categoryId = Some c'
            /\ roomById c' roomId = Some r'
            /\ (List.length (room_images r') <= 3)%nat
            /\ (hasFiles u = true ->
                room_images r'
                = firstn 3 (room_images room
                            ++ Upload.getImageUrls (envBaseUrl u) (files u))%list)
            /\ (hasFiles u = false ->
                room_images r' = asArrayCapped (rd_images d))).
Proof.
  intros db u. split; [|split; [|split]].
  - intros body existing Hsup. apply imagesOnUpdate_spec; assumption.
  - intros id d resp db' Hsup H Hcode.
    destruct (updateHotel_success _ _ _ _ _ _ H (or_introl Hcode))
      as (hotel & Hf & Hs).
    destruct (imagesOnUpdate_spec u (hd_images d) (images hotel) Hsup)
      as (l & Hl & Hlen & Hfiles & Hbody).
    exists hotel. eexists.
    pose proof Hs as Hw.
    eapply save_written in Hw;
      [ | eapply findHotel_In; exact Hf | reflexivity ].
    destruct Hw as (_ & _ & Hin & _).
    split; [exact Hf|]. split; [exact Hin|]. split; [reflexivity|].
    unfold preSave, assignHotel. cbn [images]. rewrite Hl. cbn [imagesWritten orElse].
    repeat split; assumption.
  - intros hotelId categoryId d resp db' Hsup H Hcode.
    destruct (updateCategory_success _ _ _ _ _ _ _ H (or_introl Hcode))
      as (hotel & category & Hf & Hc & Hs).
    destruct (imagesOnUpdate_spec u (cd_images d) (category_images category)
                Hsup) as (l & Hl & Hlen & Hfiles & Hbody).
    exists hotel, category. eexists. eexists.
    pose proof Hs as Hw.
    eapply save_written in Hw;
      [ | eapply findHotel_In; exact Hf | reflexivity ].
    destruct Hw as (_ & _ & Hin & _).
    split; [exact Hf|]. split; [exact Hc|]. split; [exact Hin|].
    split; [reflexivity|]. split.
    + unfold categoryById. simpl.
      apply find_changeCategory; [exact Hc | reflexivity].
    + unfold assignCategory. cbn [category_images]. rewrite Hl.
      cbn [imagesWritten orElse]. repeat split; assumption.
  - intros hotelId categoryId roomId d resp db' Hsup H Hcode.
    destruct (updateRoom_success _ _ _ _ _ _ _ _ H (or_introl Hcode))
      as (hotel & category & room & Hf & Hc & Hr & Hs).
    destruct (imagesOnUpdate_spec u (rd_images d) (room_images room) Hsup)
      as (l & Hl & Hlen & Hfiles & Hbody).
    exists hotel, category, room. eexists. eexists. eexists.
    pose proof Hs as Hw.
    eapply save_written in Hw;
      [ | eapply findHotel_In; exact Hf | reflexivity ].
    destruct Hw as (_ & _ & Hin & _).
    split; [exact Hf|]. split; [exact Hc|]. split; [exact Hr|].
    split; [exact Hin|]. split; [reflexivity|]. split.
    + unfold categoryById. simpl.
      apply (find_changeCategory categoryId
               (fun c => withRooms
                           (changeRoom roomId
                              (assignRoom d
                                 (imagesOnUpdate u (rd_images d)
                                                 (room_images room)))
                              (roomNumbers c)) c));
        [exact Hc | reflexivity].
    + split.
      * unfold roomById. simpl.
        apply find_changeRoom; [exact Hr | reflexivity].
      * unfold assignRoom. cbn [room_images]. rewrite Hl.
        cbn [imagesWritten orElse]. repeat split; assumption.
Qed.

(** On the two routes that check a name, a name already in use is
    answered with 409 and the collection is left as it was. *)
Lemma addCategory_rejects_duplicate :
  forall db hotelId newId u d hotel c n,
    findHotel isValidObjectId db hotelId = inl (Some hotel) ->
    In c (roomCategories hotel) ->
    category_name c = n ->
    cd_name d = Some n ->
    addCategory isValidObjectId db hotelId newId u d
    = (Sent 409 "Category with this name already exists in this hotel", db).
Proof.
  intros db hotelId newId u d hotel c n Hf Hin Hn Hd.
  unfold addCategory. rewrite Hf, Hd.
  destruct (find (fun cat => sameName (category_name cat) (Some n))
                 (roomCategories hotel)) as [x|] eqn:Hfind.
  - reflexivity.
  - exfalso. apply (find_none _ _ Hfind) in Hin.
    simpl in Hin. rewrite Hn, String.eqb_refl in Hin. discriminate.
Qed.

Lemma addRoom_rejects_duplicate :
  forall db hotelId categoryId newId u d hotel category r n,
    findHotel isValidObjectId db hotelId = inl (Some hotel) ->
    categoryById hotel categoryId = Some category ->
    In r (roomNumbers category) ->
    room_name r = n ->
    rd_name d = Some n ->
    addRoom isValidObjectId db hotelId categoryId newId u d
    = (Sent 409 "Room with this name already exists in this category", db).
Proof.
  intros db hotelId categoryId newId u d hotel category r n Hf Hc Hin Hn Hd.
  unfold addRoom. rewrite Hf, Hc, Hd.
  destruct (find (fun room => sameName (room_name room) (Some n))
                 (roomNumbers category)) as [x|] eqn:Hfind.
  - reflexivity.
  - exfalso. apply (find_none _ _ Hfind) in Hin.
    simpl in Hin. rewrite Hn, String.eqb_refl in Hin. discriminate.
Qed.

End InventoryFacts.

Section InventoryScenario.

Import JS Inventory InventorySpec.

Lemma C3_counts_recomputed_on_every_save_witness :
  statusCode
    (fst (route Grand.isValidObjectId true
            (UpdateCategory "1" "c2" Grand.noFiles (Grand.rename "Family"))
            Grand.db)) = 200
  /\ exists h,
      In h (snd (route Grand.isValidObjectId true
                   (UpdateCategory "1" "c2" Grand.noFiles (Grand.rename "Family"))
                   Grand.db))
      /\ totalRooms h = countRooms h
      /\ availableRooms h = countAvailable h.
Proof.
  assert (Hcode :
            statusCode
              (fst (route Grand.isValidObjectId true
                      (UpdateCategory "1" "c2" Grand.noFiles
                                      (Grand.rename "Family"))
                      Grand.db)) = 200) by reflexivity.
  split; [exact Hcode|].
  destruct (C3_counts_recomputed_on_every_save
              Grand.isValidObjectId true
              (UpdateCategory "1" "c2" Grand.noFiles (Grand.rename "Family"))
              Grand.db _ _ (surjective_pairing _) (or_introl Hcode))
    as [(h & _ & Hin & Ht & Ha) _].
  exists h. repeat split; assumption.
Defined.


Lemma C7_updates_store_at_most_three_images_witness :
  suppliesImages Grand.twoFiles NoImages
  /\ statusCode
       (fst (updateHotel Grand.isValidObjectId Grand.db "1" Grand.twoFiles
               Grand.noBody)) = 200
  /\ exists h',
      In h' (snd (updateHotel Grand.isValidObjectId Grand.db "1" Grand.twoFiles
                    Grand.noBody))
      /\ images h'
         = ["a.jpg"; "b.jpg"; "http://localhost:8000/uploads/hotels/c.jpg"].
Proof.
  assert (Hsup : suppliesImages Grand.twoFiles NoImages) by (left; reflexivity).
  assert (Hcode :
            statusCode
              (fst (updateHotel Grand.isValidObjectId Grand.db "1"
                      Grand.twoFiles Grand.noBody)) = 200) by reflexivity.
  split; [exact Hsup|]. split; [exact Hcode|].
  destruct (C7_updates_store_at_most_three_images
              Grand.isValidObjectId Grand.db Grand.twoFiles)
    as (_ & Hhotel & _ & _).
  destruct (Hhotel "1" Grand.noBody _ _ Hsup (surjective_pairing _) Hcode)
    as (hotel & h' & Hf & Hin & _ & _ & Hfiles & _).
  exists h'. split; [exact Hin|].
  vm_compute in Hf. inversion Hf; subst hotel.
  rewrite (Hfiles eq_refl). vm_compute. reflexivity.
Defined.

(** C7 as stated fails: without files, the images of the body replace the
    stored ones instead of being merged after them (the hotel with images
    a and b, updated with the array [c], ends with [c] alone); a create
    stores every image of the body (a hotel created with four ends with
    four); and the categories an update of a hotel carries in its body are
    stored with the images they come with (a category with four images
    ends with four). *)
Lemma C7_body_images_replace_and_create_keeps_all :
  (exists h',
      updateHotel Grand.isValidObjectId Grand.db "1" Grand.noFiles
        (Grand.withImages ["c.jpg"])
      = (Sent 200 "Hotel updated successfully", [h'])
      /\ images h' = ["c.jpg"]
      /\ images h' <> firstn 3 (images Grand.hotel ++ ["c.jpg"])%list)
  /\ (exists h',
         createHotel Grand.db "665b00000000000000000002" 2 Grand.noFiles
           (Grand.newHotel ["1.jpg"; "2.jpg"; "3.jpg"; "4.jpg"])
         = (Sent 201 "Hotel created successfully", (Grand.db ++ [h'])%list)
         /\ List.length (images h') = 4%nat)
  /\ (exists h' c',
         updateHotel Grand.isValidObjectId Grand.db "1" Grand.noFiles
           Grand.withGallery
         = (Sent 200 "Hotel updated successfully", [h'])
         /\ roomCategories h' = [c']
         /\ List.length (category_images c') = 4%nat).
Proof.
  split; [|split].
  - eexists. split; [vm_compute; reflexivity|].
    split; [reflexivity | simpl; discriminate].
  - eexists. split; [vm_compute; reflexivity | reflexivity].
  - eexists. eexists. split; [vm_compute; reflexivity|].
    split; reflexivity.
Qed.

(** C6, where the code parts from the claim: the two update routes do not
    look at the names in use.  Renaming category Suite to Deluxe answers
    200 and leaves two categories named Deluxe; renaming room 102 to 101
    answers 200 and leaves two rooms named 101 in Deluxe. *)
Theorem C6_updates_accept_a_name_in_use :
  (exists h',
      updateCategory Grand.isValidObjectId Grand.db "1" "c2" Grand.noFiles
        (Grand.rename "Deluxe")
      = (Sent 200 "Category updated successfully", [h'])
      /\ map category_name (roomCategories h') = ["Deluxe"; "Deluxe"])
  /\ (exists h' c',
         updateRoom Grand.isValidObjectId Grand.db "1" "c1" "r2" Grand.noFiles
           (Grand.renameRoom "101")
         = (Sent 200 "Room updated successfully", [h'])
         /\ categoryById h' "c1" = Some c'
         /\ map room_name (roomNumbers c') = ["101"; "101"]).
Proof.
  split.
  - eexists. split; [vm_compute; reflexivity | reflexivity].
  - eexists. eexists. split; [vm_compute; reflexivity|].
    split; reflexivity.
Qed.

(** The scenario: adding a second category Deluxe, or a second room 101
    to Deluxe, is answered with 409 and changes nothing. *)
Example scenario_add_rejects_name_in_use :
  addCategory Grand.isValidObjectId Grand.db "1" "c3" Grand.noFiles
    (Grand.rename "Deluxe")
  = (Sent 409 "Category with this name already exists in this hotel", Grand.db)
  /\ addRoom Grand.isValidObjectId Grand.db "1" "c1" "r4" Grand.noFiles
       (Grand.renameRoom "101")
     = (Sent 409 "Room with this name already exists in this category", Grand.db).
Proof.
  split; vm_compute; reflexivity.
Qed.

End InventoryScenario.

(* ===================================================================== *)
(** ** Properties of the order-number hook *)
(* ===================================================================== *)

Section OrderNumbers.

Import JS Orders.

(** An order that leaves the hook has an order number. *)
Lemma preSave_assigns_number :
  forall clock orders countFails this,
    truthy_opt (orderNumber (preSave clock orders countFails this)) = true.
Proof.
  intros clock orders countFails this. unfold preSave.
  destruct (truthy_opt (orderNumber this)) eqn:Hn; cbn [negb].
  - exact Hn.
  - destruct countFails; reflexivity.
Qed.

(** The number the hook builds on each of its two paths. *)
Lemma preSave_number :
  forall clock orders countFails this,
    truthy_opt (orderNumber this) = false ->
    let today := setHoursZero (utcOffsetMinutes clock) (nowInTry clock) in
    orderNumber (preSave clock orders countFails this)
    = Some
        (if countFails
         then "ORD-" ++ dateStr (nowInCatch clock) ++ "-"
              ++ slice_last 4 (Number_toString (timestampInCatch clock))
         else "ORD-" ++ dateStr today ++ "-"
              ++ padStart0 4
                   (Number_toString
                      (countDocuments orders today (today + msPerDay) + 1))).
Proof.
  intros clock orders countFails this Hn today. unfold preSave.
  rewrite Hn. cbn [negb]. destruct countFails; reflexivity.
Qed.

(** The instant [setHours(0, 0, 0, 0)] yields is the start of the day of
    the wall clock, and lies on the same UTC day as the wall-clock reading
    when the process is not east of UTC. *)
Lemma setHoursZero_day :
  forall offset ms,
    - 1440 < offset <= 0 ->
    setHoursZero offset ms / msPerDay
    = (ms + offset * msPerMinute) / msPerDay.
Proof.
  intros offset ms Hoff. unfold setHoursZero, msPerDay, msPerMinute.
  set (q := (ms + offset * 60000) / 86400000).
  symmetry. apply Z.div_unique with (r := - offset * 60000); lia.
Qed.

Lemma setHoursZero_day_east :
  forall offset ms,
    0 < offset < 1440 ->
    setHoursZero offset ms / msPerDay
    = (ms + offset * msPerMinute) / msPerDay - 1.
Proof.
  intros offset ms Hoff. unfold setHoursZero, msPerDay, msPerMinute.
  set (q := (ms + offset * 60000) / 86400000).
  symmetry. apply Z.div_unique with (r := 86400000 - offset * 60000); lia.
Qed.

Lemma substring_prefix_app :
  forall n a b,
    (n <= String.length a)%nat ->
    substring 0 n (a ++ b) = substring 0 n a.
Proof.
  induction n as [|n IH]; intros a b Hlen.
  - destruct a; destruct b; reflexivity.
  - destruct a as [|c a]; simpl in Hlen; [lia|].
    simpl. rewrite IH by lia. reflexivity.
Qed.

Lemma repeat_char_length :
  forall c n, String.length (repeat_char c n) = n.
Proof.
  intros c n. induction n as [|n IH]; simpl; [reflexivity | now rewrite IH].
Qed.

Lemma padStart0_length :
  forall n s, (n <= String.length (padStart0 n s))%nat.
Proof.
  intros n s. unfold padStart0. rewrite string_length_append, repeat_char_length. lia.
Qed.

Lemma isoDate_length :
  forall ymd, (10 <= String.length (isoDate ymd))%nat.
Proof.
  intros [[y m] d]. unfold isoDate.
  rewrite !string_length_append.
  pose proof (padStart0_length 4 (Number_toString y)).
  pose proof (padStart0_length 2 (Number_toString m)).
  pose proof (padStart0_length 2 (Number_toString d)).
  simpl String.length. lia.
Qed.

(** The date in an order number is a function of the UTC day of the
    instant it is taken from. *)
Lemma dateStr_of_day :
  forall ms,
    dateStr ms
    = removeDashes (substring 0 10 (isoDate (civilFromDays (ms / msPerDay)))).
Proof.
  intros ms. unfold dateStr, toISOString.
  rewrite substring_prefix_app by apply isoDate_length. reflexivity.
Qed.

(** Where the process is not east of UTC, the date in the number is the
    date on its wall clock. *)
Lemma order_date_west_of_utc :
  forall offset ms,
    - 1440 < offset <= 0 ->
    dateStr (setHoursZero offset ms) = dateStr (ms + offset * msPerMinute).
Proof.
  intros offset ms Hoff.
  rewrite !dateStr_of_day, setHoursZero_day by assumption. reflexivity.
Qed.

(** C9, where the code parts from the claim: on a process six hours east
    of UTC, an order saved on 2 June 2024 at 10:00 (04:00 UTC), the fifth
    of that day, is numbered ORD-20240601-0005: the date in the number is
    the UTC date of the local midnight, the day before today on the wall
    clock and the day before today in UTC.  On the same clock the fallback
    path dates the number 20240602. *)
Theorem C9_order_number_dated_the_day_before :
  orderNumber (preSave Restaurant.dhaka Restaurant.orders false Restaurant.newOrder)
  = Some "ORD-20240601-0005"
  /\ yyyymmdd (localDate (utcOffsetMinutes Restaurant.dhaka)
                         (nowInTry Restaurant.dhaka)) = "20240602"
  /\ dateStr (nowInTry Restaurant.dhaka) = "20240602"
  /\ orderNumber (preSave Restaurant.dhaka Restaurant.orders true Restaurant.newOrder)
     = Some "ORD-20240602-0123".
Proof.
  repeat split; vm_compute; reflexivity.
Qed.

(** The scenario on a process that runs on UTC: the number carries the
    date of today. *)
Example scenario_order_number_on_utc :
  orderNumber (preSave Restaurant.utc Restaurant.orders false Restaurant.newOrder)
  = Some "ORD-20240602-0003"
  /\ orderNumber (preSave Restaurant.utc Restaurant.orders true Restaurant.newOrder)
     = Some "ORD-20240602-0123".
Proof.
  split; vm_compute; reflexivity.
Qed.

End OrderNumbers.

(* ===================================================================== *)
(** ** Further properties of the booking controller: creating *)
(* ===================================================================== *)

Section CreatingBookings.

Import JS Ledger Spec LedgerOps LedgerProps.

Lemma createBooking_rejects_overlap_witness :
  exists o,
    createBooking Scenario.onJune1 Scenario.ledger
      (Scenario.request "101" Scenario.june4 Scenario.june6 None)
    = (Status409 o, Scenario.ledger)
    /\ In o Scenario.ledger.
Proof.
  destruct (createBooking_rejects_overlap Scenario.onJune1 Scenario.ledger
              (Scenario.request "101" Scenario.june4 Scenario.june6 None)
              1 "101" "Deluxe" Scenario.june4 Scenario.june6 Scenario.bookingX)
    as (o & Hresp & Hin & _).
  - reflexivity.
  - discriminate.
  - reflexivity.
  - discriminate.
  - reflexivity.
  - discriminate.
  - reflexivity.
  - reflexivity.
  - left. reflexivity.
  - unfold conflictsWith. simpl. unfold Scenario.june1, Scenario.june4,
      Scenario.june5, Scenario.june6.
    repeat split; try reflexivity; try discriminate; try lia.
  - exists o. split; assumption.
Defined.

Lemma truthy_opt_number_inv :
  forall o, truthy_opt_number o = true -> exists z, o = Some z /\ z <> 0.
Proof.
  intros [z|] H; [|discriminate]. exists z. split; [reflexivity|].
  unfold truthy_opt_number, truthy_number in H.
  apply negb_true_iff, Z.eqb_neq in H. assumption.
Qed.

Lemma truthy_opt_inv :
  forall o, truthy_opt o = true -> exists s, o = Some s /\ s <> "".
Proof.
  intros [s|] H; [|discriminate]. exists s. split; [reflexivity|].
  destruct s; [discriminate | discriminate].
Qed.

(** What a 200 of [createBooking] went through. *)
Lemma createBooking_success_inv :
  forall env store data b store',
    createBooking env store data = (Status200 b, store') ->
    exists hotel room category checkIn checkOut,
      d_hotelID data = Some hotel /\ hotel <> 0
      /\ d_roomNumberID data = Some room /\ room <> ""
      /\ d_roomCategoryID data = Some category /\ category <> ""
      /\ d_checkInDate data = Some checkIn
      /\ d_checkOutDate data = Some checkOut
      /\ checkBookingOverlap store hotel room category checkIn checkOut None
         = None
      /\ Booking_create env store
           (withNumbers data (chooseBookingNo env store data)
                        (generateSerialNo store)) = inl b
      /\ store' = (store ++ [b])%list.
Proof.
  intros env store data b store' H. unfold createBooking in H.
  destruct (truthy_opt_number (d_hotelID data)) eqn:Hh; [|discriminate].
  destruct (truthy_opt (d_roomNumberID data)) eqn:Hr; [|discriminate].
  destruct (truthy_opt (d_roomCategoryID data)) eqn:Hc; [|discriminate].
  simpl in H.
  destruct (d_checkInDate data) as [ci|] eqn:Hi; [|discriminate].
  destruct (d_checkOutDate data) as [co|] eqn:Ho; [|discriminate].
  destruct (truthy_opt_number_inv _ Hh) as (hotel & Eh & Hh0).
  destruct (truthy_opt_inv _ Hr) as (room & Er & Hr0).
  destruct (truthy_opt_inv _ Hc) as (category & Ec & Hc0).
  rewrite Eh, Er, Ec in H. simpl in H.
  destruct (checkBookingOverlap store hotel room category ci co None) eqn:Hov;
    [discriminate|].
  destruct (Booking_create env store _) as [b0|e] eqn:Hcreate; [|discriminate].
  inversion H; subst.
  exists hotel, room, category, ci, co.
  rewrite Eh, Er, Ec. repeat split; try assumption; reflexivity.
Qed.

Lemma createBooking_frame :
  forall env store data resp store',
    createBooking env store data = (resp, store') ->
    (exists b, resp = Status200 b /\ store' = (store ++ [b])%list)
    \/ ((forall b, resp <> Status200 b) /\ store' = store).
Proof.
  intros env store data resp store' H. unfold createBooking in H.
  destruct (negb (truthy_opt_number (d_hotelID data))
            || negb (truthy_opt (d_roomNumberID data))
            || negb (truthy_opt (d_roomCategoryID data)));
    [inversion H; subst; right; split; [intros ?; discriminate | reflexivity]|].
  destruct (d_checkInDate data) as [ci|];
    [|inversion H; subst; right; split; [intros ?; discriminate | reflexivity]].
  destruct (d_checkOutDate data) as [co|];
    [|inversion H; subst; right; split; [intros ?; discriminate | reflexivity]].
  destruct (checkBookingOverlap store _ _ _ ci co None);
    [inversion H; subst; right; split; [intros ?; discriminate | reflexivity]|].
  destruct (Booking_create env store _) as [b0|e]; inversion H; subst.
  - left. exists b0. split; reflexivity.
  - right. split; [intros ?; discriminate | reflexivity].
Qed.

(** X2.  Anything but a 200 leaves the collection as it was, and a 200 appends
    one document to it and changes no other. *)
Theorem createBooking_writes_only_on_success :
  forall env store data resp store',
    createBooking env store data = (resp, store') ->
    (exists b, resp = Status200 b /\ store' = (store ++ [b])%list)
    \/ ((forall b, resp <> Status200 b) /\ store' = store).
Proof.
  intros env store data resp store' H.
  destruct (createBooking_frame env store data resp store' H)
    as [(b & Hb & Hs) | [Hno Hs]].
  - left. exists b. split; assumption.
  - right. split; assumption.
Qed.

Lemma createBooking_writes_only_on_success_witness :
  (forall b,
      fst (createBooking Scenario.onJune1 Scenario.ledger
             (Scenario.request "101" Scenario.june4 Scenario.june6 None))
      <> Status200 b)
  /\ snd (createBooking Scenario.onJune1 Scenario.ledger
            (Scenario.request "101" Scenario.june4 Scenario.june6 None))
     = Scenario.ledger.
Proof.
  destruct (createBooking_writes_only_on_success Scenario.onJune1
              Scenario.ledger
              (Scenario.request "101" Scenario.june4 Scenario.june6 None)
              _ _ (surjective_pairing _)) as [(b & Hb & _) | [Hno Hsame]].
  - vm_compute in Hb. discriminate.
  - split; assumption.
Defined.

Lemma Booking_create_inv :
  forall env store doc b,
    Booking_create env store doc = inl b ->
    validateDocument doc = true
    /\ existsb (hasBookingNo (orEmpty (d_bookingNo doc))) store = false
    /\ _id b = newObjectId env
    /\ createdAt b = now env
    /\ fullName b = Str (orEmpty (d_fullName doc))
    /\ bookingNo b = Str (orEmpty (d_bookingNo doc))
    /\ hotelID b = orZero (d_hotelID doc)
    /\ roomNumberID b = orEmpty (d_roomNumberID doc)
    /\ roomCategoryID b = orEmpty (d_roomCategoryID doc)
    /\ checkInDate b = orZero (d_checkInDate doc)
    /\ checkOutDate b = orZero (d_checkOutDate doc)
    /\ totalBill b = orZero (d_totalBill doc)
    /\ advancePayment b = orZero (d_advancePayment doc)
    /\ serialNo b = orZero (d_serialNo doc)
    /\ statusID b = match d_statusID doc with Some s => s | None => 1 end.
Proof.
  intros env store doc b H. unfold Booking_create in H.
  destruct (validateDocument doc); [|discriminate]. simpl in H.
  destruct (existsb _ store); [discriminate|].
  destruct (match d_serialNo doc with
            | Some n => existsb (fun b0 => serialNo b0 =? n) store
            | None => false
            end); [discriminate|].
  destruct (existsb _ store); [discriminate|].
  inversion H; subst. simpl. repeat split.
Qed.

(** X3.  Every booking [createBooking] persists has a check-out after its
    check-in, an advance between zero and the bill, a due payment that is
    the bill minus the advance whatever due payment the request carried, a
    status of the enumeration (1 when the request gives none), a guest
    name and a booking number that are not empty, room keys that are
    present, and the serial number the generator gave. *)
Theorem createBooking_persists_a_valid_booking :
  forall env store data b store',
    createBooking env store data = (Status200 b, store') ->
    checkInDate b < checkOutDate b
    /\ 0 <= advancePayment b <= totalBill b
    /\ duePayment b = totalBill b - advancePayment b
    /\ statusEnum (statusID b) = true
    /\ (d_statusID data = None -> statusID b = 1)
    /\ presentNonEmpty (fullName b)
    /\ presentNonEmpty (bookingNo b)
    /\ keysPresent b
    /\ serialNo b = generateSerialNo store.
Proof.
  intros env store data b store' H.
  pose proof (createBooking_duePayment env store data b store' H) as [_ Hdue].
  destruct (createBooking_success_inv env store data b store' H)
    as (hotel & room & category & ci & co & Eh & Hh0 & Er & Hr0 & Ec & Hc0
        & Ei & Eo & _ & Hcreate & _).
  destruct (Booking_create_inv _ _ _ _ Hcreate)
    as (Hvalid & _ & Hid & Hat & Hname & Hno & Hhotel & Hroom & Hcat & Hin
        & Hout & Hbill & Hadv & Hserial & Hstatus).
  simpl in Hname, Hno, Hhotel, Hroom, Hcat, Hin, Hout, Hbill, Hadv, Hserial,
    Hstatus.
  rewrite Eh in Hhotel. rewrite Er in Hroom. rewrite Ec in Hcat.
  rewrite Ei in Hin. rewrite Eo in Hout. simpl in Hhotel, Hroom, Hcat, Hin, Hout.
  unfold validateDocument in Hvalid. simpl in Hvalid.
  rewrite Ei, Eo in Hvalid.
  repeat (apply andb_true_iff in Hvalid; destruct Hvalid as [Hvalid ?]).
  destruct (d_totalBill data) as [t|]; [|discriminate].
  destruct (d_advancePayment data) as [a|]; [|discriminate].
  simpl in Hbill, Hadv.
  match goal with
  | Hm : (0 <=? t) && (0 <=? a) && (a <=? t) = true |- _ =>
      apply andb_true_iff in Hm; destruct Hm as [Hm Hat'];
      apply andb_true_iff in Hm; destruct Hm as [Ht0 Ha0];
      apply Z.leb_le in Hat'; apply Z.leb_le in Ht0; apply Z.leb_le in Ha0
  end.
  match goal with
  | Hd : (ci <? co) = true |- _ => apply Z.ltb_lt in Hd
  end.
  assert (Hfn : presentNonEmpty (fullName b)).
  { rewrite Hname. unfold requiredString in Hvalid.
    destruct (truthy_opt_inv _ Hvalid) as (s & Es & Hs).
    rewrite Es. exists s. split; [reflexivity | assumption]. }
  assert (Hbn : presentNonEmpty (bookingNo b)).
  { rewrite Hno.
    eexists. split; [reflexivity|].
    match goal with
    | Hq : truthy_string (chooseBookingNo env store data) = true |- _ =>
        intro E; rewrite E in Hq; discriminate
    end. }
  split; [lia|]. split; [lia|]. split; [lia|].
  split.
  { rewrite Hstatus. destruct (d_statusID data); [assumption | reflexivity]. }
  split.
  { intros Hn. rewrite Hstatus, Hn. reflexivity. }
  split; [exact Hfn|]. split; [exact Hbn|].
  split.
  { unfold keysPresent. rewrite Hhotel, Hroom, Hcat. repeat split; assumption. }
  exact Hserial.
Qed.

End CreatingBookings.

Section LedgerInvariants.

Import JS Ledger Spec LedgerOps LedgerProps.

Lemma createBooking_persists_a_valid_booking_witness :
  exists b,
    fst (createBooking Scenario.onJune1 Scenario.ledger
           (Scenario.request "101" Scenario.june5 Scenario.june7 None))
    = Status200 b
    /\ duePayment b = totalBill b - advancePayment b
    /\ statusID b = 1
    /\ serialNo b = 2.
Proof.
  eexists.
  assert (Hrun :
            createBooking Scenario.onJune1 Scenario.ledger
              (Scenario.request "101" Scenario.june5 Scenario.june7 None)
            = (Status200 _, _)) by (vm_compute; reflexivity).
  destruct (createBooking_persists_a_valid_booking _ _ _ _ _ Hrun)
    as (_ & _ & Hdue & _ & Hst & _ & _ & _ & Hserial).
  rewrite Hrun. split; [reflexivity|]. split; [exact Hdue|].
  split; [apply Hst; reflexivity | exact Hserial].
Defined.

Lemma not_filtered_not_conflicting :
  forall store hotel room category checkIn checkOut excluded x,
    excluded <> Some "" ->
    checkBookingOverlap store hotel room category checkIn checkOut excluded
    = None ->
    In x store ->
    ~ conflictsWith hotel room category checkIn checkOut excluded x.
Proof.
  intros store hotel room category checkIn checkOut excluded x Hex Hnone Hin Hc.
  apply (overlapFilter_spec _ _ _ _ _ _ _ Hex) in Hc.
  unfold checkBookingOverlap in Hnone.
  rewrite (find_none _ _ Hnone x Hin) in Hc. discriminate.
Qed.

(** X4.  [createBooking] keeps rooms from being booked twice: if no two
    different stored bookings that are not cancelled hold the same room
    for stays that meet, the same is true of the collection the handler
    leaves, whatever it answers. *)
Theorem createBooking_keeps_rooms_single_booked :
  forall env store data resp store',
    noDoubleBooking store ->
    createBooking env store data = (resp, store') ->
    noDoubleBooking store'.
Proof.
  intros env store data resp store' Hinv H.
  destruct (createBooking_frame _ _ _ _ _ H)
    as [(b & Hresp & Hstore) | [_ Hsame]]; [|subst; assumption].
  subst resp.
  destruct (createBooking_success_inv _ _ _ _ _ H)
    as (hotel & room & category & ci & co & Eh & _ & Er & _ & Ec & _
        & Ei & Eo & Hfree & Hcreate & _).
  destruct (Booking_create_inv _ _ _ _ Hcreate)
    as (_ & _ & _ & _ & _ & _ & Hhotel & Hroom & Hcat & Hin & Hout & _).
  simpl in Hhotel, Hroom, Hcat, Hin, Hout.
  rewrite Eh in Hhotel. rewrite Er in Hroom. rewrite Ec in Hcat.
  rewrite Ei in Hin. rewrite Eo in Hout. simpl in Hhotel, Hroom, Hcat, Hin, Hout.
  assert (Hnone : (None : option string) <> Some "") by discriminate.
  assert (Hclear : forall x, In x store -> statusID x <> 255 ->
                     sameRoom x b -> ~ staysOverlap x b).
  { intros x Hx Hact (S1 & S2 & S3) (O1 & O2).
    apply (not_filtered_not_conflicting _ _ _ _ _ _ _ x Hnone Hfree Hx).
    unfold conflictsWith.
    rewrite Hhotel in S1. rewrite Hroom in S2. rewrite Hcat in S3.
    rewrite Hout in O1. rewrite Hin in O2.
    repeat split; try assumption; try lia.
    intros e He; discriminate. }
  subst store'. intros x y Hx Hy Hid Hax Hay Hsame Hover.
  apply in_app_or in Hx. apply in_app_or in Hy.
  destruct Hx as [Hx | [Hx | []]]; destruct Hy as [Hy | [Hy | []]].
  - exact (Hinv x y Hx Hy Hid Hax Hay Hsame Hover).
  - subst y. exact (Hclear x Hx Hax Hsame Hover).
  - subst x. destruct Hsame as (S1 & S2 & S3). destruct Hover as (O1 & O2).
    apply (Hclear y Hy Hay); [repeat split; congruence | split; assumption].
  - subst x y. apply Hid. reflexivity.
Qed.

Lemma createBooking_keeps_rooms_single_booked_witness :
  noDoubleBooking Scenario.ledger
  /\ noDoubleBooking
       (snd (createBooking Scenario.onJune1 Scenario.ledger
               (Scenario.request "101" Scenario.june5 Scenario.june7 None))).
Proof.
  assert (Hinv : noDoubleBooking Scenario.ledger).
  { intros a b [Ha | []] [Hb | []] Hid. subst a b. exfalso. apply Hid.
    reflexivity. }
  split; [exact Hinv|].
  exact (createBooking_keeps_rooms_single_booked _ _ _ _ _ Hinv
           (surjective_pairing _)).
Defined.

Lemma startsWith_append :
  forall p s, startsWith p (p ++ s) = true.
Proof.
  unfold startsWith. induction p as [|c p IH]; intros s; simpl.
  - destruct s; reflexivity.
  - destruct (ascii_dec c c) as [_ | Hne]; [apply IH | congruence].
Qed.

Lemma substring_full :
  forall s, substring 0 (String.length s) s = s.
Proof.
  induction s as [|c s IH]; simpl; [reflexivity | now rewrite IH].
Qed.

Lemma substring_skip_append :
  forall p n s, substring (String.length p) n (p ++ s) = substring 0 n s.
Proof.
  induction p as [|c p IH]; intros n s; simpl; [reflexivity | apply IH].
Qed.

Lemma slice_last_append :
  forall p s n, String.length s = n -> slice_last n (p ++ s) = s.
Proof.
  intros p s n Hn. unfold slice_last.
  rewrite string_length_append, Hn.
  replace (String.length p + n - n)%nat with (String.length p) by lia.
  rewrite substring_skip_append, <- Hn. apply substring_full.
Qed.

Lemma parse_serial :
  forall m, 0 <= m < 99 ->
    parseInt (padStart0 2 (Number_toString (m + 1))) = Some (m + 1).
Proof.
  intros m Hm.
  pose proof (forall_range
                (fun z =>
                   match parseInt (padStart0 2 (Number_toString (z + 1))) with
                   | Some v => v =? z + 1
                   | None => false
                   end) 0 99) as Hb.
  specialize (Hb ltac:(vm_compute; reflexivity) m ltac:(lia)).
  cbv beta in Hb.
  destruct (parseInt (padStart0 2 (Number_toString (m + 1)))) as [v|];
    [|discriminate].
  apply Z.eqb_eq in Hb. subst v. reflexivity.
Qed.

(** X5.  While fewer than 99 numbers of the day are taken, the number the
    generator returns is held by no stored booking. *)
Theorem generateBookingNo_is_unused :
  forall d store,
    maximumOr0 (trailingNumbers (datePrefix d) store) < 99 ->
    existsb (hasBookingNo (generateBookingNo d store)) store = false.
Proof.
  intros d store Hlt.
  set (m := maximumOr0 (trailingNumbers (datePrefix d) store)) in *.
  assert (Hm : 0 <= m) by apply maximumOr0_nonneg.
  destruct (existsb (hasBookingNo (generateBookingNo d store)) store) eqn:Hex;
    [|reflexivity].
  exfalso. apply existsb_exists in Hex. destruct Hex as (b & Hin & Hb).
  unfold hasBookingNo in Hb.
  destruct (bookingNo b) as [| |s] eqn:Hs; try discriminate.
  apply String.eqb_eq in Hb.
  assert (Hgen : generateBookingNo d store
                 = datePrefix d ++ padStart0 2 (Number_toString (m + 1))).
  { unfold generateBookingNo. rewrite maxSerialOfDay_refines. reflexivity. }
  assert (Hmem : In (m + 1) (trailingNumbers (datePrefix d) store)).
  { unfold trailingNumbers. apply in_flat_map. exists b. split; [assumption|].
    rewrite Hs, Hb, Hgen, startsWith_append.
    rewrite (slice_last_append _ _ 2 (serial_two_digits m (conj Hm Hlt))).
    rewrite (parse_serial m (conj Hm Hlt)). left. reflexivity. }
  apply maximumOr0_ge in Hmem. fold m in Hmem. lia.
Qed.

Lemma generateBookingNo_is_unused_witness :
  existsb (hasBookingNo (generateBookingNo (today Scenario.onJune1) Scenario.ledger))
          Scenario.ledger = false.
Proof.
  apply generateBookingNo_is_unused. vm_compute. reflexivity.
Defined.

Lemma String_leb_refl : forall s, String.leb s s = true.
Proof.
  intros s. destruct (String.leb_total s s); assumption.
Qed.

Lemma String_ltb_leb :
  forall a b, String.ltb a b = true -> String.leb a b = true.
Proof.
  intros a b. unfold String.ltb, String.leb.
  destruct (String.compare a b); [discriminate | reflexivity | discriminate].
Qed.

Lemma String_ltb_not_leb :
  forall a b, String.ltb a b = true -> String.leb b a = false.
Proof.
  intros a b. unfold String.ltb, String.leb.
  rewrite (String.compare_antisym a b).
  destruct (String.compare b a); simpl; [discriminate | discriminate | reflexivity].
Qed.

Lemma String_not_ltb_leb :
  forall a b, String.ltb a b = false -> String.leb b a = true.
Proof.
  intros a b. unfold String.ltb, String.leb.
  rewrite (String.compare_antisym a b).
  destruct (String.compare b a); simpl; [reflexivity | reflexivity | discriminate].
Qed.

Lemma String_leb_trans :
  forall a b c,
    String.leb a b = true -> String.leb b c = true -> String.leb a c = true.
Proof.
  intros a b c. unfold String.leb.
  destruct (String.compare a b) eqn:Hab; [| |discriminate]; intros _.
  - apply String.compare_eq_iff in Hab. subst b. tauto.
  - destruct (String.compare b c) eqn:Hbc; [| |discriminate]; intros _.
    + apply String.compare_eq_iff in Hbc. subst c. rewrite Hab. reflexivity.
    + pose proof (@RelationClasses.StrictOrder_Transitive _ _
                    String_as_OT.lt_strorder a b c Hab Hbc) as Hac.
      change (String.compare a c = Lt) in Hac. rewrite Hac. reflexivity.
Qed.

(** The document [lastById] settles on is a stored one, and no stored
    document has a larger [_id]. *)
Lemma fold_largerId_max :
  forall rest b,
    let last := fold_left largerId rest b in
    In last (b :: rest)
    /\ forall x, In x (b :: rest) -> String.leb (_id x) (_id last) = true.
Proof.
  induction rest as [|y rest IH]; intros b; simpl.
  - split; [left; reflexivity|].
    intros x [Hx | []]. subst x. apply String_leb_refl.
  - destruct (IH (largerId b y)) as [Hin Hmax]. simpl in Hin, Hmax.
    assert (Hb : String.leb (_id b) (_id (largerId b y)) = true).
    { unfold largerId. destruct (String.ltb (_id b) (_id y)) eqn:Hlt.
      - apply String_ltb_leb; assumption.
      - apply String_leb_refl. }
    assert (Hy : String.leb (_id y) (_id (largerId b y)) = true).
    { unfold largerId. destruct (String.ltb (_id b) (_id y)) eqn:Hlt.
      - apply String_leb_refl.
      - apply String_not_ltb_leb; assumption. }
    split.
    + destruct Hin as [Hin | Hin]; [|right; right; exact Hin].
      rewrite <- Hin. unfold largerId.
      destruct (String.ltb (_id b) (_id y));
        [right; left; reflexivity | left; reflexivity].
    + intros x [Hx | [Hx | Hx]].
      * subst x. apply (String_leb_trans _ _ _ Hb).
        apply Hmax. left. reflexivity.
      * subst x. apply (String_leb_trans _ _ _ Hy).
        apply Hmax. left. reflexivity.
      * apply Hmax. right. exact Hx.
Qed.

Lemma generateSerialNo_above :
  forall store x,
    serialsFollowIds store -> In x store ->
    serialNo x < generateSerialNo store.
Proof.
  intros store x Hfollow Hx. unfold generateSerialNo, lastById.
  destruct store as [|b rest]; [contradiction|].
  destruct (fold_largerId_max rest b) as [Hin Hmax].
  specialize (Hfollow x _ Hx Hin (Hmax x Hx)). lia.
Qed.

(** X6.  Where the serial numbers of the stored bookings follow the order
    of their [_id] (a booking with the larger [_id] never has the smaller
    serial number), the serial the generator returns, one more than that
    of the booking with the largest [_id], is above every stored one, so
    the unique index on [serialNo] cannot refuse it; and when the [_id] of
    the booking a 200 answers with is above every stored [_id], the serial
    numbers of the collection [createBooking] leaves follow the order of
    [_id] again. *)
Theorem createBooking_keeps_serials_ascending :
  forall env store data resp store',
    serialsFollowIds store ->
    createBooking env store data = (resp, store') ->
    (forall x, In x store -> serialNo x < generateSerialNo store)
    /\ existsb (fun b => serialNo b =? generateSerialNo store) store = false
    /\ ((forall b,
            resp = Status200 b ->
            forall x, In x store -> String.ltb (_id x) (_id b) = true) ->
        serialsFollowIds store').
Proof.
  intros env store data resp store' Hfollow H.
  assert (Habove : forall x, In x store -> serialNo x < generateSerialNo store)
    by (intros x Hx; apply generateSerialNo_above; assumption).
  split; [exact Habove|]. split.
  - destruct (existsb (fun b => serialNo b =? generateSerialNo store) store)
      eqn:Hex; [|reflexivity].
    apply existsb_exists in Hex. destruct Hex as (x & Hx & Heq).
    apply Z.eqb_eq in Heq. specialize (Habove x Hx). lia.
  - intros Hnew.
    destruct (createBooking_frame _ _ _ _ _ H)
      as [(b & Hresp & Hstore) | [_ Hsame]]; [|subst; assumption].
    subst resp store'.
    destruct (createBooking_success_inv _ _ _ _ _ H)
      as (hotel & room & category & ci & co & _ & _ & _ & _ & _ & _
          & _ & _ & _ & Hcreate & _).
    destruct (Booking_create_inv _ _ _ _ Hcreate)
      as (_ & _ & _ & _ & _ & _ & _ & _ & _ & _ & _ & _ & _ & Hserial & _).
    simpl in Hserial. specialize (Hnew b eq_refl).
    intros x y Hx Hy Hle.
    apply in_app_or in Hx. apply in_app_or in Hy.
    destruct Hx as [Hx | [Hx | []]]; destruct Hy as [Hy | [Hy | []]].
    + apply Hfollow; assumption.
    + subst y. rewrite Hserial. specialize (Habove x Hx). lia.
    + subst x.
      rewrite (String_ltb_not_leb _ _ (Hnew y Hy)) in Hle. discriminate.
    + subst x y. lia.
Qed.

End LedgerInvariants.

Section UpdatingBookings.

Import JS Ledger Spec LedgerOps LedgerProps.

Variable validators : BookingData -> bool.

Lemma touchesStay_bool :
  forall data,
    (truthy_opt_number (d_checkInDate data)
     || truthy_opt_number (d_checkOutDate data)
     || (truthy_opt_number (d_hotelID data)
         || truthy_opt (d_roomNumberID data)
         || truthy_opt (d_roomCategoryID data))) = true
    <-> touchesStay data.
Proof.
  intros data. unfold touchesStay.
  rewrite !orb_true_iff. tauto.
Qed.

(** The paths of [updateBooking], read off its answer. *)
Lemma updateBooking_inv :
  forall store id data resp store',
    updateBooking validators store id data = (resp, store') ->
    match findById store id with
    | None => resp = Status404 BookingNotFound /\ store' = store
    | Some old =>
        let hotel :=
          if truthy_opt_number (d_hotelID data)
          then orZero (d_hotelID data) else hotelID old in
        let room :=
          if truthy_opt (d_roomNumberID data)
          then orEmpty (d_roomNumberID data) else roomNumberID old in
        let category :=
          if truthy_opt (d_roomCategoryID data)
          then orEmpty (d_roomCategoryID data) else roomCategoryID old in
        let checkIn :=
          if truthy_opt_number (d_checkInDate data)
          then orZero (d_checkInDate data) else checkInDate old in
        let checkOut :=
          if truthy_opt_number (d_checkOutDate data)
          then orZero (d_checkOutDate data) else checkOutDate old in
        let found :=
          checkBookingOverlap store hotel room category checkIn checkOut
                              (Some id) in
        (exists o,
            touchesStay data /\ found = Some o
            /\ resp = Status409 o /\ store' = store)
        \/ ((touchesStay data -> found = None)
            /\ ((exists e, resp = Status400 e /\ store' = store)
                \/ (resp = Status200 (applyUpdate old data)
                    /\ store' = updateFirst id data store)))
    end.
Proof.
  intros store id data resp store' H. unfold updateBooking in H.
  destruct (findById store id) as [old|] eqn:Hold;
    [|inversion H; split; reflexivity].
  cbv zeta in *.
  destruct (truthy_opt_number (d_checkInDate data)
            || truthy_opt_number (d_checkOutDate data)
            || (truthy_opt_number (d_hotelID data)
                || truthy_opt (d_roomNumberID data)
                || truthy_opt (d_roomCategoryID data))) eqn:Hcheck.
  - apply touchesStay_bool in Hcheck.
    match type of H with
    | context [checkBookingOverlap ?s ?h ?r ?c ?i ?o ?e] =>
        destruct (checkBookingOverlap s h r c i o e) as [ov|] eqn:Hov
    end.
    + left. exists ov. inversion H; subst. repeat split; assumption.
    + right. split; [intros _; reflexivity|].
      unfold findByIdAndUpdate in H. rewrite Hold in H.
      destruct (negb (validators data));
        [left; eexists; inversion H; split; reflexivity|].
      destruct (breaksUniqueIndex store id data);
        [left; eexists; inversion H; split; reflexivity|].
      right. inversion H; split; reflexivity.
  - right. split.
    + intros Ht. apply touchesStay_bool in Ht. congruence.
    + unfold findByIdAndUpdate in H. rewrite Hold in H.
      destruct (negb (validators data));
        [left; eexists; inversion H; split; reflexivity|].
      destruct (breaksUniqueIndex store id data);
        [left; eexists; inversion H; split; reflexivity|].
      right. inversion H; split; reflexivity.
Qed.


Lemma updateFirst_findById_other :
  forall id data store j,
    j <> id ->
    findById (updateFirst id data store) j = findById store j.
Proof.
  intros id data store j Hj. unfold findById.
  induction store as [|b rest IH]; simpl.
  - reflexivity.
  - destruct (String.eqb (_id b) id) eqn:Hb; simpl.
    + apply String.eqb_eq in Hb.
      assert (Hne : String.eqb (_id b) j = false)
        by (apply String.eqb_neq; congruence).
      rewrite Hne. reflexivity.
    + destruct (String.eqb (_id b) j); [reflexivity | assumption].
Qed.

(** X8.  [updateBooking] changes at most the document it is asked to change.
    Any answer but 200 leaves the collection as it was; a 200 leaves the
    same number of documents, stores the answered document under the same
    [_id] with its creation time unchanged, and leaves what every other
    [_id] looks up untouched. *)
Theorem updateBooking_changes_one_document :
  forall store id data resp store',
    updateBooking validators store id data = (resp, store') ->
    ((forall b, resp <> Status200 b) /\ store' = store)
    \/ (exists old b,
           findById store id = Some old
           /\ resp = Status200 b
           /\ List.length store' = List.length store
           /\ findById store' id = Some b
           /\ _id b = _id old
           /\ createdAt b = createdAt old
           /\ forall j, j <> id -> findById store' j = findById store j).
Proof.
  intros store id data resp store' H.
  apply updateBooking_inv in H.
  destruct (findById store id) as [old|] eqn:Hold.
  - cbv zeta in H.
    destruct H as [(o & _ & _ & Hresp & Hstore)
                  | (_ & [(e & Hresp & Hstore) | (Hresp & Hstore)])].
    + left. subst. split; [intros ?; discriminate | reflexivity].
    + left. subst. split; [intros ?; discriminate | reflexivity].
    + right. exists old, (applyUpdate old data). subst.
      split; [reflexivity|]. split; [reflexivity|].
      split; [apply updateFirst_length|].
      split; [apply updateFirst_findById; assumption|].
      split; [reflexivity|]. split; [reflexivity|].
      intros j Hj. apply updateFirst_findById_other; assumption.
  - destruct H as [Hresp Hstore]. left. subst.
    split; [intros ?; discriminate | reflexivity].
Qed.

Lemma In_updateFirst :
  forall id data store y,
    uniqueIds store ->
    In y (updateFirst id data store) ->
    (In y store /\ _id y <> id)
    \/ (exists old, findById store id = Some old /\ y = applyUpdate old data).
Proof.
  intros id data store y. unfold uniqueIds, findById.
  induction store as [|b rest IH]; simpl; intros Hnd Hy.
  - contradiction.
  - inversion Hnd as [|x l Hnotin Hnd']; subst.
    destruct (String.eqb (_id b) id) eqn:Hb.
    + apply String.eqb_eq in Hb. destruct Hy as [Hy | Hy].
      * right. exists b. split; [reflexivity | congruence].
      * left. split; [right; assumption|].
        intro Hc. apply Hnotin. rewrite Hb, <- Hc. apply in_map. assumption.
    + apply String.eqb_neq in Hb. destruct Hy as [Hy | Hy].
      * left. subst y. split; [left; reflexivity | assumption].
      * destruct (IH Hnd' Hy) as [[Hin Hne] | Hex].
        -- left. split; [right; assumption | assumption].
        -- right. assumption.
Qed.


(** X9.  Where [_id] is a key, [updateBooking] keeps rooms from being booked
    twice on every request that carries a truthy date or room key and no
    date or room key that is present and falsy (no hotel number or date
    given as zero, no empty room or category identifier): the conflict
    check then runs, and on the very values that are written. *)
Theorem updateBooking_keeps_rooms_single_booked :
  forall store id data resp store',
    uniqueIds store ->
    id <> "" ->
    noDoubleBooking store ->
    touchesStay data ->
    noFalsyKey data ->
    updateBooking validators store id data = (resp, store') ->
    noDoubleBooking store'.
Proof.
  intros store id data resp store' Huniq Hid Hinv Htouch
         (K1 & K2 & K3 & K4 & K5) H.
  apply updateBooking_inv in H.
  destruct (findById store id) as [old|] eqn:Hold;
    [|destruct H as [_ Hs]; subst; assumption].
  cbv zeta in H.
  destruct H as [(o & _ & _ & _ & Hstore)
                | (Hfree & [(e & _ & Hstore) | (_ & Hstore)])];
    try (subst; assumption).
  specialize (Hfree Htouch).
  set (b' := applyUpdate old data) in *.
  assert (Eh : (if truthy_opt_number (d_hotelID data)
                then orZero (d_hotelID data) else hotelID old) = hotelID b').
  { unfold b'. simpl. destruct (d_hotelID data) as [z|]; simpl; [|reflexivity].
    unfold truthy_number. destruct (z =? 0) eqn:Hz; simpl; [|reflexivity].
    apply Z.eqb_eq in Hz. subst z. congruence. }
  assert (Er : (if truthy_opt (d_roomNumberID data)
                then orEmpty (d_roomNumberID data) else roomNumberID old)
               = roomNumberID b').
  { unfold b'. simpl. destruct (d_roomNumberID data) as [[|c s]|]; simpl;
      [congruence | reflexivity | reflexivity]. }
  assert (Ec : (if truthy_opt (d_roomCategoryID data)
                then orEmpty (d_roomCategoryID data) else roomCategoryID old)
               = roomCategoryID b').
  { unfold b'. simpl. destruct (d_roomCategoryID data) as [[|c s]|]; simpl;
      [congruence | reflexivity | reflexivity]. }
  assert (Ei : (if truthy_opt_number (d_checkInDate data)
                then orZero (d_checkInDate data) else checkInDate old)
               = checkInDate b').
  { unfold b'. simpl. destruct (d_checkInDate data) as [z|]; simpl;
      [|reflexivity].
    unfold truthy_number. destruct (z =? 0) eqn:Hz; simpl; [|reflexivity].
    apply Z.eqb_eq in Hz. subst z. congruence. }
  assert (Eo : (if truthy_opt_number (d_checkOutDate data)
                then orZero (d_checkOutDate data) else checkOutDate old)
               = checkOutDate b').
  { unfold b'. simpl. destruct (d_checkOutDate data) as [z|]; simpl;
      [|reflexivity].
    unfold truthy_number. destruct (z =? 0) eqn:Hz; simpl; [|reflexivity].
    apply Z.eqb_eq in Hz. subst z. congruence. }
  rewrite Eh, Er, Ec, Ei, Eo in Hfree.
  assert (Hsome : Some id <> Some "") by (intro E; inversion E; contradiction).
  assert (Hclear : forall x, In x store -> _id x <> id -> statusID x <> 255 ->
                     sameRoom x b' -> ~ staysOverlap x b').
  { intros x Hx Hne Hact (S1 & S2 & S3) (O1 & O2).
    apply (not_filtered_not_conflicting _ _ _ _ _ _ _ x Hsome Hfree Hx).
    unfold conflictsWith. repeat split; try assumption; try lia.
    intros e He. inversion He; subst e. assumption. }
  subst store'. intros x y Hx Hy Hxy Hax Hay Hsame Hover.
  apply (In_updateFirst _ _ _ _ Huniq) in Hx.
  apply (In_updateFirst _ _ _ _ Huniq) in Hy.
  destruct Hx as [[Hx Hxid] | (ox & Hox & Ex)];
    destruct Hy as [[Hy Hyid] | (oy & Hoy & Ey)].
  - exact (Hinv x y Hx Hy Hxy Hax Hay Hsame Hover).
  - rewrite Hold in Hoy. inversion Hoy; subst oy. subst y.
    exact (Hclear x Hx Hxid Hax Hsame Hover).
  - rewrite Hold in Hox. inversion Hox; subst ox. subst x.
    destruct Hsame as (S1 & S2 & S3). destruct Hover as (O1 & O2).
    apply (Hclear y Hy Hyid Hay);
      [ unfold sameRoom, b'; repeat split; symmetry; assumption
      | unfold staysOverlap, b'; split; assumption ].
  - rewrite Hold in Hox, Hoy. inversion Hox; inversion Hoy; subst.
    apply Hxy. reflexivity.
Qed.


End UpdatingBookings.

Section LedgerScenarios.

Import JS Ledger Spec LedgerOps LedgerProps.

Lemma createBooking_keeps_serials_ascending_witness :
  serialsFollowIds Scenario.ledger
  /\ generateSerialNo Scenario.ledger = 2
  /\ existsb (fun b => serialNo b =? 2) Scenario.ledger = false
  /\ serialsFollowIds
       (snd (createBooking Scenario.onJune1 Scenario.ledger
               (Scenario.request "102" Scenario.june1 Scenario.june5 None))).
Proof.
  assert (Hfollow : serialsFollowIds Scenario.ledger).
  { intros a b [Ha | []] [Hb | []] _. subst a b. lia. }
  destruct (createBooking_keeps_serials_ascending Scenario.onJune1
              Scenario.ledger
              (Scenario.request "102" Scenario.june1 Scenario.june5 None)
              _ _ Hfollow (surjective_pairing _)) as (_ & Hfree & Hnext).
  split; [exact Hfollow|]. split; [reflexivity|]. split; [exact Hfree|].
  apply Hnext. intros b Hb x [Hx | []]. subst x.
  vm_compute in Hb. injection Hb as Hb. subst b. reflexivity.
Defined.


Lemma updateBooking_changes_one_document_witness :
  exists b,
    fst (updateBooking Stays.schemaValidators Stays.twoStays (_id Stays.bookingZ)
           (Stays.arriveOn Scenario.june6)) = Status200 b
    /\ findById
         (snd (updateBooking Stays.schemaValidators Stays.twoStays (_id Stays.bookingZ)
                 (Stays.arriveOn Scenario.june6)))
         (_id Scenario.bookingX) = Some Scenario.bookingX.
Proof.
  destruct (updateBooking_changes_one_document Stays.schemaValidators Stays.twoStays
              (_id Stays.bookingZ)
              (Stays.arriveOn Scenario.june6) _ _
              (surjective_pairing _))
    as [[Hno _] | (old & b & _ & Hresp & _ & _ & _ & _ & Hother)].
  - exfalso. eapply Hno. vm_compute. reflexivity.
  - exists b. split; [exact Hresp|].
    rewrite Hother by discriminate. reflexivity.
Defined.

Lemma uniqueIds_twoStays : uniqueIds Stays.twoStays.
Proof.
  unfold uniqueIds. simpl.
  constructor; [intros [H | []]; discriminate|].
  constructor; [intros [] | constructor].
Qed.

Lemma noDoubleBooking_twoStays : noDoubleBooking Stays.twoStays.
Proof.
  intros a b Ha Hb Hid _ _ _ [O1 O2].
  simpl in Ha, Hb.
  destruct Ha as [Ha | [Ha | []]]; destruct Hb as [Hb | [Hb | []]];
    subst a b; try (apply Hid; reflexivity);
    vm_compute in O1, O2; congruence.
Qed.

Lemma updateBooking_keeps_rooms_single_booked_witness :
  noDoubleBooking
    (snd (updateBooking Stays.schemaValidators Stays.twoStays (_id Stays.bookingZ)
            (Stays.arriveOn Scenario.june6))).
Proof.
  apply (updateBooking_keeps_rooms_single_booked Stays.schemaValidators
           Stays.twoStays (_id Stays.bookingZ)
           (Stays.arriveOn Scenario.june6)
           (fst (updateBooking Stays.schemaValidators Stays.twoStays
                   (_id Stays.bookingZ)
                   (Stays.arriveOn Scenario.june6)))).
  - exact uniqueIds_twoStays.
  - discriminate.
  - exact noDoubleBooking_twoStays.
  - left. reflexivity.
  - repeat split; discriminate.
  - apply surjective_pairing.
Defined.



End LedgerScenarios.

Section CancellingAndReading.

Import JS Ledger Spec LedgerOps LedgerProps.









Lemma findById_snoc :
  forall store b j,
    findById (store ++ [b])%list j
    = match findById store j with
      | Some x => Some x
      | None => if String.eqb (_id b) j then Some b else None
      end.
Proof.
  intros store b j. unfold findById.
  induction store as [|x rest IH]; simpl.
  - destruct (String.eqb (_id b) j); reflexivity.
  - destruct (String.eqb (_id x) j); [reflexivity | assumption].
Qed.

(** X13.  Create, then read.  When the identifier of the new document is not in
    use, the booking a 200 of [createBooking] answers with is what
    [getBookingById] returns for its [_id] afterwards, and every booking
    that could be read before reads the same. *)
Theorem createBooking_then_getBookingById :
  forall env store data b store',
    findById store (newObjectId env) = None ->
    createBooking env store data = (Status200 b, store') ->
    getBookingById store' (_id b) = Status200 b
    /\ forall j x,
         getBookingById store j = Status200 x ->
         getBookingById store' j = Status200 x.
Proof.
  intros env store data b store' Hfresh H.
  destruct (createBooking_success_inv _ _ _ _ _ H)
    as (hotel & room & category & ci & co & _ & _ & _ & _ & _ & _
        & _ & _ & _ & Hcreate & Hstore).
  destruct (Booking_create_inv _ _ _ _ Hcreate) as (_ & _ & Hid & _).
  subst store'. unfold getBookingById. split.
  - rewrite findById_snoc, Hid, Hfresh, <- Hid, String.eqb_refl. reflexivity.
  - intros j x Hj. rewrite findById_snoc.
    destruct (findById store j) as [y|]; [assumption | discriminate].
Qed.

Lemma newestFirst_insert :
  forall b sorted,
    newestFirst sorted -> newestFirst (insertByCreatedAtDesc b sorted).
Proof.
  intros b sorted. induction sorted as [|x rest IH]; simpl; intros Hs.
  - split; [intros y [] | exact I].
  - destruct Hs as [Hx Hrest].
    destruct (createdAt x <? createdAt b) eqn:Hlt.
    + apply Z.ltb_lt in Hlt. simpl. split.
      * intros y [Hy | Hy]; [subst; lia|]. specialize (Hx y Hy). lia.
      * split; assumption.
    + apply Z.ltb_ge in Hlt. simpl. split.
      * intros y Hy. apply In_insertByCreatedAtDesc in Hy.
        destruct Hy as [Hy | Hy]; [subst; lia | apply Hx; assumption].
      * apply IH. assumption.
Qed.

Lemma newestFirst_sort :
  forall l, newestFirst (sortByCreatedAtDesc l).
Proof.
  intros l. unfold sortByCreatedAtDesc.
  induction l as [|b rest IH]; simpl; [exact I|].
  apply newestFirst_insert. assumption.
Qed.

Lemma newestFirst_filter :
  forall (f : Booking -> bool) l, newestFirst l -> newestFirst (filter f l).
Proof.
  intros f l. induction l as [|b rest IH]; simpl; intros Hs.
  - exact I.
  - destruct Hs as [Hb Hrest]. destruct (f b); simpl.
    + split; [|apply IH; assumption].
      intros x Hx. apply filter_In in Hx. apply Hb. tauto.
    + apply IH. assumption.
Qed.

(** X14.  Both listings run from the newest booking to the oldest. *)
Theorem listings_run_newest_first :
  forall store,
    (forall l, getBookings store = Status200List l -> newestFirst l)
    /\ (forall h l,
          getBookingsByHotelId store h = Status200List l -> newestFirst l).
Proof.
  intros store. split.
  - intros l H. rewrite getBookings_unfold in H. inversion H; subst l.
    apply newestFirst_filter, newestFirst_sort.
  - intros [h|] l H; unfold getBookingsByHotelId in H; [|discriminate].
    destruct (filter validBooking
                (sortByCreatedAtDesc
                   (filter (fun b => (hotelID b =? h) && listingQuery b) store)))
      as [|b0 rest] eqn:Hl; [discriminate|].
    inversion H; subst l. rewrite <- Hl.
    apply newestFirst_filter, newestFirst_sort.
Qed.

End CancellingAndReading.

Section BookingsOfOneNumber.

Import JS Ledger Spec LedgerOps LedgerProps.



Lemma createBooking_then_getBookingById_witness :
  exists b store',
    createBooking Scenario.onJune1 Scenario.ledger
      (Scenario.request "102" Scenario.june1 Scenario.june5 None)
    = (Status200 b, store')
    /\ getBookingById store' (_id b) = Status200 b
    /\ getBookingById store' (_id Scenario.bookingX)
       = Status200 Scenario.bookingX.
Proof.
  eexists. eexists.
  assert (Hrun :
            createBooking Scenario.onJune1 Scenario.ledger
              (Scenario.request "102" Scenario.june1 Scenario.june5 None)
            = (Status200 _, _)) by (vm_compute; reflexivity).
  assert (Hfresh : findById Scenario.ledger (newObjectId Scenario.onJune1)
                   = None) by reflexivity.
  destruct (createBooking_then_getBookingById Scenario.onJune1 _ _ _ _
              Hfresh Hrun) as [Hnew Hold].
  split; [exact Hrun|]. split; [exact Hnew|].
  apply Hold. reflexivity.
Defined.

Lemma In_unique :
  forall l z, In z (unique l) <-> In z l.
Proof.
  induction l as [|x rest IH]; intros z; simpl.
  - tauto.
  - rewrite filter_In, IH, negb_true_iff, Z.eqb_neq.
    destruct (Z.eq_dec x z) as [E | N]; [subst; tauto | intuition congruence].
Qed.

Lemma find_filter_within :
  forall (A : Type) (p q : A -> bool) (l : list A),
    (forall x, p x = true -> q x = true) ->
    find p (filter q l) = find p l.
Proof.
  intros A p q l Hpq. induction l as [|x rest IH]; simpl.
  - reflexivity.
  - destruct (q x) eqn:Hq; simpl.
    + destruct (p x); [reflexivity | assumption].
    + destruct (p x) eqn:Hp; [|assumption].
      rewrite (Hpq x Hp) in Hq. discriminate.
Qed.

(** The look-up [hotelMap[booking.hotelID]]: nothing for hotel number 0,
    which [filter(Boolean)] drops from the query, and otherwise the last
    hotel of the collection with this number. *)
Lemma hotelMap_lookup :
  forall (bookings : list Booking) (hotels : Inventory.Db) b,
    In b bookings ->
    find (fun h => Inventory.hotelID h =? hotelID b)
         (rev (filter
                 (fun h =>
                    existsb (Z.eqb (Inventory.hotelID h))
                            (unique (filter truthy_number (map hotelID bookings))))
                 hotels))
    = if hotelID b =? 0 then None
      else find (fun h => Inventory.hotelID h =? hotelID b) (rev hotels).
Proof.
  intros bookings hotels b Hb.
  rewrite <- filter_rev.
  destruct (hotelID b =? 0) eqn:Hz.
  - apply Z.eqb_eq in Hz. apply find_none_iff. intros h Hh.
    apply filter_In in Hh. destruct Hh as [_ Hq].
    apply existsb_exists in Hq. destruct Hq as (z & Hz_in & Hz_eq).
    apply Z.eqb_eq in Hz_eq. apply (proj1 (In_unique _ _)) in Hz_in.
    apply filter_In in Hz_in. destruct Hz_in as [_ Ht].
    unfold truthy_number in Ht. apply negb_true_iff, Z.eqb_neq in Ht.
    apply Z.eqb_neq. congruence.
  - apply find_filter_within. intros h Hp. apply Z.eqb_eq in Hp.
    apply existsb_exists. exists (hotelID b). split.
    + apply In_unique. apply filter_In. split.
      * apply in_map. assumption.
      * unfold truthy_number. rewrite Hz. reflexivity.
    + apply Z.eqb_eq. assumption.
Qed.

(** X15.  [getBookingsByBookingNo] answers 404 exactly when no stored booking
    has the number.  Otherwise it returns every stored booking with the
    number, cancelled ones included, in the order of the collection and
    one entry each.  An entry carries the images of the last hotel of the
    hotel collection with the booking's hotel number, and as logo the
    first of them unless it is the empty string; it carries no logo and no
    images when there is no such hotel or the hotel number is 0. *)
Theorem getBookingsByBookingNo_joins_hotels :
  forall (store : Store) (hotels : Inventory.Db) (no : string),
    (getBookingsByBookingNo store hotels no = NoBookings404
     <-> forall b, In b store -> bookingNo b <> Str no)
    /\ forall l,
        getBookingsByBookingNo store hotels no = Found200 l ->
        map booking l = filter (hasBookingNo no) store
        /\ forall e,
            In e l ->
            match (if hotelID (booking e) =? 0 then None
                   else find (fun h => Inventory.hotelID h
                                       =? hotelID (booking e))
                             (rev hotels)) with
            | Some h =>
                hotelImages e = Inventory.images h
                /\ hotelLogo e
                   = match Inventory.images h with
                     | first :: _ =>
                         if truthy_string first then Some first else None
                     | [] => None
                     end
            | None => hotelImages e = [] /\ hotelLogo e = None
            end.
Proof.
  intros store hotels no.
  assert (Hempty : filter (hasBookingNo no) store = []
                   <-> forall b, In b store -> bookingNo b <> Str no).
  { split.
    - intros Hf b Hb Hno.
      assert (Hin : In b (filter (hasBookingNo no) store)).
      { apply filter_In. split; [assumption|].
        unfold hasBookingNo. rewrite Hno. apply String.eqb_refl. }
      rewrite Hf in Hin. contradiction.
    - intros Hall.
      destruct (filter (hasBookingNo no) store) as [|b rest] eqn:Hf;
        [reflexivity|].
      assert (Hin : In b (filter (hasBookingNo no) store))
        by (rewrite Hf; left; reflexivity).
      apply filter_In in Hin. destruct Hin as [Hin Hno].
      unfold hasBookingNo in Hno.
      destruct (bookingNo b) as [| |s] eqn:Hs; try discriminate.
      apply String.eqb_eq in Hno. subst s.
      exfalso. exact (Hall b Hin Hs). }
  unfold getBookingsByBookingNo.
  destruct (filter (hasBookingNo no) store) as [|b0 rest] eqn:Hf.
  - split.
    + split; [intros _; apply Hempty; reflexivity | reflexivity].
    + intros l Hl. discriminate.
  - split.
    + split; [discriminate|].
      intros Hall. apply Hempty in Hall. discriminate.
    + intros l Hl. cbv zeta in Hl.
      match type of Hl with
      | Found200 (map ?F ?bs) = _ => set (entry := F) in Hl
      end.
      assert (Hentry : forall x,
                 In x (b0 :: rest) ->
                 booking (entry x) = x
                 /\ match (if hotelID x =? 0 then None
                           else find (fun h => Inventory.hotelID h =? hotelID x)
                                     (rev hotels)) with
                    | Some h =>
                        hotelImages (entry x) = Inventory.images h
                        /\ hotelLogo (entry x)
                           = match Inventory.images h with
                             | first :: _ =>
                                 if truthy_string first then Some first else None
                             | [] => None
                             end
                    | None =>
                        hotelImages (entry x) = [] /\ hotelLogo (entry x) = None
                    end).
      { intros x Hx. unfold entry.
        rewrite (hotelMap_lookup (b0 :: rest) hotels x Hx).
        destruct (if hotelID x =? 0 then None
                  else find (fun h => Inventory.hotelID h =? hotelID x)
                            (rev hotels)) as [h|]; simpl.
        - split; [reflexivity|]. split; [reflexivity|].
          unfold logoOf. destruct (Inventory.images h); reflexivity.
        - split; [reflexivity|]. split; reflexivity. }
      injection Hl as Hl. subst l.
      change (entry b0 :: map entry rest) with (map entry (b0 :: rest)).
      split.
      * rewrite map_map.
        rewrite (map_ext_in _ (fun x => x)); [apply map_id|].
        intros x Hx. apply Hentry. assumption.
      * intros e He. apply in_map_iff in He. destruct He as (x & Hx & Hin).
        subst e. destruct (Hentry x Hin) as [Hbk Hrest].
        rewrite Hbk. exact Hrest.
Qed.

End BookingsOfOneNumber.

(* ===================================================================== *)
(** ** Further properties of the hotel controller: what a write changes *)
(* ===================================================================== *)

Section InventoryWrites.

Import JS Inventory InventorySpec InventoryOps InventoryProps.

Variable isValidObjectId : string -> bool.

Lemma fold_max_ge :
  forall l a,
    a <= fold_left Z.max l a
    /\ forall x, In x l -> x <= fold_left Z.max l a.
Proof.
  induction l as [|y l IH]; intros a; simpl.
  - split; [lia | intros x []].
  - destruct (IH (Z.max a y)) as [Ha Hl]. split; [lia|].
    intros x [Hx | Hx]; [subst; lia | apply Hl; assumption].
Qed.

(** X16.  The number [getNextHotelID] returns is above the [hotelID] of every
    stored hotel: it is the number of no hotel of the collection. *)
Theorem getNextHotelID_is_unused :
  forall db h, In h db -> hotelID h < getNextHotelID db.
Proof.
  intros db h Hin. unfold getNextHotelID.
  destruct db as [|h0 rest]; [contradiction|].
  cbv zeta.
  destruct (fold_max_ge (map hotelID rest) (hotelID h0)) as [H0 Hrest].
  assert (Hle : hotelID h <= fold_left Z.max (map hotelID rest) (hotelID h0)).
  { destruct Hin as [Hh | Hh]; [subst; assumption|].
    apply Hrest. apply in_map. assumption. }
  unfold truthy_number.
  destruct (fold_left Z.max (map hotelID rest) (hotelID h0) =? 0) eqn:Hz;
    simpl.
  - apply Z.eqb_eq in Hz. lia.
  - lia.
Qed.

Ltac settle H :=
  repeat match type of H with
         | context [match ?x with _ => _ end] => destruct x eqn:?
         end.

Ltac unchanged H H200 H201 :=
  inversion H; subst;
  first [ reflexivity
        | exfalso; apply H200; reflexivity
        | exfalso; apply H201; reflexivity ].

(** X17.  A request that is not answered 200 or 201 leaves the hotel collection
    as it was, on every writing route of the hotel router. *)
Theorem route_failure_leaves_collection :
  forall (subdocumentRemove : bool) (m : Mutation) (db db' : Db)
         (resp : Response),
    route isValidObjectId subdocumentRemove m db = (resp, db') ->
    statusCode resp <> 200 ->
    statusCode resp <> 201 ->
    db' = db.
Proof.
  intros subdocumentRemove m db db' resp H H200 H201.
  destruct m; simpl in H;
    unfold createHotel, updateHotel, addCategory, updateCategory,
      deleteCategory, addRoom, updateRoom, deleteRoom, updateRoomStatus in H;
    cbv zeta in H; settle H; unchanged H H200 H201.
Qed.


Lemma save_inv :
  forall db h db',
    save db h = Some db' ->
    validHotel h = true /\ db' = replaceHotel (preSave h) db.
Proof.
  intros db h db' H. unfold save in H.
  destruct (validHotel h); [|discriminate].
  inversion H. split; reflexivity.
Qed.

Lemma validHotel_categories :
  forall h,
    validHotel h = true -> forallb validCategory (roomCategories h) = true.
Proof.
  intros h H. unfold validHotel in H.
  apply andb_true_iff in H. tauto.
Qed.

Lemma find_replaceHotel :
  forall (p : Hotel -> bool) db hotel h',
    find p db = Some hotel ->
    hotel_id h' = hotel_id hotel ->
    p h' = true ->
    find p (replaceHotel h' db) = Some h'.
Proof.
  intros p db hotel h'. induction db as [|x rest IH]; simpl; intros Hf Hid Hp.
  - discriminate.
  - destruct (String.eqb (hotel_id x) (hotel_id h')) eqn:Hx; simpl.
    + rewrite Hp. reflexivity.
    + destruct (p x) eqn:Hpx.
      * inversion Hf; subst x. rewrite Hid, String.eqb_refl in Hx.
        discriminate.
      * apply IH; assumption.
Qed.

(** The lookup that found a hotel finds what was saved over it. *)
Lemma findHotel_replaceHotel :
  forall db id hotel h',
    findHotel isValidObjectId db id = inl (Some hotel) ->
    hotel_id h' = hotel_id hotel ->
    hotelID h' = hotelID hotel ->
    findHotel isValidObjectId (replaceHotel h' db) id = inl (Some h').
Proof.
  intros db id hotel h' Hf Hid Hno. unfold findHotel in *.
  destruct (isValidObjectId id).
  - inversion Hf as [Hfind]. f_equal.
    apply find_replaceHotel with (hotel := hotel); [assumption | assumption|].
    apply find_some in Hfind. rewrite Hid. tauto.
  - destruct (parseIntNoRadix id) as [n|]; [|discriminate].
    inversion Hf as [Hfind]. f_equal.
    apply find_replaceHotel with (hotel := hotel); [assumption | assumption|].
    apply find_some in Hfind. rewrite Hno. tauto.
Qed.

Lemma NoDup_snoc :
  forall (l : list string) x, NoDup l -> ~ In x l -> NoDup (l ++ [x])%list.
Proof.
  induction l as [|y l IH]; intros x Hnd Hx; simpl.
  - constructor; [intros [] | constructor].
  - inversion Hnd as [|? ? Hy Hl]; subst. constructor.
    + intros Hin. apply in_app_or in Hin. destruct Hin as [Hin | [Hin | []]].
      * contradiction.
      * subst. apply Hx. left. reflexivity.
    + apply IH; [assumption|]. intros Hin. apply Hx. right. assumption.
Qed.

(** X18.  A category is added only under a name that is not empty and that no
    category of the hotel carries, as the last category of the hotel: the
    category names of a hotel stay distinct under [addCategory], and
    [getCategories] then lists the categories the hotel had followed by
    the new one. *)
Theorem addCategory_keeps_names_distinct :
  forall db hotelId newId u d resp db',
    addCategory isValidObjectId db hotelId newId u d = (resp, db') ->
    statusCode resp = 201 ->
    exists hotel c,
      findHotel isValidObjectId db hotelId = inl (Some hotel)
      /\ db' = replaceHotel
                 (preSave (withCategories hotel
                             (roomCategories hotel ++ [c])%list)) db
      /\ category_id c = newId
      /\ cd_name d = Some (category_name c)
      /\ category_name c <> ""
      /\ ~ In (category_name c) (map category_name (roomCategories hotel))
      /\ (NoDup (map category_name (roomCategories hotel)) ->
          NoDup (map category_name (roomCategories hotel ++ [c])%list))
      /\ getCategories isValidObjectId db' hotelId
         = inl {| co_hotelID := hotelID hotel;
                  co_hotelName := hotelName hotel;
                  categories := (roomCategories hotel ++ [c])%list |}.
Proof.
  intros db hotelId newId u d resp db' H Hcode. unfold addCategory in H.
  cbv zeta in H.
  destruct (findHotel isValidObjectId db hotelId) as [[hotel|]|] eqn:Hf;
    try (inversion H; subst; discriminate).
  destruct (find _ (roomCategories hotel)) as [existing|] eqn:Hfind;
    try (inversion H; subst; discriminate).
  destruct (save db _) as [db1|] eqn:Hs;
    try (inversion H; subst; discriminate).
  inversion H; subst db1 resp. clear H Hcode.
  apply save_inv in Hs. destruct Hs as [Hvalid Hdb].
  apply validHotel_categories in Hvalid. simpl in Hvalid.
  rewrite forallb_app in Hvalid. apply andb_true_iff in Hvalid.
  destruct Hvalid as [_ Hc]. simpl in Hc.
  rewrite andb_true_r in Hc. unfold validCategory in Hc. simpl in Hc.
  apply andb_true_iff in Hc. destruct Hc as [Hname _].
  destruct (cd_name d) as [n|] eqn:Hn; [|discriminate].
  simpl in Hname.
  assert (Hne : n <> "") by (intros E; subst n; discriminate).
  assert (Hfresh : ~ In n (map category_name (roomCategories hotel))).
  { intros Hin. apply in_map_iff in Hin. destruct Hin as (x & Hx & Hin).
    apply (find_none _ _ Hfind) in Hin. simpl in Hin.
    rewrite Hx, String.eqb_refl in Hin. discriminate. }
  exists hotel.
  eexists {| category_id := newId; category_name := n;
             category_images := _; roomNumbers := _ |}.
  split; [reflexivity|]. split; [exact Hdb|]. split; [reflexivity|].
  split; [reflexivity|]. split; [exact Hne|]. split; [exact Hfresh|].
  split.
  - intros Hnd. rewrite map_app. simpl. apply NoDup_snoc; assumption.
  - unfold getCategories. subst db'.
    erewrite findHotel_replaceHotel;
      [reflexivity | exact Hf | reflexivity | reflexivity].
Qed.


(** The first category of an identifier, and what [changeCategory] and
    [removeCategory] make of the list around it. *)
Lemma categories_split :
  forall categoryId f cats c,
    find (fun x => String.eqb (category_id x) categoryId) cats = Some c ->
    exists before after,
      cats = (before ++ c :: after)%list
      /\ changeCategory categoryId f cats = (before ++ f c :: after)%list
      /\ removeCategory categoryId cats = (before ++ after)%list.
Proof.
  intros categoryId f cats c. induction cats as [|x rest IH]; simpl; intros H.
  - discriminate.
  - destruct (String.eqb (category_id x) categoryId) eqn:Hx.
    + inversion H; subst x. exists [], rest. repeat split.
    + destruct (IH H) as (before & after & Hc & Hch & Hrm).
      exists (x :: before), after. simpl. rewrite <- Hc, Hch, Hrm.
      repeat split.
Qed.

Lemma rooms_split :
  forall roomId rooms r,
    find (fun x => String.eqb (room_id x) roomId) rooms = Some r ->
    exists before after,
      rooms = (before ++ r :: after)%list
      /\ removeRoom roomId rooms = (before ++ after)%list.
Proof.
  intros roomId rooms r. induction rooms as [|x rest IH]; simpl; intros H.
  - discriminate.
  - destruct (String.eqb (room_id x) roomId) eqn:Hx.
    + inversion H; subst x. exists [], rest. repeat split.
    + destruct (IH H) as (before & after & Hc & Hrm).
      exists (x :: before), after. simpl. rewrite <- Hc, Hrm.
      repeat split.
Qed.

Lemma countRooms_split :
  forall hotel before c after,
    countRooms (withCategories hotel (before ++ c :: after)%list)
    = Z.of_nat (List.length (flat_map roomNumbers before))
      + Z.of_nat (List.length (roomNumbers c))
      + Z.of_nat (List.length (flat_map roomNumbers after)).
Proof.
  intros hotel before c after. unfold countRooms, allRooms. simpl.
  rewrite flat_map_app. simpl. rewrite !length_app. lia.
Qed.

Lemma countAvailable_split :
  forall hotel before c after,
    countAvailable (withCategories hotel (before ++ c :: after)%list)
    = Z.of_nat (List.length (filter isAvailable (flat_map roomNumbers before)))
      + Z.of_nat (List.length (filter isAvailable (roomNumbers c)))
      + Z.of_nat (List.length (filter isAvailable (flat_map roomNumbers after))).
Proof.
  intros hotel before c after. unfold countAvailable, allRooms. simpl.
  rewrite flat_map_app. simpl. rewrite !filter_app, !length_app. lia.
Qed.

Lemma withCategories_same :
  forall hotel,
    countRooms (withCategories hotel (roomCategories hotel)) = countRooms hotel
    /\ countAvailable (withCategories hotel (roomCategories hotel))
       = countAvailable hotel.
Proof.
  intros hotel. split; reflexivity.
Qed.

Lemma availability_length :
  forall r,
    Z.of_nat (List.length (filter isAvailable [r])) = availability r.
Proof.
  intros r. unfold availability, isAvailable. simpl.
  destruct (String.eqb (room_status r) "available"); reflexivity.
Qed.

(** The counters of the hotel [save] stores are those of its tree. *)
Lemma preSave_counts :
  forall h,
    totalRooms (preSave h) = countRooms h
    /\ availableRooms (preSave h) = countAvailable h.
Proof.
  intros h. simpl.
  rewrite calculatedTotalRooms_counts, calculatedAvailableRooms_counts.
  split; reflexivity.
Qed.

(** X19.  A room is added only under a name that is not empty and that no room
    of the category carries, as the last room of the category; the hotel
    then counts one room more, and one available room more when the new
    room is available (which it is when the request names no status), and
    [getRooms] lists the rooms the category had followed by the new one. *)
Theorem addRoom_adds_one_room :
  forall db hotelId categoryId newId u d resp db',
    addRoom isValidObjectId db hotelId categoryId newId u d = (resp, db') ->
    statusCode resp = 201 ->
    exists hotel category room stored,
      findHotel isValidObjectId db hotelId = inl (Some hotel)
      /\ categoryById hotel categoryId = Some category
      /\ db' = replaceHotel stored db
      /\ room_id room = newId
      /\ rd_name d = Some (room_name room)
      /\ room_name room <> ""
      /\ room_status room = orElse (rd_status d) "available"
      /\ ~ In (room_name room) (map room_name (roomNumbers category))
      /\ totalRooms stored = countRooms hotel + 1
      /\ availableRooms stored = countAvailable hotel + availability room
      /\ getRooms isValidObjectId db' hotelId categoryId
         = inl {| ro_hotelID := hotelID hotel;
                  ro_category_id := category_id category;
                  ro_category_name := category_name category;
                  rooms := (roomNumbers category ++ [room])%list |}.
Proof.
  intros db hotelId categoryId newId u d resp db' H Hcode. unfold addRoom in H.
  cbv zeta in H.
  destruct (findHotel isValidObjectId db hotelId) as [[hotel|]|] eqn:Hf;
    try (inversion H; subst; discriminate).
  destruct (categoryById hotel categoryId) as [category|] eqn:Hc;
    try (inversion H; subst; discriminate).
  destruct (find _ (roomNumbers category)) as [existing|] eqn:Hfind;
    try (inversion H; subst; discriminate).
  destruct (save db _) as [db1|] eqn:Hs;
    try (inversion H; subst; discriminate).
  inversion H; subst db1 resp. clear H Hcode.
  match type of Hs with
  | context [@cons Room ?r nil] => set (room := r) in *
  end.
  apply save_inv in Hs. destruct Hs as [Hvalid Hdb].
  pose proof Hc as Hc'. unfold categoryById in Hc'.
  destruct (categories_split categoryId
              (fun c => withRooms (roomNumbers c ++ [room])%list c) _ _ Hc')
    as (before & after & Hcats & Hchanged & _).
  pose proof (find_changeCategory categoryId
                (fun c => withRooms (roomNumbers c ++ [room])%list c)
                _ _ Hc' eq_refl) as Hfound.
  cbv beta in Hchanged, Hfound.
  pose proof Hvalid as Hv.
  apply validHotel_categories in Hv. simpl in Hv.
  rewrite Hchanged in Hv.
  rewrite forallb_app in Hv. apply andb_true_iff in Hv.
  destruct Hv as [_ Hv]. simpl in Hv.
  apply andb_true_iff in Hv. destruct Hv as [Hv _].
  unfold validCategory in Hv. simpl in Hv.
  apply andb_true_iff in Hv. destruct Hv as [_ Hv].
  rewrite forallb_app in Hv. apply andb_true_iff in Hv.
  destruct Hv as [_ Hv]. simpl in Hv. rewrite andb_true_r in Hv.
  unfold validRoom in Hv. simpl in Hv.
  apply andb_true_iff in Hv. destruct Hv as [Hname _].
  assert (Hgiven : rd_name d = Some (room_name room) /\ room_name room <> "").
  { unfold room in *. simpl in *.
    destruct (rd_name d) as [n|]; [|discriminate]. simpl in *.
    split; [reflexivity|]. intros E. subst n. discriminate. }
  destruct Hgiven as [Hn Hne].
  assert (Hfresh :
            ~ In (room_name room) (map room_name (roomNumbers category))).
  { intros Hin. apply in_map_iff in Hin. destruct Hin as (x & Hx & Hin).
    apply (find_none _ _ Hfind) in Hin. simpl in Hin.
    rewrite Hn in Hin. simpl in Hin.
    rewrite Hx, String.eqb_refl in Hin. discriminate. }
  exists hotel, category, room.
  eexists.
  split; [reflexivity|]. split; [exact Hc|]. split; [exact Hdb|].
  split; [reflexivity|]. split; [exact Hn|]. split; [exact Hne|].
  split; [reflexivity|]. split; [exact Hfresh|].
  destruct (preSave_counts
              (withCategories hotel
                 (changeCategory categoryId
                    (fun c => withRooms (roomNumbers c ++ [room])%list c)
                    (roomCategories hotel)))) as [Ht Ha].
  split; [|split].
  - rewrite Ht. rewrite Hchanged, countRooms_split.
    destruct (withCategories_same hotel) as [Hsame _]. rewrite <- Hsame.
    rewrite Hcats. rewrite countRooms_split. simpl.
    rewrite length_app. simpl. lia.
  - rewrite Ha. rewrite Hchanged, countAvailable_split.
    destruct (withCategories_same hotel) as [_ Hsame]. rewrite <- Hsame.
    rewrite Hcats. rewrite countAvailable_split. simpl.
    rewrite filter_app, length_app, Nat2Z.inj_add, availability_length.
    lia.
  - unfold getRooms. subst db'.
    erewrite findHotel_replaceHotel;
      [ | exact Hf | reflexivity | reflexivity].
    unfold categoryById. simpl. rewrite Hfound. reflexivity.
Qed.


(** X20.  [deleteRoom] where a subdocument has [remove()]: a 200 means the
    first room of the identifier was taken out of the category, the rooms
    around it left in their order; the hotel then counts one room less,
    and one available room less when the room was available.  Where a
    subdocument has no [remove()], the request is never answered 200 and
    nothing is written: a room that is found is answered 500. *)
Theorem deleteRoom_removes_one_room :
  forall (subdocumentRemove : bool) db hotelId categoryId roomId resp db',
    deleteRoom isValidObjectId subdocumentRemove db hotelId categoryId roomId
    = (resp, db') ->
    (subdocumentRemove = false ->
     db' = db
     /\ statusCode resp <> 200
     /\ forall hotel category room,
          findHotel isValidObjectId db hotelId = inl (Some hotel) ->
          categoryById hotel categoryId = Some category ->
          roomById category roomId = Some room ->
          resp = Sent 500 "Failed to delete room")
    /\ (statusCode resp = 200 ->
        subdocumentRemove = true
        /\ exists hotel category room before after stored,
            findHotel isValidObjectId db hotelId = inl (Some hotel)
            /\ categoryById hotel categoryId = Some category
            /\ roomById category roomId = Some room
            /\ roomNumbers category = (before ++ room :: after)%list
            /\ db' = replaceHotel stored db
            /\ categoryById stored categoryId
               = Some (withRooms (before ++ after)%list category)
            /\ totalRooms stored = countRooms hotel - 1
            /\ availableRooms stored
               = countAvailable hotel - availability room).
Proof.
  intros subdocumentRemove db hotelId categoryId roomId resp db' H.
  unfold deleteRoom in H. cbv zeta in H. split.
  - intros Hno. subst subdocumentRemove. simpl negb in H. cbv iota in H.
    destruct (findHotel isValidObjectId db hotelId) as [[hotel|]|] eqn:Hf;
      [destruct (categoryById hotel categoryId) as [category|] eqn:Hc;
       [destruct (roomById category roomId) as [room|] eqn:Hr|]| |];
      inversion H; subst resp db';
      (split; [reflexivity|]; split; [simpl; lia|];
       intros h c r Hh Hc' Hr'; first [reflexivity | congruence]).
  - intros Hcode.
    destruct (findHotel isValidObjectId db hotelId) as [[hotel|]|] eqn:Hf;
      try (inversion H; subst; discriminate).
    destruct (categoryById hotel categoryId) as [category|] eqn:Hc;
      try (inversion H; subst; discriminate).
    destruct (roomById category roomId) as [room|] eqn:Hr;
      try (inversion H; subst; discriminate).
    destruct subdocumentRemove; simpl negb in H; cbv iota in H;
      try (inversion H; subst; discriminate).
    split; [reflexivity|].
    destruct (save db _) as [db1|] eqn:Hs;
      try (inversion H; subst; discriminate).
    inversion H; subst db1 resp. clear H Hcode.
    apply save_inv in Hs. destruct Hs as [_ Hdb].
    pose proof Hc as Hc'. unfold categoryById in Hc'.
    pose proof Hr as Hr'. unfold roomById in Hr'.
    destruct (rooms_split roomId _ _ Hr') as (rb & ra & Hrooms & Hremoved).
    destruct (categories_split categoryId
                (fun c => withRooms (removeRoom roomId (roomNumbers c)) c)
                _ _ Hc')
      as (before & after & Hcats & Hchanged & _).
    pose proof (find_changeCategory categoryId
                  (fun c => withRooms (removeRoom roomId (roomNumbers c)) c)
                  _ _ Hc' eq_refl) as Hfound.
    cbv beta in Hchanged, Hfound. rewrite Hremoved in Hchanged, Hfound.
    exists hotel, category, room, rb, ra.
    eexists.
    split; [reflexivity|]. split; [exact Hc|]. split; [exact Hr|].
    split; [exact Hrooms|]. split; [exact Hdb|].
    destruct (preSave_counts
                (withCategories hotel
                   (changeCategory categoryId
                      (fun c => withRooms (removeRoom roomId (roomNumbers c)) c)
                      (roomCategories hotel)))) as [Ht Ha].
    split; [|split].
    + unfold categoryById. simpl. exact Hfound.
    + rewrite Ht. rewrite Hchanged, countRooms_split.
      destruct (withCategories_same hotel) as [Hsame _]. rewrite <- Hsame.
      rewrite Hcats. rewrite countRooms_split. simpl.
      rewrite Hrooms, !length_app. simpl. lia.
    + rewrite Ha. rewrite Hchanged, countAvailable_split.
      destruct (withCategories_same hotel) as [_ Hsame]. rewrite <- Hsame.
      rewrite Hcats. rewrite countAvailable_split. simpl.
      rewrite Hrooms.
      change (room :: ra) with ([room] ++ ra)%list.
      rewrite !filter_app, !length_app, !Nat2Z.inj_add, availability_length.
      lia.
Qed.

(** X21.  [deleteCategory] where a subdocument has [remove()]: a 200 means
    the first category of the identifier was taken out of the hotel, with
    its rooms, the categories around it left in their order; the counters
    of the hotel go down by the rooms and by the available rooms of that
    category.  Where a subdocument has no [remove()], the request is never
    answered 200 and nothing is written: a category that is found is
    answered 500. *)
Theorem deleteCategory_removes_its_rooms :
  forall (subdocumentRemove : bool) db hotelId categoryId resp db',
    deleteCategory isValidObjectId subdocumentRemove db hotelId categoryId
    = (resp, db') ->
    (subdocumentRemove = false ->
     db' = db
     /\ statusCode resp <> 200
     /\ forall hotel category,
          findHotel isValidObjectId db hotelId = inl (Some hotel) ->
          categoryById hotel categoryId = Some category ->
          resp = Sent 500 "Failed to delete category")
    /\ (statusCode resp = 200 ->
        subdocumentRemove = true
        /\ exists hotel category before after stored,
            findHotel isValidObjectId db hotelId = inl (Some hotel)
            /\ categoryById hotel categoryId = Some category
            /\ roomCategories hotel = (before ++ category :: after)%list
            /\ db' = replaceHotel stored db
            /\ roomCategories stored = (before ++ after)%list
            /\ totalRooms stored
               = countRooms hotel
                 - Z.of_nat (List.length (roomNumbers category))
            /\ availableRooms stored
               = countAvailable hotel
                 - Z.of_nat
                     (List.length
                        (filter isAvailable (roomNumbers category)))).
Proof.
  intros subdocumentRemove db hotelId categoryId resp db' H.
  unfold deleteCategory in H. split.
  - intros Hno. subst subdocumentRemove. simpl negb in H. cbv iota in H.
    destruct (findHotel isValidObjectId db hotelId) as [[hotel|]|] eqn:Hf;
      [destruct (categoryById hotel categoryId) as [category|] eqn:Hc| |];
      inversion H; subst resp db';
      (split; [reflexivity|]; split; [simpl; lia|];
       intros h c Hh Hc'; first [reflexivity | congruence]).
  - intros Hcode.
    destruct (findHotel isValidObjectId db hotelId) as [[hotel|]|] eqn:Hf;
      try (inversion H; subst; discriminate).
    destruct (categoryById hotel categoryId) as [category|] eqn:Hc;
      try (inversion H; subst; discriminate).
    destruct subdocumentRemove; simpl negb in H; cbv iota in H;
      try (inversion H; subst; discriminate).
    split; [reflexivity|].
    destruct (save db _) as [db1|] eqn:Hs;
      try (inversion H; subst; discriminate).
    inversion H; subst db1 resp. clear H Hcode.
    apply save_inv in Hs. destruct Hs as [_ Hdb].
    pose proof Hc as Hc'. unfold categoryById in Hc'.
    destruct (categories_split categoryId (fun c => c) _ _ Hc')
      as (before & after & Hcats & _ & Hremoved).
    exists hotel, category, before, after.
    eexists.
    split; [reflexivity|]. split; [exact Hc|]. split; [exact Hcats|].
    split; [exact Hdb|].
    destruct (preSave_counts
                (withCategories hotel
                   (removeCategory categoryId (roomCategories hotel))))
      as [Ht Ha].
    split; [|split].
    + simpl. exact Hremoved.
    + rewrite Ht. destruct (withCategories_same hotel) as [Hsame _].
      rewrite <- Hsame. rewrite Hremoved, Hcats, countRooms_split.
      unfold countRooms, allRooms. simpl.
      rewrite flat_map_app, length_app. lia.
    + rewrite Ha. destruct (withCategories_same hotel) as [_ Hsame].
      rewrite <- Hsame. rewrite Hremoved, Hcats, countAvailable_split.
      unfold countAvailable, allRooms. simpl.
      rewrite flat_map_app, filter_app, length_app. lia.
Qed.

End InventoryWrites.

(* ===================================================================== *)
(** ** Further properties of the hotel controller: statuses and deletion *)
(* ===================================================================== *)

Section InventoryStatuses.

Import JS Inventory InventorySpec InventoryOps InventoryProps.

Lemma changeRoomByName_butStatus :
  forall name s rooms,
    map roomButStatus (changeRoomByName name (withStatus s) rooms)
    = map roomButStatus rooms.
Proof.
  intros name s rooms. induction rooms as [|r rest IH]; simpl.
  - reflexivity.
  - destruct (String.eqb (room_name r) name); simpl.
    + reflexivity.
    + rewrite IH. reflexivity.
Qed.

Lemma setStatuses_butStatus :
  forall statuses rooms,
    map roomButStatus (setStatuses statuses rooms) = map roomButStatus rooms.
Proof.
  unfold setStatuses.
  induction statuses as [|item statuses IH]; intros rooms; simpl.
  - reflexivity.
  - rewrite IH. apply changeRoomByName_butStatus.
Qed.

Lemma changeCategoryByName_butStatuses :
  forall name f cats,
    (forall c, categoryButStatuses (f c) = categoryButStatuses c) ->
    map categoryButStatuses (changeCategoryByName name f cats)
    = map categoryButStatuses cats.
Proof.
  intros name f cats Hf. induction cats as [|c rest IH]; simpl.
  - reflexivity.
  - destruct (String.eqb (category_name c) name); simpl.
    + rewrite Hf. reflexivity.
    + rewrite IH. reflexivity.
Qed.

Lemma butStatuses_same_count :
  forall cats cats',
    map categoryButStatuses cats = map categoryButStatuses cats' ->
    List.length (flat_map roomNumbers cats)
    = List.length (flat_map roomNumbers cats').
Proof.
  induction cats as [|c rest IH]; intros [|c' rest'] H; simpl in H;
    try discriminate.
  - reflexivity.
  - injection H as _ _ _ Hrooms Hrest. simpl. rewrite !length_app.
    rewrite (IH _ Hrest). f_equal.
    apply (f_equal (@List.length _)) in Hrooms.
    rewrite !length_map in Hrooms. assumption.
Qed.

(** X22.  The legacy status route changes statuses and nothing else: the hotel
    it stores has the categories and the rooms of the hotel it loaded, in
    their order, with their identifiers, names and images; the hotel
    counts as many rooms as before, and every room of it has a status of
    the enumeration. *)
Theorem updateRoomStatus_changes_statuses_only :
  forall db hotelNo categoryName roomStatuses resp db',
    updateRoomStatus db hotelNo categoryName roomStatuses = (resp, db') ->
    statusCode resp = 200 ->
    exists hotel stored,
      In hotel db
      /\ db' = replaceHotel stored db
      /\ hotel_id stored = hotel_id hotel
      /\ hotelID stored = hotelID hotel
      /\ hotelName stored = hotelName hotel
      /\ images stored = images hotel
      /\ map categoryButStatuses (roomCategories stored)
         = map categoryButStatuses (roomCategories hotel)
      /\ totalRooms stored = countRooms hotel
      /\ (forall r,
             In r (allRooms stored) -> roomStatusEnum (room_status r) = true).
Proof.
  intros db hotelNo categoryName roomStatuses resp db' H Hcode.
  unfold updateRoomStatus in H. cbv zeta in H.
  destruct roomStatuses as [statuses|];
    try (inversion H; subst; discriminate).
  destruct (parseIntNoRadix hotelNo) as [n|];
    try (inversion H; subst; discriminate).
  destruct (find _ db) as [hotel|] eqn:Hf;
    try (inversion H; subst; discriminate).
  destruct (find _ (roomCategories hotel)) as [category|];
    try (inversion H; subst; discriminate).
  destruct (save db _) as [db1|] eqn:Hs;
    try (inversion H; subst; discriminate).
  inversion H; subst db1 resp. clear H Hcode.
  unfold save in Hs.
  match type of Hs with
  | context [validHotel ?h] => set (changed := h) in *
  end.
  destruct (validHotel changed) eqn:Hvalid; [|discriminate].
  inversion Hs as [Hdb]. clear Hs.
  assert (Hsame : map categoryButStatuses (roomCategories changed)
                  = map categoryButStatuses (roomCategories hotel)).
  { unfold changed. simpl. apply changeCategoryByName_butStatuses.
    intros c. unfold categoryButStatuses. simpl.
    rewrite setStatuses_butStatus. reflexivity. }
  exists hotel, (preSave changed).
  split; [apply find_some in Hf; tauto|].
  split; [reflexivity|].
  split; [reflexivity|]. split; [reflexivity|]. split; [reflexivity|].
  split; [reflexivity|].
  split; [exact Hsame|].
  split.
  - simpl. rewrite calculatedTotalRooms_counts.
    unfold countRooms, allRooms. f_equal.
    apply butStatuses_same_count. exact Hsame.
  - intros r Hr. unfold allRooms in Hr. simpl in Hr.
    apply in_flat_map in Hr. destruct Hr as (c & Hc & Hr).
    unfold validHotel in Hvalid. apply andb_true_iff in Hvalid.
    destruct Hvalid as [_ Hcats].
    rewrite forallb_forall in Hcats. specialize (Hcats c Hc).
    unfold validCategory in Hcats. apply andb_true_iff in Hcats.
    destruct Hcats as [_ Hrooms].
    rewrite forallb_forall in Hrooms. specialize (Hrooms r Hr).
    unfold validRoom in Hrooms. apply andb_true_iff in Hrooms. tauto.
Qed.

Variable isValidObjectId : string -> bool.

Lemma removeWhere_split :
  forall (p : Hotel -> bool) db h,
    find p db = Some h ->
    exists before after,
      db = (before ++ h :: after)%list
      /\ removeWhere p db = (before ++ after)%list.
Proof.
  intros p db h. induction db as [|x rest IH]; simpl; intros H.
  - discriminate.
  - destruct (p x) eqn:Hx.
    + inversion H; subst x. exists [], rest. split; reflexivity.
    + destruct (IH H) as (before & after & Hdb & Hrm).
      exists (x :: before), after. simpl. rewrite <- Hdb, Hrm.
      split; reflexivity.
Qed.

Lemma find_after_removeWhere :
  forall (A : Type) (key : Hotel -> A) (k : A) (p : Hotel -> bool) db,
    (forall x, p x = true -> key x = k) ->
    NoDup (map key db) ->
    find p (removeWhere p db) = None.
Proof.
  intros A key k p db Hp. induction db as [|x rest IH]; simpl; intros Hnd.
  - reflexivity.
  - inversion Hnd as [|? ? Hx Hrest]; subst.
    destruct (p x) eqn:Hpx.
    + destruct (find p rest) as [y|] eqn:Hy; [|reflexivity].
      exfalso. apply find_some in Hy. destruct Hy as [Hin Hpy].
      apply Hx. rewrite (Hp x Hpx), <- (Hp y Hpy).
      apply in_map. assumption.
    + simpl. rewrite Hpx. apply IH. assumption.
Qed.

(** X23.  [deleteHotel] answers 200 exactly when it takes the hotel
    [getHotelById] finds out of the collection, the hotels around it
    staying in their order; the hotel is then no longer found (the
    identifiers and the hotel numbers of the collection being distinct),
    and any other answer leaves the collection as it was. *)
Theorem deleteHotel_removes_one_hotel :
  forall db id resp db',
    deleteHotel isValidObjectId db id = (resp, db') ->
    (statusCode resp = 200 ->
     exists before hotel after,
       getHotelById isValidObjectId db id = inl hotel
       /\ db = (before ++ hotel :: after)%list
       /\ db' = (before ++ after)%list
       /\ (NoDup (map hotel_id db) -> NoDup (map hotelID db) ->
           getHotelById isValidObjectId db' id
           = inr (Sent 404 "Hotel not found")))
    /\ (statusCode resp <> 200 -> db' = db).
Proof.
  intros db id resp db' H.
  assert (Hgen : forall (A : Type) (key : Hotel -> A) (k : A) p,
             (forall x, p x = true -> key x = k) ->
             deleteWhere p db = (resp, db') ->
             (statusCode resp = 200 ->
              exists before hotel after,
                find p db = Some hotel
                /\ db = (before ++ hotel :: after)%list
                /\ db' = (before ++ after)%list
                /\ (NoDup (map key db) -> find p db' = None))
             /\ (statusCode resp <> 200 -> db' = db)).
  { intros A key k p Hp Hd. unfold deleteWhere in Hd.
    destruct (find p db) as [hotel|] eqn:Hf; inversion Hd; subst; clear Hd.
    - split; [|intros Hno; exfalso; apply Hno; reflexivity].
      intros _. destruct (removeWhere_split p db hotel Hf)
        as (before & after & Hdb & Hrm).
      exists before, hotel, after.
      split; [reflexivity|]. split; [exact Hdb|]. split; [exact Hrm|].
      intros Hnd. apply (find_after_removeWhere A key k); assumption.
    - split; [discriminate | reflexivity]. }
  unfold deleteHotel in H. unfold getHotelById, findHotel.
  destruct (isValidObjectId id).
  - destruct (Hgen string hotel_id id _
                (fun x Hx => proj1 (String.eqb_eq _ _) Hx) H) as [Hok Hno].
    split; [|exact Hno].
    intros Hcode. destruct (Hok Hcode) as (before & hotel & after & Hf & Hdb
                                           & Hdb' & Hgone).
    exists before, hotel, after. rewrite Hf.
    split; [reflexivity|]. split; [exact Hdb|]. split; [exact Hdb'|].
    intros Hids _. rewrite (Hgone Hids). reflexivity.
  - destruct (parseIntNoRadix id) as [n|].
    + destruct (Hgen Z hotelID n _
                  (fun x Hx => proj1 (Z.eqb_eq _ _) Hx) H) as [Hok Hno].
      split; [|exact Hno].
      intros Hcode. destruct (Hok Hcode) as (before & hotel & after & Hf & Hdb
                                             & Hdb' & Hgone).
      exists before, hotel, after. rewrite Hf.
      split; [reflexivity|]. split; [exact Hdb|]. split; [exact Hdb'|].
      intros _ Hnos. rewrite (Hgone Hnos). reflexivity.
    + inversion H; subst. split; [discriminate | reflexivity].
Qed.

End InventoryStatuses.

(* ===================================================================== *)
(** ** The further properties on hotel Grand *)
(* ===================================================================== *)

Section InventoryWritesOnGrand.

Import JS Inventory InventorySpec InventoryOps InventoryProps.

Lemma getNextHotelID_is_unused_witness :
  hotelID Grand.hotel < getNextHotelID Grand.db.
Proof.
  apply (getNextHotelID_is_unused Grand.db Grand.hotel).
  left. reflexivity.
Defined.

Lemma route_failure_leaves_collection_witness :
  statusCode
    (fst (route Grand.isValidObjectId true
            (AddCategory "1" "c3" Grand.noFiles (Grand.rename "Deluxe"))
            Grand.db)) = 409
  /\ snd (route Grand.isValidObjectId true
            (AddCategory "1" "c3" Grand.noFiles (Grand.rename "Deluxe"))
            Grand.db) = Grand.db.
Proof.
  split; [reflexivity|].
  apply (route_failure_leaves_collection Grand.isValidObjectId true
           (AddCategory "1" "c3" Grand.noFiles (Grand.rename "Deluxe"))
           Grand.db
           (snd (route Grand.isValidObjectId true
                   (AddCategory "1" "c3" Grand.noFiles (Grand.rename "Deluxe"))
                   Grand.db))
           (fst (route Grand.isValidObjectId true
                   (AddCategory "1" "c3" Grand.noFiles (Grand.rename "Deluxe"))
                   Grand.db))
           (surjective_pairing _)).
  - intros E. vm_compute in E. discriminate E.
  - intros E. vm_compute in E. discriminate E.
Defined.

Lemma addCategory_keeps_names_distinct_witness :
  exists c,
    category_name c <> ""
    /\ ~ In (category_name c) (map category_name (roomCategories Grand.hotel))
    /\ getCategories Grand.isValidObjectId
         (snd (addCategory Grand.isValidObjectId Grand.db "1" "c3"
                 Grand.noFiles (Grand.rename "Family"))) "1"
       = inl {| co_hotelID := 1;
                co_hotelName := "Grand";
                categories := [Grand.deluxe; Grand.suite; c] |}.
Proof.
  destruct (addCategory_keeps_names_distinct Grand.isValidObjectId
              Grand.db "1" "c3" Grand.noFiles (Grand.rename "Family")
              (fst (addCategory Grand.isValidObjectId Grand.db "1" "c3"
                      Grand.noFiles (Grand.rename "Family")))
              (snd (addCategory Grand.isValidObjectId Grand.db "1" "c3"
                      Grand.noFiles (Grand.rename "Family")))
              (surjective_pairing _) eq_refl)
    as (hotel & c & Hf & _ & _ & _ & Hne & Hfresh & _ & Hget).
  vm_compute in Hf. injection Hf as Hf. subst hotel.
  exists c. split; [exact Hne|]. split; [exact Hfresh|]. exact Hget.
Defined.

Lemma addRoom_adds_one_room_witness :
  exists stored,
    snd (addRoom Grand.isValidObjectId Grand.db "1" "c1" "r9" Grand.noFiles
           (Grand.renameRoom "103"))
    = replaceHotel stored Grand.db
    /\ totalRooms stored = 4.
Proof.
  destruct (addRoom_adds_one_room Grand.isValidObjectId
              Grand.db "1" "c1" "r9" Grand.noFiles (Grand.renameRoom "103")
              (fst (addRoom Grand.isValidObjectId Grand.db "1" "c1" "r9"
                      Grand.noFiles (Grand.renameRoom "103")))
              (snd (addRoom Grand.isValidObjectId Grand.db "1" "c1" "r9"
                      Grand.noFiles (Grand.renameRoom "103")))
              (surjective_pairing _) eq_refl)
    as (hotel & category & room & stored & Hf & _ & Hdb & _ & _ & _ & _ & _
        & Ht & _).
  vm_compute in Hf. injection Hf as Hf. subst hotel.
  exists stored. split; [exact Hdb|]. rewrite Ht. reflexivity.
Defined.

Lemma deleteRoom_removes_one_room_witness :
  deleteRoom Grand.isValidObjectId false Grand.db "1" "c1" "r1"
  = (Sent 500 "Failed to delete room", Grand.db)
  /\ exists stored,
      snd (deleteRoom Grand.isValidObjectId true Grand.db "1" "c1" "r1")
      = replaceHotel stored Grand.db
      /\ totalRooms stored = 2.
Proof.
  split.
  - destruct (deleteRoom_removes_one_room Grand.isValidObjectId false
                Grand.db "1" "c1" "r1"
                (fst (deleteRoom Grand.isValidObjectId false Grand.db
                        "1" "c1" "r1"))
                (snd (deleteRoom Grand.isValidObjectId false Grand.db
                        "1" "c1" "r1"))
                (surjective_pairing _)) as [Hno _].
    destruct (Hno eq_refl) as (Hdb & _ & Hresp).
    rewrite (surjective_pairing (deleteRoom _ _ _ _ _ _)), Hdb.
    rewrite (Hresp Grand.hotel Grand.deluxe (Grand.room "r1" "101")
               eq_refl eq_refl eq_refl).
    reflexivity.
  - destruct (deleteRoom_removes_one_room Grand.isValidObjectId true
                Grand.db "1" "c1" "r1"
                (fst (deleteRoom Grand.isValidObjectId true Grand.db
                        "1" "c1" "r1"))
                (snd (deleteRoom Grand.isValidObjectId true Grand.db
                        "1" "c1" "r1"))
                (surjective_pairing _)) as [_ Hok].
    destruct (Hok eq_refl)
      as (_ & hotel & category & room & before & after & stored & Hf & _ & _
          & _ & Hdb & _ & Ht & _).
    vm_compute in Hf. injection Hf as Hf. subst hotel.
    exists stored. split; [exact Hdb|]. rewrite Ht. reflexivity.
Defined.

Lemma deleteCategory_removes_its_rooms_witness :
  deleteCategory Grand.isValidObjectId false Grand.db "1" "c1"
  = (Sent 500 "Failed to delete category", Grand.db)
  /\ exists stored,
      snd (deleteCategory Grand.isValidObjectId true Grand.db "1" "c1")
      = replaceHotel stored Grand.db
      /\ totalRooms stored = 1.
Proof.
  split.
  - destruct (deleteCategory_removes_its_rooms Grand.isValidObjectId false
                Grand.db "1" "c1"
                (fst (deleteCategory Grand.isValidObjectId false Grand.db
                        "1" "c1"))
                (snd (deleteCategory Grand.isValidObjectId false Grand.db
                        "1" "c1"))
                (surjective_pairing _)) as [Hno _].
    destruct (Hno eq_refl) as (Hdb & _ & Hresp).
    rewrite (surjective_pairing (deleteCategory _ _ _ _ _)), Hdb.
    rewrite (Hresp Grand.hotel Grand.deluxe eq_refl eq_refl).
    reflexivity.
  - destruct (deleteCategory_removes_its_rooms Grand.isValidObjectId true
                Grand.db "1" "c1"
                (fst (deleteCategory Grand.isValidObjectId true Grand.db
                        "1" "c1"))
                (snd (deleteCategory Grand.isValidObjectId true Grand.db
                        "1" "c1"))
                (surjective_pairing _)) as [_ Hok].
    destruct (Hok eq_refl)
      as (_ & hotel & category & before & after & stored & Hf & Hc & _ & Hdb
          & _ & Ht & _).
    vm_compute in Hf. injection Hf as Hf. subst hotel.
    vm_compute in Hc. injection Hc as Hc. subst category.
    exists stored. split; [exact Hdb|]. rewrite Ht. reflexivity.
Defined.

Lemma updateRoomStatus_changes_statuses_only_witness :
  exists stored,
    snd (updateRoomStatus Grand.db "1" "Deluxe" (Some [("101", "occupied")]))
    = replaceHotel stored Grand.db
    /\ totalRooms stored = 3.
Proof.
  destruct (updateRoomStatus_changes_statuses_only
              Grand.db "1" "Deluxe" (Some [("101", "occupied")])
              (fst (updateRoomStatus Grand.db "1" "Deluxe"
                      (Some [("101", "occupied")])))
              (snd (updateRoomStatus Grand.db "1" "Deluxe"
                      (Some [("101", "occupied")])))
              (surjective_pairing _) eq_refl)
    as (hotel & stored & Hin & Hdb & _ & _ & _ & _ & _ & Ht & _).
  destruct Hin as [Hin | []]. subst hotel.
  exists stored. split; [exact Hdb|]. rewrite Ht. reflexivity.
Defined.

Lemma deleteHotel_removes_one_hotel_witness :
  exists before hotel after,
    Grand.db = (before ++ hotel :: after)%list
    /\ snd (deleteHotel Grand.isValidObjectId Grand.db "1")
       = (before ++ after)%list.
Proof.
  destruct (proj1 (deleteHotel_removes_one_hotel Grand.isValidObjectId
                     Grand.db "1"
                     (fst (deleteHotel Grand.isValidObjectId Grand.db "1"))
                     (snd (deleteHotel Grand.isValidObjectId Grand.db "1"))
                     (surjective_pairing _)) eq_refl)
    as (before & hotel & after & _ & Hdb & Hdb' & _).
  exists before, hotel, after. split; assumption.
Defined.

End InventoryWritesOnGrand.

(* ===================================================================== *)
(** ** Properties of the upload middleware *)
(* ===================================================================== *)

Section ImageUrls.

Import JS Upload UploadProps.

Lemma prefix_shorter :
  forall a b s, String.prefix (a ++ b) s = true -> String.prefix a s = true.
Proof.
  induction a as [|c a IH]; intros b s H.
  - destruct s; reflexivity.
  - destruct s as [|c' s]; simpl in *; [discriminate|].
    destruct (ascii_dec c c'); [|discriminate].
    apply IH with (b := b). assumption.
Qed.

Lemma substringFrom_prefix :
  forall p m s,
    substring m (String.length p) s = p ->
    String.prefix p (substringFrom m s) = true.
Proof.
  intros p m. unfold substringFrom.
  induction m as [|m IH]; intros s H.
  - rewrite Nat.sub_0_r, substring_full.
    apply prefix_correct. assumption.
  - destruct s as [|c s]; simpl in *.
    + subst p. reflexivity.
    + apply IH. assumption.
Qed.

Lemma findUploads_skipn :
  forall parts i,
    findUploads parts = Some i ->
    exists rest, skipn i parts = "uploads" :: rest.
Proof.
  induction parts as [|p parts IH]; intros i H; simpl in H.
  - discriminate.
  - destruct (String.eqb p "uploads") eqn:Hp.
    + inversion H; subst i. apply String.eqb_eq in Hp. subst p.
      exists parts. reflexivity.
    + destruct (findUploads parts) as [j|]; [|discriminate].
      inversion H; subst i. simpl. apply IH. reflexivity.
Qed.

Lemma joinSlash_cons :
  forall p rest, exists tail, joinSlash (p :: rest) = p ++ tail.
Proof.
  intros p rest. destruct rest as [|q rest].
  - exists "". simpl. clear. induction p as [|c p IH]; simpl;
      [reflexivity | now rewrite <- IH].
  - eexists. reflexivity.
Qed.

Lemma backslashFree_slashes :
  forall s, backslashFree (slashes s) = true.
Proof.
  induction s as [|c s IH]; simpl; [reflexivity|].
  rewrite IH, andb_true_r.
  destruct (Ascii.eqb c "\"%char) eqn:Hc; [reflexivity|].
  rewrite Hc. reflexivity.
Qed.

Lemma backslashFree_append :
  forall a b,
    backslashFree (a ++ b) = backslashFree a && backslashFree b.
Proof.
  induction a as [|c a IH]; intros b; simpl; [reflexivity|].
  rewrite IH, andb_assoc. reflexivity.
Qed.

Lemma backslashFree_substring :
  forall s m n,
    backslashFree s = true -> backslashFree (substring m n s) = true.
Proof.
  induction s as [|c s IH]; intros m n H; simpl in *.
  - destruct m; destruct n; reflexivity.
  - apply andb_true_iff in H. destruct H as [Hc Hs].
    destruct m as [|m].
    + destruct n as [|n]; simpl; [reflexivity|].
      rewrite Hc. simpl. apply IH. assumption.
    + apply IH. assumption.
Qed.

Lemma backslashFree_splitSlash :
  forall s cur,
    backslashFree s = true -> backslashFree cur = true ->
    Forall (fun part => backslashFree part = true) (splitSlash s cur).
Proof.
  induction s as [|c s IH]; intros cur Hs Hcur; simpl in *.
  - constructor; [assumption | constructor].
  - apply andb_true_iff in Hs. destruct Hs as [Hc Hs].
    destruct (Ascii.eqb c "/"%char).
    + constructor; [assumption|]. apply IH; [assumption | reflexivity].
    + apply IH; [assumption|].
      rewrite backslashFree_append, Hcur. simpl. rewrite Hc. reflexivity.
Qed.

Lemma backslashFree_joinSlash :
  forall parts,
    Forall (fun part => backslashFree part = true) parts ->
    backslashFree (joinSlash parts) = true.
Proof.
  induction parts as [|p parts IH]; intros H.
  - reflexivity.
  - inversion H as [|? ? Hp Hrest]; subst.
    destruct parts as [|q parts]; [exact Hp|].
    change (joinSlash (p :: q :: parts))
      with (p ++ "/" ++ joinSlash (q :: parts)).
    rewrite !backslashFree_append, Hp, (IH Hrest). reflexivity.
Qed.

Lemma Forall_skipn :
  forall (A : Type) (P : A -> Prop) n l, Forall P l -> Forall P (skipn n l).
Proof.
  intros A P. induction n as [|n IH]; intros l H; simpl.
  - assumption.
  - destruct l as [|x l]; [constructor|].
    inversion H; subst. apply IH. assumption.
Qed.

(** The path part of an image URL begins with [uploads] and holds no
    backslash, wherever the file was stored. *)
Lemma imageUrl_under_uploads :
  forall base path,
    exists relativePath,
      imageUrl base path = base ++ "/" ++ relativePath
      /\ startsWith "uploads" relativePath = true
      /\ backslashFree relativePath = true.
Proof.
  intros base path. unfold imageUrl. cbv zeta.
  pose proof (backslashFree_slashes path) as Hfree.
  destruct (startsWith "uploads/" (slashes path)) eqn:Hstart.
  - eexists. split; [reflexivity|]. split; [|exact Hfree].
    apply (prefix_shorter "uploads" "/"). exact Hstart.
  - destruct (index 0 "uploads/" (slashes path)) as [i|] eqn:Hindex.
    + eexists. split; [reflexivity|]. split.
      * apply (prefix_shorter "uploads" "/").
        apply substringFrom_prefix.
        apply (index_correct1 _ _ _ _ Hindex).
      * unfold substringFrom. apply backslashFree_substring. exact Hfree.
    + destruct (findUploads (splitSlash (slashes path) "")) as [i|] eqn:Hparts.
      * eexists. split; [reflexivity|].
        destruct (findUploads_skipn _ _ Hparts) as (rest & Hskip).
        split.
        -- rewrite Hskip.
           destruct (joinSlash_cons "uploads" rest) as (tail & Htail).
           rewrite Htail. apply startsWith_append.
        -- apply backslashFree_joinSlash. apply Forall_skipn.
           apply backslashFree_splitSlash; [exact Hfree | reflexivity].
      * eexists. split; [reflexivity|]. split; [reflexivity|].
        rewrite backslashFree_append. simpl. exact Hfree.
Qed.

Lemma baseOf_nonempty :
  forall envBaseUrl, baseOf envBaseUrl <> "".
Proof.
  intros [b|]; unfold baseOf; simpl.
  - destruct b; simpl; discriminate.
  - discriminate.
Qed.

(** X24.  [getImageUrls] returns one URL for each uploaded file, in the order
    of the files: a base that is not empty (the [BASE_URL] of the
    environment unless that is unset or empty), a slash, and a path that
    begins with [uploads] and holds no backslash. *)
Theorem getImageUrls_under_uploads :
  forall envBaseUrl files,
    exists relativePaths,
      getImageUrls envBaseUrl files
      = map (fun relativePath => baseOf envBaseUrl ++ "/" ++ relativePath)
            relativePaths
      /\ List.length relativePaths = List.length files
      /\ baseOf envBaseUrl <> ""
      /\ Forall (fun relativePath =>
                   startsWith "uploads" relativePath = true
                   /\ backslashFree relativePath = true)
                relativePaths.
Proof.
  intros envBaseUrl files.
  assert (Hmap : getImageUrls envBaseUrl files
                 = map (imageUrl (baseOf envBaseUrl)) files)
    by (destruct files; reflexivity).
  rewrite Hmap. clear Hmap.
  induction files as [|path files IH].
  - exists []. repeat split; [apply baseOf_nonempty | constructor].
  - destruct IH as (rels & Hrels & Hlen & Hbase & Hall).
    destruct (imageUrl_under_uploads (baseOf envBaseUrl) path)
      as (rel & Hrel & Hup & Hfree).
    exists (rel :: rels). simpl. rewrite Hrel, Hrels, Hlen.
    repeat split; [assumption|]. constructor; [split; assumption | assumption].
Qed.

End ImageUrls.

(* ===================================================================== *)
(** ** Further properties of the order-number hook *)
(* ===================================================================== *)

Section OrderNumbersByOffset.

Import JS Orders.

Lemma day_before :
  forall x, (x - msPerDay) / msPerDay = x / msPerDay - 1.
Proof.
  intros x. unfold msPerDay.
  pose proof (Z.div_mod x 86400000 ltac:(lia)) as Hx.
  pose proof (Z.mod_pos_bound x 86400000 ltac:(lia)) as Hr.
  symmetry. apply Z.div_unique with (r := x mod 86400000); lia.
Qed.

(** X25.  The date in a number of the primary path, for every offset of the
    process from UTC of less than a day: it is the date the wall clock of
    the process shows where the process is not east of UTC, and the date
    it showed a day earlier where the process is east of UTC. *)
Theorem order_number_date_by_offset :
  forall clock orders this,
    truthy_opt (orderNumber this) = false ->
    - 1440 < utcOffsetMinutes clock < 1440 ->
    let wallClock := nowInTry clock + utcOffsetMinutes clock * msPerMinute in
    let today := setHoursZero (utcOffsetMinutes clock) (nowInTry clock) in
    orderNumber (preSave clock orders false this)
    = Some ("ORD-"
            ++ dateStr (if 0 <? utcOffsetMinutes clock
                        then wallClock - msPerDay
                        else wallClock)
            ++ "-"
            ++ padStart0 4
                 (Number_toString
                    (countDocuments orders today (today + msPerDay) + 1))).
Proof.
  intros clock orders this Hn Hoff wallClock today.
  rewrite (preSave_number clock orders false this Hn).
  cbv zeta. fold today. do 3 f_equal.
  rewrite !dateStr_of_day. do 4 f_equal.
  unfold today, wallClock.
  destruct (0 <? utcOffsetMinutes clock) eqn:Heast.
  - apply Z.ltb_lt in Heast.
    rewrite setHoursZero_day_east by lia.
    rewrite day_before. reflexivity.
  - apply Z.ltb_ge in Heast.
    rewrite setHoursZero_day by lia. reflexivity.
Qed.

Lemma order_number_date_by_offset_witness :
  orderNumber (preSave Restaurant.dhaka Restaurant.orders false
                 Restaurant.newOrder)
  = Some ("ORD-"
          ++ dateStr (nowInTry Restaurant.dhaka + 360 * msPerMinute - msPerDay)
          ++ "-0005").
Proof.
  rewrite (order_number_date_by_offset Restaurant.dhaka Restaurant.orders
             Restaurant.newOrder eq_refl
             ltac:(unfold Restaurant.dhaka; simpl; lia)).
  reflexivity.
Defined.

Lemma same_day_window :
  forall offset now created,
    let today := setHoursZero offset now in
    (today <=? created) && (created <? today + msPerDay)
    = ((created + offset * msPerMinute) / msPerDay
       =? (now + offset * msPerMinute) / msPerDay).
Proof.
  intros offset now created today. unfold today, setHoursZero.
  cbv zeta. unfold msPerDay, msPerMinute.
  set (q := (now + offset * 60000) / 86400000).
  pose proof (Z.div_mod (created + offset * 60000) 86400000 ltac:(lia)) as Hc.
  pose proof (Z.mod_pos_bound (created + offset * 60000) 86400000 ltac:(lia))
    as Hr.
  destruct (Z.eqb_spec ((created + offset * 60000) / 86400000) q) as [He | He].
  - apply andb_true_iff. split; [apply Z.leb_le | apply Z.ltb_lt]; lia.
  - apply andb_false_iff.
    destruct (Z.leb_spec (q * 86400000 - offset * 60000) created) as [Hle | Hgt];
      [|left; reflexivity].
    right. apply Z.ltb_ge. lia.
Qed.

(** X26.  The sequence part of an order number counts the orders created on the
    day the wall clock of the process shows, whatever the offset of the
    process from UTC: the window of the count query is that day. *)
Theorem order_sequence_counts_the_local_day :
  forall offset now orders,
    let today := setHoursZero offset now in
    countDocuments orders today (today + msPerDay)
    = Z.of_nat
        (List.length
           (filter (fun o =>
                      (createdAt o + offset * msPerMinute) / msPerDay
                      =? (now + offset * msPerMinute) / msPerDay)
                   orders)).
Proof.
  intros offset now orders today. unfold countDocuments. do 2 f_equal.
  apply filter_ext. intros o. apply same_day_window.
Qed.

End OrderNumbersByOffset.

(* ===================================================================== *)
(** ** Properties of the order controller: what an order is billed *)
(* ===================================================================== *)

Section OrderDeskFacts.

Import JS Orders OrderDesk OrderDeskProps.

Variable isValid : string -> bool.
Variable hexString : string -> string.

Lemma In_uniqueStrings :
  forall l x, In x (uniqueStrings l) <-> In x l.
Proof.
  induction l as [|y l IH]; intros x; simpl.
  - tauto.
  - rewrite filter_In, IH. split.
    + intros [H | [H _]]; [left | right]; assumption.
    + intros [H | H]; [left; assumption|].
      destruct (String.eqb x y) eqn:Hxy.
      * left. apply String.eqb_eq in Hxy. congruence.
      * right. split; [assumption | reflexivity].
Qed.

Lemma NoDup_filter :
  forall (A : Type) (p : A -> bool) (l : list A),
    NoDup l -> NoDup (filter p l).
Proof.
  intros A p l H. induction H as [|x l Hx Hl IH]; simpl.
  - constructor.
  - destruct (p x); [|assumption].
    constructor; [|assumption].
    intros Hin. apply filter_In in Hin. tauto.
Qed.

Lemma NoDup_uniqueStrings :
  forall l, NoDup (uniqueStrings l).
Proof.
  induction l as [|y l IH]; simpl.
  - constructor.
  - constructor.
    + intros Hin. apply filter_In in Hin. destruct Hin as [_ Hne].
      rewrite String.eqb_refl in Hne. discriminate.
    + apply NoDup_filter. assumption.
Qed.

Lemma NoDup_menuFind :
  forall menu ids,
    NoDup (map menu_id menu) -> NoDup (map menu_id (menuFind menu ids)).
Proof.
  intros menu ids. unfold menuFind.
  induction menu as [|m menu IH]; simpl; intros H.
  - constructor.
  - inversion H as [|? ? Hm Hrest]; subst.
    destruct (existsb (String.eqb (menu_id m)) ids); simpl.
    + constructor; [|apply IH; assumption].
      intros Hin. apply Hm. apply in_map_iff in Hin.
      destruct Hin as (x & Hx & Hin). apply filter_In in Hin.
      apply in_map_iff. exists x. tauto.
    + apply IH. assumption.
Qed.

Lemma In_menuFind :
  forall menu ids id,
    In id (map menu_id (menuFind menu ids))
    <-> In id (map menu_id menu) /\ In id ids.
Proof.
  intros menu ids id. unfold menuFind. rewrite !in_map_iff. split.
  - intros (m & Hm & Hin). apply filter_In in Hin. destruct Hin as [Hin Hex].
    split; [exists m; tauto|].
    apply existsb_exists in Hex. destruct Hex as (y & Hy & Heq).
    apply String.eqb_eq in Heq. congruence.
  - intros [(m & Hm & Hin) Hids]. exists m. split; [assumption|].
    apply filter_In. split; [assumption|].
    apply existsb_exists. exists id. split; [assumption|].
    rewrite Hm. apply String.eqb_refl.
Qed.

(** The menu holds every identifier asked for exactly when the query
    finds as many items as identifiers were asked for. *)
Lemma menuFind_all_found :
  forall menu ids,
    NoDup (map menu_id menu) -> NoDup ids ->
    (List.length (menuFind menu ids) = List.length ids
     <-> forall id, In id ids -> In id (map menu_id menu)).
Proof.
  intros menu ids Hmenu Hids.
  pose proof (NoDup_menuFind menu ids Hmenu) as Hfound.
  assert (Hincl : incl (map menu_id (menuFind menu ids)) ids).
  { intros id Hin. apply In_menuFind in Hin. tauto. }
  split.
  - intros Hlen id Hin.
    assert (Hback : incl ids (map menu_id (menuFind menu ids))).
    { apply NoDup_length_incl; [assumption | | assumption].
      rewrite length_map, Hlen. apply Nat.le_refl. }
    apply Hback in Hin. apply In_menuFind in Hin. tauto.
  - intros Hall. apply Nat.le_antisymm.
    + rewrite <- (length_map menu_id).
      apply NoDup_incl_length; assumption.
    + rewrite <- (length_map menu_id (menuFind menu ids)).
      apply NoDup_incl_length; [assumption|].
      intros id Hin. apply In_menuFind. split; [apply Hall|]; assumption.
Qed.

Lemma itemCounts_nonneg :
  forall items key, 0 <= itemCounts items key.
Proof.
  intros items. induction items as [|i items IH]; intros key; simpl.
  - lia.
  - specialize (IH key). destruct (String.eqb i key); lia.
Qed.

Lemma itemCounts_In :
  forall items key, In key items <-> 0 < itemCounts items key.
Proof.
  intros items. induction items as [|i items IH]; intros key; simpl.
  - split; [contradiction | lia].
  - pose proof (itemCounts_nonneg items key) as Hge.
    destruct (String.eqb i key) eqn:Hik.
    + apply String.eqb_eq in Hik. split; [lia | tauto].
    + apply String.eqb_neq in Hik. rewrite IH. split.
      * intros [H | H]; [contradiction | lia].
      * intros H. right. lia.
Qed.

Lemma existsb_uniqueStrings :
  forall items key,
    existsb (String.eqb key) (uniqueStrings items)
    = existsb (String.eqb key) items.
Proof.
  intros items key.
  destruct (existsb (String.eqb key) items) eqn:Hex.
  - apply existsb_exists in Hex. destruct Hex as (y & Hy & Heq).
    apply existsb_exists. exists y. split; [|assumption].
    apply (proj2 (In_uniqueStrings _ _)). assumption.
  - destruct (existsb (String.eqb key) (uniqueStrings items)) eqn:Hu;
      [|reflexivity].
    apply existsb_exists in Hu. destruct Hu as (y & Hy & Heq).
    apply (proj1 (In_uniqueStrings _ _)) in Hy.
    assert (Hyes : existsb (String.eqb key) items = true)
      by (apply existsb_exists; exists y; split; assumption).
    congruence.
Qed.

(** The [reduce] over the items found is the bill along the menu: every
    item found was ordered, so the count the loop kept for it is not
    zero. *)
Lemma calculatedSubtotal_along_menu :
  forall menu items,
    calculatedSubtotal (menuFind menu (uniqueStrings items)) items
    = billAlongMenu menu items.
Proof.
  intros menu items. unfold calculatedSubtotal, billAlongMenu, menuFind.
  cbv zeta. generalize 0.
  induction menu as [|m menu IH]; intros acc; simpl; [reflexivity|].
  rewrite existsb_uniqueStrings.
  destruct (existsb (String.eqb (menu_id m)) items) eqn:Hex; [|apply IH].
  simpl. rewrite <- IH. f_equal.
  apply existsb_exists in Hex. destruct Hex as (y & Hy & Heq).
  apply String.eqb_eq in Heq. subst y.
  apply (proj1 (itemCounts_In _ _)) in Hy.
  unfold truthy_number.
  destruct (itemCounts items (menu_id m) =? 0) eqn:Hz; simpl; [|reflexivity].
  apply Z.eqb_eq in Hz. lia.
Qed.

Lemma truthy_orZero :
  forall o, (if truthy_opt_number o then orZero o else 0) = orZero o.
Proof.
  intros [z|]; simpl; [|reflexivity].
  unfold truthy_number. destruct (z =? 0) eqn:Hz; simpl; [|reflexivity].
  apply Z.eqb_eq in Hz. congruence.
Qed.

(** What a 201 of [createOrder] went through. *)
Lemma createOrder_created_inv :
  forall clock countFails createdAtNow menu orders body order orders',
    createOrder isValid hexString clock countFails createdAtNow menu orders
                body
    = (Created201 order, orders') ->
    exists items calculated,
      OrderDesk.items body = Some items
      /\ items <> []
      /\ match subtotal body with
         | Some _ => calculated = 0
         | None =>
             List.length (menuFind menu (uniqueStrings (map hexString items)))
             = List.length (uniqueStrings (map hexString items))
             /\ calculated
                = calculatedSubtotal
                    (menuFind menu (uniqueStrings (map hexString items))) items
         end
      /\ ov_items order = map hexString items
      /\ ov_subtotal order
         = match subtotal body with Some s => s | None => calculated end
      /\ ov_tax order = orZero (tax body)
      /\ ov_discount order = orZero (discount body)
      /\ ov_total order = ov_subtotal order + ov_tax order - ov_discount order
      /\ 0 <= ov_subtotal order
      /\ 0 <= ov_tax order
      /\ 0 <= ov_discount order
      /\ 0 <= ov_total order
      /\ orders'
         = (orders
            ++ [preSave clock orders countFails
                  {| orderNumber := None; createdAt := createdAtNow |}])%list
      /\ ov_orderNumber order
         = orderNumber
             (preSave clock orders countFails
                {| orderNumber := None; createdAt := createdAtNow |})
      /\ ov_createdAt order
         = createdAt
             (preSave clock orders countFails
                {| orderNumber := None; createdAt := createdAtNow |})
      /\ existsb
           (sameOrderNumber
              (preSave clock orders countFails
                 {| orderNumber := None; createdAt := createdAtNow |}))
           orders = false.
Proof.
  intros clock countFails createdAtNow menu orders body order orders' H.
  unfold createOrder in H. cbv zeta in H.
  destruct (negb (truthy_opt (customerName body))); [discriminate|].
  destruct (OrderDesk.items body) as [[|i items]|] eqn:Hitems;
    try discriminate.
  destruct (invalidItem isValid (i :: items)); [discriminate|].
  set (ids := map hexString (i :: items)) in *.
  assert (Hcalc :
            exists calculated,
              match subtotal body with
              | Some _ => Some 0
              | None =>
                  if negb (List.length (menuFind menu (uniqueStrings ids))
                           =? List.length (uniqueStrings ids))%nat
                  then None
                  else Some (calculatedSubtotal
                               (menuFind menu (uniqueStrings ids)) (i :: items))
              end = Some calculated
              /\ match subtotal body with
                 | Some _ => calculated = 0
                 | None =>
                     List.length (menuFind menu (uniqueStrings ids))
                     = List.length (uniqueStrings ids)
                     /\ calculated
                        = calculatedSubtotal
                            (menuFind menu (uniqueStrings ids)) (i :: items)
                 end).
  { destruct (subtotal body) as [s|].
    - exists 0. split; reflexivity.
    - destruct (List.length (menuFind menu (uniqueStrings ids))
                =? List.length (uniqueStrings ids))%nat eqn:Hlen; simpl in *.
      + eexists. split; [reflexivity|].
        apply Nat.eqb_eq in Hlen. split; [assumption | reflexivity].
      + discriminate. }
  destruct Hcalc as (calculated & Hsome & Hcalc).
  rewrite Hsome in H.
  destruct (_ <? 0) eqn:Hneg; [discriminate|].
  destruct (negb _) eqn:Hvalid; [discriminate|].
  destruct (existsb _ orders) eqn:Hclash; [discriminate|].
  inversion H; subst order orders'. clear H. simpl.
  apply negb_false_iff in Hvalid.
  repeat (apply andb_true_iff in Hvalid; destruct Hvalid as [Hvalid ?]).
  repeat match goal with
         | Hle : (0 <=? _) = true |- _ => apply Z.leb_le in Hle
         end.
  exists (i :: items), calculated.
  split; [reflexivity|]. split; [discriminate|]. split; [exact Hcalc|].
  split; [reflexivity|]. split; [reflexivity|].
  split; [apply truthy_orZero|]. split; [apply truthy_orZero|].
  split; [reflexivity|].
  split; [assumption|]. split; [assumption|]. split; [assumption|].
  split; [assumption|]. split; [reflexivity|]. split; [reflexivity|].
  split; reflexivity.
Qed.

(** X27.  An order that is created is billed the sum of subtotal and tax less
    the discount, none of the four amounts negative; tax and discount are
    those of the request, zero when it gives none; the subtotal is the
    one the request gives, and when the request gives none it is the bill
    taken along the menu: the price of each menu item that was ordered
    times the number of times it was ordered, added up in the order of
    the menu, every ordered item being on the menu.  The last part is for
    a menu whose identifiers are distinct and for items named by the
    string of their ObjectId. *)
Theorem createOrder_bills_the_items :
  forall clock countFails createdAtNow menu orders body order orders',
    createOrder isValid hexString clock countFails createdAtNow menu orders
                body
    = (Created201 order, orders') ->
    exists items,
      OrderDesk.items body = Some items
      /\ items <> []
      /\ ov_items order = map hexString items
      /\ ov_tax order = orZero (tax body)
      /\ ov_discount order = orZero (discount body)
      /\ ov_total order = ov_subtotal order + ov_tax order - ov_discount order
      /\ 0 <= ov_subtotal order
      /\ 0 <= ov_tax order
      /\ 0 <= ov_discount order
      /\ 0 <= ov_total order
      /\ (forall s, subtotal body = Some s -> ov_subtotal order = s)
      /\ (subtotal body = None ->
          NoDup (map menu_id menu) ->
          (forall i, In i items -> hexString i = i) ->
          (forall i, In i items -> onMenu menu i)
          /\ ov_subtotal order = billAlongMenu menu items).
Proof.
  intros clock countFails createdAtNow menu orders body order orders' H.
  destruct (createOrder_created_inv _ _ _ _ _ _ _ _ H)
    as (items & calculated & Hitems & Hne & Hcalc & Hids & Hsub & Htax & Hdis
        & Htotal & H0 & H1 & H2 & H3 & _).
  exists items.
  split; [exact Hitems|]. split; [exact Hne|]. split; [exact Hids|].
  split; [exact Htax|]. split; [exact Hdis|].
  split; [exact Htotal|]. split; [exact H0|]. split; [exact H1|].
  split; [exact H2|]. split; [exact H3|]. split.
  - intros s Hs. rewrite Hsub, Hs. reflexivity.
  - intros Hnone Hmenu Hhex.
    rewrite Hnone in Hcalc, Hsub. destruct Hcalc as [Hlen Hcalc].
    assert (Hsame : map hexString items = items).
    { rewrite <- (map_id items) at 2. apply map_ext_in. exact Hhex. }
    rewrite Hsame in Hlen, Hcalc. split.
    + intros i Hi. unfold onMenu.
      apply (proj1 (menuFind_all_found menu (uniqueStrings items) Hmenu
                      (NoDup_uniqueStrings items)) Hlen).
      apply In_uniqueStrings. assumption.
    + rewrite Hsub, Hcalc. apply calculatedSubtotal_along_menu.
Qed.

(** X28.  An order is stored only with a 201, as the last document of the
    collection, under the order number the hook gave it, which no stored
    order carries; any other answer leaves the collection as it was. *)
Theorem createOrder_stores_an_unused_number :
  forall clock countFails createdAtNow menu orders body resp orders',
    createOrder isValid hexString clock countFails createdAtNow menu orders
                body
    = (resp, orders') ->
    (forall order,
        resp = Created201 order ->
        exists saved,
          orders' = (orders ++ [saved])%list
          /\ orderNumber saved = ov_orderNumber order
          /\ truthy_opt (orderNumber saved) = true
          /\ createdAt saved = createdAtNow
          /\ ov_createdAt order = createdAtNow
          /\ forall o, In o orders -> orderNumber o <> orderNumber saved)
    /\ ((forall order, resp <> Created201 order) -> orders' = orders).
Proof.
  intros clock countFails createdAtNow menu orders body resp orders' H.
  split.
  - intros order Hresp. subst resp.
    destruct (createOrder_created_inv _ _ _ _ _ _ _ _ H)
      as (items & calculated & _ & _ & _ & _ & _ & _ & _ & _ & _ & _ & _ & _
          & Hstore & Hno & Hview & Hclash).
    exists (preSave clock orders countFails
              {| orderNumber := None; createdAt := createdAtNow |}).
    assert (Hat : createdAt
                    (preSave clock orders countFails
                       {| orderNumber := None; createdAt := createdAtNow |})
                  = createdAtNow).
    { unfold preSave. cbn [truthy_opt orderNumber negb].
      destruct countFails; reflexivity. }
    split; [exact Hstore|]. split; [symmetry; exact Hno|].
    split; [apply preSave_assigns_number|]. split; [exact Hat|].
    split.
    + rewrite Hview. exact Hat.
    + intros o Hin Heq.
      assert (Hyes : existsb
                       (sameOrderNumber
                          (preSave clock orders countFails
                             {| orderNumber := None;
                                createdAt := createdAtNow |}))
                       orders = true).
      { apply existsb_exists. exists o. split; [assumption|].
        unfold sameOrderNumber. rewrite Heq.
        destruct (orderNumber _); [apply String.eqb_refl | reflexivity]. }
      congruence.
  - intros Hno. unfold createOrder in H. cbv zeta in H.
    repeat match type of H with
           | context [match ?x with _ => _ end] => destruct x
           end;
      inversion H; subst;
      first [reflexivity | exfalso; eapply Hno; reflexivity].
Qed.

End OrderDeskFacts.

Section OrderDeskInTheKitchen.

Import JS Orders OrderDesk OrderDeskProps.

Lemma createOrder_bills_the_items_witness :
  exists order,
    fst (createOrder Kitchen.isValid Kitchen.hexString Restaurant.dhaka false
           1717300800000 Kitchen.menu Restaurant.orders Kitchen.twoTeasOneRice)
    = Created201 order
    /\ ov_subtotal order = 180
    /\ ov_total order = 195.
Proof.
  pose proof (surjective_pairing
                (createOrder Kitchen.isValid Kitchen.hexString
                   Restaurant.dhaka false 1717300800000 Kitchen.menu
                   Restaurant.orders Kitchen.twoTeasOneRice)) as H.
  assert (Hc : exists order,
             fst (createOrder Kitchen.isValid Kitchen.hexString
                    Restaurant.dhaka false 1717300800000 Kitchen.menu
                    Restaurant.orders Kitchen.twoTeasOneRice)
             = Created201 order)
    by (eexists; vm_compute; reflexivity).
  destruct Hc as (order & Hc). rewrite Hc in H. exists order.
  split; [exact Hc|].
  destruct (createOrder_bills_the_items Kitchen.isValid Kitchen.hexString
              _ _ _ _ _ _ _ _ H)
    as (items & Hitems & _ & _ & Htax & Hdis & Htotal & _ & _ & _ & _ & _
        & Hpriced).
  injection Hitems as Hitems. subst items.
  assert (Hmenu : NoDup (map menu_id Kitchen.menu)).
  { repeat constructor; simpl; intuition discriminate. }
  destruct (Hpriced eq_refl Hmenu (fun i _ => eq_refl)) as [_ Hsub].
  rewrite Htotal, Htax, Hdis, Hsub. split; reflexivity.
Defined.

Lemma createOrder_stores_an_unused_number_witness :
  snd (createOrder Kitchen.isValid Kitchen.hexString Restaurant.dhaka false
         1717300800000 Kitchen.menu Restaurant.orders Kitchen.offMenu)
  = Restaurant.orders.
Proof.
  apply (proj2 (createOrder_stores_an_unused_number
                  Kitchen.isValid Kitchen.hexString Restaurant.dhaka false
                  1717300800000 Kitchen.menu Restaurant.orders Kitchen.offMenu
                  _ _ (surjective_pairing _))).
  intros order E. vm_compute in E. discriminate E.
Defined.

End OrderDeskInTheKitchen.
